(** * Universal Agent Gateway: the MCP dispatcher, the agent-logic client
      and the UCP discovery loader, embedded and verified.

    Sources embedded here:
    - [app/routes/api.mcp.$shopId.ts]  (TOOLS, getMerchantSession,
      handleToolCall, action)
    - [app/utils/agent-logic.ts]       (executeShopifyGraphQL, searchProducts,
      getProductByHandle, createCheckoutLink, logInteraction,
      trackMissedOpportunity, buildSystemPrompt, formatProductsForAI)
    - the UCP discovery route          (loader)

    Conventions.
    - A value that comes out of a parsed JSON body is a [JValue]; the tool
      arguments are untyped in the source ([Record<string, any>]) and stay
      untyped here.  Numbers are integers ([Z]).  Strings are byte strings.
    - What the upstream GraphQL schema types (products, carts, user errors)
      is typed here as well.
    - Asynchronous code is sequential: every [await] is a bind of the
      state-and-exception monad [M] over a [World] that holds the database
      tables, the log of outbound requests and the clock.  The database is
      taken to be reachable; Prisma's own checks (argument types, unique
      ids, record to update not found) are modelled.
    - The shop behind the GraphQL endpoint, the id generator of the
      database, [process.env.SHOPIFY_APP_URL] and [encodeURIComponent] are
      parameters of the development. *)

From Stdlib Require Import Ascii String ZArith.
From stdpp Require Import gmap strings list pretty.

Local Open Scope string_scope.

(** ** Characters that cannot be written inside a literal *)

Definition nl : string := String (ascii_of_nat 10) EmptyString.
Definition dq : string := String (ascii_of_nat 34) EmptyString.
Definition bsl : string := String (ascii_of_nat 92) EmptyString.

(** ** JavaScript values (the image of [JSON.parse], plus [undefined])

    Numbers are the integers and strings are byte strings.  A number is
    printed digit by digit, as JavaScript prints an integer that a double
    holds exactly and that is below 10^21 in absolute value; positions in a
    string and lengths are those of JavaScript for ASCII text.  Statements
    that print a value or cut a text are made for texts. *)

#[warnings="-register-all"] Inductive JValue : Type :=
| JUndefined
| JNull
| JBool (b : bool)
| JNum (n : Z)
| JStr (s : string)
| JArr (xs : list JValue)
| JObj (fields : list (string * JValue)).

(** ToBoolean: what [!v], [v || d] and [c ? a : b] look at. *)
Definition truthy (v : JValue) : bool :=
  match v with
  | JUndefined | JNull => false
  | JBool b => b
  | JNum n => negb (n =? 0)%Z
  | JStr s => negb (String.eqb s EmptyString)
  | JArr _ | JObj _ => true
  end.

(** [a || b] *)
Definition js_or (a b : JValue) : JValue := if truthy a then a else b.

(** ToString, as a template literal [`${v}`] applies it. *)
Fixpoint toStr (v : JValue) : string :=
  match v with
  | JUndefined => "undefined"
  | JNull => "null"
  | JBool b => if b then "true" else "false"
  | JNum n => pretty n
  | JStr s => s
  | JArr xs =>
      String.concat ","
        (map (fun x => match x with
                       | JUndefined | JNull => EmptyString
                       | _ => toStr x
                       end) xs)
  | JObj _ => "[object Object]"
  end.

(** [o.k] on a value that is neither [null] nor [undefined]: own
    properties of an object literal; the other values have none of the
    names the handlers read. *)
Fixpoint assoc (k : string) (fs : list (string * JValue)) : JValue :=
  match fs with
  | [] => JUndefined
  | (k', v) :: rest => if String.eqb k k' then v else assoc k rest
  end.

Definition field (k : string) (v : JValue) : JValue :=
  match v with
  | JObj fs => assoc k fs
  | _ => JUndefined
  end.

(** [q[i]] for a truthy [q]: array element, character of a string,
    property of an object under the decimal key. *)
Definition js_index (q : JValue) (i : nat) : JValue :=
  match q with
  | JArr xs => default JUndefined (xs !! i)
  | JStr s => match String.get i s with
              | Some c => JStr (String c EmptyString)
              | None => JUndefined
              end
  | JObj fs => assoc (pretty i) fs
  | _ => JUndefined
  end.

(** ** [JSON.stringify] *)

Definition hex_digit (n : nat) : ascii :=
  if (n <? 10)%nat then ascii_of_nat (48 + n) else ascii_of_nat (87 + n).

Definition escape_char (c : ascii) : string :=
  let n := nat_of_ascii c in
  if (n =? 34)%nat then bsl +:+ dq
  else if (n =? 92)%nat then bsl +:+ bsl
  else if (n =? 8)%nat then bsl +:+ "b"
  else if (n =? 9)%nat then bsl +:+ "t"
  else if (n =? 10)%nat then bsl +:+ "n"
  else if (n =? 12)%nat then bsl +:+ "f"
  else if (n =? 13)%nat then bsl +:+ "r"
  else if (n <? 32)%nat then
    bsl +:+ "u00" +:+ String (hex_digit (n / 16)) (String (hex_digit (n mod 16)) EmptyString)
  else String c EmptyString.

Fixpoint escape (s : string) : string :=
  match s with
  | EmptyString => EmptyString
  | String c rest => escape_char c +:+ escape rest
  end.

Definition quote (s : string) : string := dq +:+ escape s +:+ dq.
Arguments quote : simpl never.

(** Inside an array [undefined] prints as [null]; inside an object a
    field whose value is [undefined] is left out. *)
Fixpoint JSON_stringify (v : JValue) : string :=
  match v with
  | JUndefined | JNull => "null"
  | JBool b => if b then "true" else "false"
  | JNum n => pretty n
  | JStr s => quote s
  | JArr xs => "[" +:+ String.concat "," (map JSON_stringify xs) +:+ "]"
  | JObj fs =>
      "{" +:+
      String.concat ","
        ((fix members (fs : list (string * JValue)) : list string :=
            match fs with
            | [] => []
            | (k, x) :: rest =>
                match x with
                | JUndefined => members rest
                | _ => (quote k +:+ ":" +:+ JSON_stringify x) :: members rest
                end
            end) fs)
      +:+ "}"
  end.

(** ** Exceptions

    Everything the code can throw.  All but the last are instances of the
    JavaScript [Error] class and carry a message; the messages of the
    built-in errors stand for the engine's, whose wording changes with the
    engine and with the input. *)

Inductive Exn : Type :=
| Error (message : string)        (* [throw new Error(message)] in the source *)
| TypeError (message : string)    (* read of a property of null/undefined, call of a non-function, failed fetch *)
| SyntaxError (message : string)  (* [request.json()] or [response.json()] on a body that is not JSON *)
| PrismaError (message : string)  (* argument validation, unique constraint, record not found *)
| NotAnError.                     (* a thrown value that is not an [Error] *)

Definition exn_message (e : Exn) : option string :=
  match e with
  | Error m | TypeError m | SyntaxError m | PrismaError m => Some m
  | NotAnError => None
  end.

(** ** The persistent data model (Prisma rows) *)

Record Session : Type := mkSession {
  shop : string;
  accessToken : string }.

Record MerchantProfile : Type := mkProfile {
  profileId : string;
  isEnabled : bool;
  brandVoice : string;
  returnPolicy : option string;
  shippingInfo : option string;
  minFreeShipping : Z;
  updatedAt : option string }.

(** The columns [logInteraction] and the checkout handler write; the ones
    the order webhook fills in later play no part here. *)
Record AgentInteraction : Type := mkInteraction {
  merchantId : string;
  userIntent : string;
  inputQuery : option string;
  ai_checkoutId : option string;
  ai_checkoutUrl : option string;
  potentialValue : option string;   (* the decimal text handed to [parseFloat] *)
  userAgent : option string }.

Record MissedOpportunity : Type := mkMissed {
  count : Z;
  lastSeen : nat }.

(** ** Upstream GraphQL traffic *)

Record UpstreamRequest : Type := mkRequest {
  url : string;
  token : string;            (* the X-Shopify-Access-Token header *)
  payload : JValue }.        (* the object given to [JSON.stringify] as body *)

Definition requestBody (r : UpstreamRequest) : string := JSON_stringify (payload r).

Record Money : Type := mkMoney { amount : string; currencyCode : string }.
Record PriceRange : Type := mkRange { minVariantPrice : Money; maxVariantPrice : Money }.
Record Image : Type := mkImage { img_url : string; altText : option string }.

Record Variant : Type := mkVariant {
  v_id : string;
  v_title : string;
  v_price : string;
  availableForSale : bool;
  sku : option string }.

(** A product node as the upstream schema returns it. *)
Record ProductNode : Type := mkNode {
  n_id : string;
  n_title : string;
  n_description : string;
  n_handle : string;
  n_featuredImage : option Image;
  n_priceRange : PriceRange;
  n_variants_nodes : list Variant }.

Record ProductSearchResult : Type := mkProduct {
  p_id : string;
  p_title : string;
  p_description : string;
  p_handle : string;
  featuredImage : option Image;
  priceRange : PriceRange;
  variants : list Variant }.

Record CartNode : Type := mkCart {
  cart_id : string;
  cart_checkoutUrl : string;
  cart_totalAmount : Money }.

Record UserError : Type := mkUserError {
  ue_code : option string;
  ue_field : option (list string);
  ue_message : string }.

Inductive GqlData : Type :=
| DNull                                                   (* [data: null] *)
| DProducts (nodes : list ProductNode)                    (* [data.products.nodes] *)
| DProductByHandle (product : option ProductNode)         (* [data.productByHandle] *)
| DCartCreate (cart : option CartNode) (userErrors : list UserError).

Record GqlBody : Type := mkBody {
  errors : JValue;          (* the top-level [errors] member, [JUndefined] when absent *)
  data : GqlData }.

Record HttpReply : Type := mkReply {
  status : nat;
  statusText : string;
  body : option GqlBody }.  (* [None]: the body is not JSON *)

(** [response.ok] of the Fetch API. *)
Definition ok (r : HttpReply) : bool := (200 <=? status r)%nat && (status r <=? 299)%nat.

Inductive FetchOutcome : Type :=
| NetworkFailure (message : string)
| Responded (r : HttpReply).

(** ** The world a request runs in *)

Record World : Type := mkWorld {
  sessions : list Session;
  profiles : gmap string MerchantProfile;              (* unique on shop *)
  interactions : gmap string AgentInteraction;         (* by id *)
  minted : nat;                                        (* ids handed out so far *)
  missed : gmap (string * string) MissedOpportunity;   (* unique on (shop, searchTerm) *)
  sent : list UpstreamRequest;                         (* outbound requests, oldest first *)
  now : nat }.                                         (* what [new Date()] reads *)

Definition set_interactions (f : gmap string AgentInteraction → gmap string AgentInteraction)
    (w : World) : World :=
  mkWorld (sessions w) (profiles w) (f (interactions w)) (minted w) (missed w) (sent w) (now w).

Definition set_minted (n : nat) (w : World) : World :=
  mkWorld (sessions w) (profiles w) (interactions w) n (missed w) (sent w) (now w).

Definition set_missed (f : gmap (string * string) MissedOpportunity → gmap (string * string) MissedOpportunity)
    (w : World) : World :=
  mkWorld (sessions w) (profiles w) (interactions w) (minted w) (f (missed w)) (sent w) (now w).

Definition set_sent (l : list UpstreamRequest) (w : World) : World :=
  mkWorld (sessions w) (profiles w) (interactions w) (minted w) (missed w) l (now w).

(** ** The monad of the handlers: state and exceptions *)

Inductive Outcome (A : Type) : Type :=
| Return (a : A)
| Throw (e : Exn).
Arguments Return {A} a.
Arguments Throw {A} e.

Definition M (A : Type) : Type := World → Outcome A * World.

#[export] Instance M_ret : MRet M := λ A a w, (Return a, w).

#[export] Instance M_bind : MBind M := λ A B f m w,
  match m w with
  | (Return a, w') => f a w'
  | (Throw e, w') => (Throw e, w')
  end.

Definition throw {A : Type} (e : Exn) : M A := λ w, (Throw e, w).

Definition get_world : M World := λ w, (Return w, w).

(** ** GraphQL documents (verbatim) *)

Definition SEARCH_PRODUCTS_QUERY : string :=
"
  query SearchProducts($query: String!, $first: Int!) {
    products(first: $first, query: $query) {
      nodes {
        id
        title
        description
        handle
        featuredImage {
          url
          altText
        }
        priceRange {
          minVariantPrice {
            amount
            currencyCode
          }
          maxVariantPrice {
            amount
            currencyCode
          }
        }
        variants(first: 10) {
          nodes {
            id
            title
            price
            availableForSale
            sku
          }
        }
      }
    }
  }
".

Definition GET_PRODUCT_BY_HANDLE_QUERY : string :=
"
  query GetProductByHandle($handle: String!) {
    productByHandle(handle: $handle) {
      id
      title
      description
      handle
      featuredImage {
        url
        altText
      }
      priceRange {
        minVariantPrice {
          amount
          currencyCode
        }
        maxVariantPrice {
          amount
          currencyCode
        }
      }
      variants(first: 50) {
        nodes {
          id
          title
          price
          availableForSale
          sku
        }
      }
    }
  }
".

Definition CREATE_CART_MUTATION : string :=
"
  mutation CartCreate($input: CartInput!) {
    cartCreate(input: $input) {
      cart {
        id
        checkoutUrl
        cost {
          totalAmount {
            amount
            currencyCode
          }
        }
      }
      userErrors {
        code
        field
        message
      }
    }
  }
".

(** ** JSON renderings of the typed upstream data *)

Definition optStrJ (o : option string) : JValue :=
  match o with Some s => JStr s | None => JNull end.

Definition moneyJ (m : Money) : JValue :=
  JObj [("amount", JStr (amount m)); ("currencyCode", JStr (currencyCode m))].

Definition priceRangeJ (r : PriceRange) : JValue :=
  JObj [("minVariantPrice", moneyJ (minVariantPrice r));
        ("maxVariantPrice", moneyJ (maxVariantPrice r))].

Definition imageJ (o : option Image) : JValue :=
  match o with
  | Some i => JObj [("url", JStr (img_url i)); ("altText", optStrJ (altText i))]
  | None => JNull
  end.

Definition variantJ (v : Variant) : JValue :=
  JObj [("id", JStr (v_id v)); ("title", JStr (v_title v)); ("price", JStr (v_price v));
        ("availableForSale", JBool (availableForSale v)); ("sku", optStrJ (sku v))].

Definition productJ (p : ProductSearchResult) : JValue :=
  JObj [("id", JStr (p_id p)); ("title", JStr (p_title p));
        ("description", JStr (p_description p)); ("handle", JStr (p_handle p));
        ("featuredImage", imageJ (featuredImage p));
        ("priceRange", priceRangeJ (priceRange p));
        ("variants", JArr (map variantJ (variants p)))].

Definition userErrorJ (e : UserError) : JValue :=
  JObj [("code", optStrJ (ue_code e));
        ("field", match ue_field e with
                  | Some path => JArr (map JStr path)
                  | None => JNull
                  end);
        ("message", JStr (ue_message e))].

(** The object literal both product functions build from a node. *)
Definition shapeProduct (product : ProductNode) : ProductSearchResult :=
  mkProduct (n_id product) (n_title product) (n_description product) (n_handle product)
    (n_featuredImage product) (n_priceRange product)
    (map (λ v, mkVariant (v_id v) (v_title v) (v_price v) (availableForSale v) (sku v))
         (n_variants_nodes product)).

Record CheckoutResult : Type := mkCheckout {
  checkoutUrl : string;
  checkoutId : string;
  totalPrice : string;
  co_currencyCode : string }.

Record LineItem : Type := mkLine { variantId : JValue; quantity : JValue }.

(** The [input] object of the cart mutation. *)
Definition cartInput (lineItems : list LineItem) (interactionId : string) : JValue :=
  JObj [("lines", JArr (map (λ item, JObj [("merchandiseId", variantId item);
                                           ("quantity", quantity item)]) lineItems));
        ("attributes",
         JArr [JObj [("key", JStr "_source"); ("value", JStr "universal_agent_gateway")];
               JObj [("key", JStr "_interaction_id"); ("value", JStr interactionId)]]);
        ("note", JStr "Generated by AI Agent via Universal Agent Gateway")].

(** [variantIds.map(...)]: only an array has a [map] to call. *)
Definition js_elements (what : string) (v : JValue) : Outcome (list JValue) :=
  match v with
  | JArr xs => Return xs
  | JUndefined => Throw (TypeError ("Cannot read properties of undefined (reading 'map')"))
  | JNull => Throw (TypeError ("Cannot read properties of null (reading 'map')"))
  | _ => Throw (TypeError (what +:+ ".map is not a function"))
  end.

(** [variantIds.map((variantId, index) => ({ variantId, quantity: quantities[index] || 1 }))].
    The callback reads [quantities[index]], which throws on a [quantities]
    that is [null] or [undefined] as soon as there is one element. *)
Definition lineItemsOf (variantIds : list JValue) (quantities : JValue) : Outcome (list LineItem) :=
  match quantities, variantIds with
  | JUndefined, _ :: _ => Throw (TypeError "Cannot read properties of undefined (reading '0')")
  | JNull, _ :: _ => Throw (TypeError "Cannot read properties of null (reading '0')")
  | _, _ =>
      Return (imap (λ index variantId,
                      mkLine variantId (js_or (js_index quantities index) (JNum 1)))
                   variantIds)
  end.

Definition lift {A : Type} (o : Outcome A) : M A := λ w, (o, w).

(** Prisma checks the type of every argument before it talks to the
    database: a [String?] column takes a string, [null] or [undefined]. *)
Definition optionalString (column : string) (v : JValue) : Outcome (option string) :=
  match v with
  | JUndefined | JNull => Return None
  | JStr s => Return (Some s)
  | _ => Throw (PrismaError ("Argument `" +:+ column +:+ "`: Invalid value provided. Expected String, Null or undefined."))
  end.

(** The [fetch] call of [executeShopifyGraphQL]: url, token header, body. *)
Definition graphqlRequest (shopId accessTok query : string) (variables : JValue)
    : UpstreamRequest :=
  mkRequest ("https://" +:+ shopId +:+ "/admin/api/2025-01/graphql.json") accessTok
            (JObj [("query", JStr query); ("variables", variables)]).

(** ** Concrete scenarios (used by the closed examples at the end) *)

Definition demoShop : string := "demo.myshopify.com".

Definition demoProfile (enabled : bool) : MerchantProfile :=
  mkProfile "mp_1" enabled "friendly" None None 0 None.

Definition demoSession : Session := mkSession demoShop "shpat_demo".

(** One installed shop, its profile switched on or off, nothing logged yet. *)
Definition demoWorld (enabled : bool) : World :=
  mkWorld [demoSession] {[demoShop := demoProfile enabled]} ∅ 0 ∅ [] 0.

(** The same shop with no profile row at all. *)
Definition bareWorld : World := mkWorld [demoSession] ∅ ∅ 0 ∅ [] 0.

Definition demoId (n : nat) : string := "int_" +:+ pretty n.

Definition replyOk (d : GqlData) : FetchOutcome :=
  Responded (mkReply 200 "OK" (Some (mkBody JUndefined d))).

(** A shop whose catalog matches nothing. *)
Definition emptyCatalog : list UpstreamRequest → UpstreamRequest → FetchOutcome :=
  λ _ _, replyOk (DProducts []).

(** A shop that creates every cart it is asked for. *)
Definition cartShop : list UpstreamRequest → UpstreamRequest → FetchOutcome :=
  λ _ _, replyOk (DCartCreate
                    (Some (mkCart "gid://shopify/Cart/1" "https://demo.myshopify.com/cart/c/1"
                                  (mkMoney "10.00" "USD"))) []).

(** A shop that is down, one that rejects the query, one that rejects the cart. *)
Definition brokenShop : list UpstreamRequest → UpstreamRequest → FetchOutcome :=
  λ _ _, Responded (mkReply 500 "Internal Server Error" None).

Definition rejectingShop : list UpstreamRequest → UpstreamRequest → FetchOutcome :=
  λ _ _, Responded (mkReply 200 "OK"
           (Some (mkBody (JArr [JObj [("message", JStr "Throttled")]]) DNull))).

Definition invalidVariant : UserError :=
  mkUserError (Some "INVALID") (Some ["input"; "lines"; "0"; "merchandiseId"])
              "The merchandise with id v1 does not exist.".

Definition pickyShop : list UpstreamRequest → UpstreamRequest → FetchOutcome :=
  λ _ _, replyOk (DCartCreate None [invalidVariant]).

Definition rpcRequest (method : string) (id params : JValue) : JValue :=
  JObj [("jsonrpc", JStr "2.0"); ("method", JStr method); ("id", id); ("params", params)].

Definition toolCall (id : JValue) (name : string) (arguments : JValue) : JValue :=
  rpcRequest "tools/call" id (JObj [("name", JStr name); ("arguments", arguments)]).

(** The search request of the documented scenario: a red dress, id 1. *)
Definition redDress : JValue :=
  toolCall (JNum 1) "search_products" (JObj [("query", JStr "red dress"); ("limit", JNum 5)]).

(** A call of a tool the registry does not have, under request id 7. *)
Definition unknownToolCall : JValue := toolCall (JNum 7) "refund_order" (JObj []).

(** A method the dispatcher does not route. *)
Definition unknownMethodCall : JValue := rpcRequest "orders/list" (JNum 3) JUndefined.

Definition toolsListCall (id : JValue) : JValue := rpcRequest "tools/list" id JUndefined.

(** A checkout of one variant with the quantity 0 spelled out. *)
Definition zeroQuantityCheckout : JValue :=
  toolCall (JNum 2) "create_checkout"
    (JObj [("variant_ids", JArr [JStr "gid://shopify/ProductVariant/1"]);
           ("quantities", JArr [JNum 0])]).

(** A search that leaves the limit at 0. *)
Definition zeroLimitArguments : JValue :=
  JObj [("query", JStr "red dress"); ("limit", JNum 0)].

(** ** The gateway, relative to what the deployment supplies *)

Section Gateway.

(** The upstream shop: its answer to a request, given the requests it has
    already seen (so that a repeated request may be answered differently). *)
Variable upstream : list UpstreamRequest → UpstreamRequest → FetchOutcome.

(** The id the database gives the n-th AgentInteraction row it is asked to
    create (the schema's id default; the schema is not part of the sources). *)
Variable newId : nat → string.

(** [process.env.SHOPIFY_APP_URL] and the built-in [encodeURIComponent]. *)
Variable SHOPIFY_APP_URL : option string.
Variable encodeURIComponent : string → string.

(** *** Prisma operations *)

Definition findSession (shopId : string) (w : World) : option Session :=
  List.find (λ s, String.eqb (shop s) shopId) (sessions w).

(** [prisma.session.findFirst({ where: { shop }, include: { profile: true } })] *)
Definition session_findFirst (shopId : string) : M (option (Session * option MerchantProfile)) :=
  w ← get_world;
  mret (match findSession shopId w with
        | Some s => Some (s, profiles w !! shop s)
        | None => None
        end).

(** [prisma.merchantProfile.findUnique({ where: { shop } })] *)
Definition merchantProfile_findUnique (shopId : string) : M (option MerchantProfile) :=
  w ← get_world; mret (profiles w !! shopId).

(** [prisma.agentInteraction.create({ data })] *)
Definition agentInteraction_create (row : AgentInteraction) : M string := λ w,
  let id := newId (minted w) in
  match interactions w !! id with
  | Some _ =>
      (Throw (PrismaError "Unique constraint failed on the fields: (`id`)"),
       set_minted (S (minted w)) w)
  | None =>
      (Return id, set_minted (S (minted w)) (set_interactions (insert id row) w))
  end.

(** [prisma.agentInteraction.update({ where: { id }, data })] *)
Definition agentInteraction_update (id : string) (f : AgentInteraction → AgentInteraction)
    : M unit := λ w,
  match interactions w !! id with
  | Some row => (Return tt, set_interactions (insert id (f row)) w)
  | None => (Throw (PrismaError "Record to update not found."), w)
  end.

(** [prisma.missedOpportunity.upsert]: one atomic increment-or-create. *)
Definition missedOpportunity_upsert (shopId searchTerm : string) : M unit := λ w,
  (Return tt,
   set_missed (λ m, match m !! (shopId, searchTerm) with
                    | Some row => <[(shopId, searchTerm) := mkMissed (count row + 1) (now w)]> m
                    | None => <[(shopId, searchTerm) := mkMissed 1 (now w)]> m
                    end) w).

(** *** agent-logic *)

(** What [executeShopifyGraphQL] makes of the answer to its [fetch]. *)
Definition checkResponse (answer : FetchOutcome) : Outcome GqlBody :=
  match answer with
  | NetworkFailure message => Throw (TypeError message)
  | Responded response =>
      if negb (ok response) then
        Throw (Error ("Shopify API error: " +:+ pretty (status response) +:+ " "
                      +:+ statusText response))
      else
        match body response with
        | None => Throw (SyntaxError "Unexpected token in JSON")
        | Some reply =>
            if truthy (errors reply) then
              Throw (Error ("GraphQL errors: " +:+ JSON_stringify (errors reply)))
            else Return reply
        end
  end.

(** One [fetch], no loop around it. *)
Definition executeShopifyGraphQL (shopId accessTok query : string) (variables : JValue)
    : M GqlBody := λ w,
  let request := graphqlRequest shopId accessTok query variables in
  (checkResponse (upstream (sent w) request), set_sent (sent w ++ [request]) w).

(** The parameter default [limit: number = 10]: taken when the argument is
    [undefined]. *)
Definition limitOrDefault (limit : JValue) : JValue :=
  match limit with JUndefined => JNum 10 | _ => limit end.

Definition searchProducts (shopId accessTok : string) (query limit : JValue)
    : M (list ProductSearchResult) :=
  let limit := limitOrDefault limit in
  reply ← executeShopifyGraphQL shopId accessTok SEARCH_PRODUCTS_QUERY
            (JObj [("query", query); ("first", limit)]);
  match data reply with
  | DProducts nodes => mret (map shapeProduct nodes)
  | DNull => throw (TypeError "Cannot read properties of null (reading 'products')")
  | _ => throw (TypeError "Cannot read properties of undefined (reading 'nodes')")
  end.

Definition getProductByHandle (shopId accessTok : string) (handle : JValue)
    : M (option ProductSearchResult) :=
  reply ← executeShopifyGraphQL shopId accessTok GET_PRODUCT_BY_HANDLE_QUERY
            (JObj [("handle", handle)]);
  match data reply with
  | DProductByHandle product => mret (shapeProduct <$> product)
  | DNull => throw (TypeError "Cannot read properties of null (reading 'productByHandle')")
  | _ => mret None
  end.

Definition createCheckoutLink (shopId accessTok : string) (variantIds quantities : JValue)
    (interactionId : string) : M CheckoutResult :=
  ids ← lift (js_elements "variantIds" variantIds);
  lineItems ← lift (lineItemsOf ids quantities);
  reply ← executeShopifyGraphQL shopId accessTok CREATE_CART_MUTATION
            (JObj [("input", cartInput lineItems interactionId)]);
  match data reply with
  | DCartCreate cart userErrors =>
      if (0 <? length userErrors)%nat then
        throw (Error ("Cart creation failed: "
                      +:+ JSON_stringify (JArr (map userErrorJ userErrors))))
      else
        match cart with
        | Some c =>
            mret (mkCheckout (cart_checkoutUrl c) (cart_id c)
                             (amount (cart_totalAmount c)) (currencyCode (cart_totalAmount c)))
        | None => throw (TypeError "Cannot read properties of null (reading 'checkoutUrl')")
        end
  | DNull => throw (TypeError "Cannot read properties of null (reading 'cartCreate')")
  | _ => throw (TypeError "Cannot read properties of undefined (reading 'cart')")
  end.

Definition logInteraction (merchant intent : string) (query : JValue)
    (coId coUrl value agent : option string) : M string :=
  q ← lift (optionalString "inputQuery" query);
  agentInteraction_create (mkInteraction merchant intent q coId coUrl value agent).

Definition trackMissedOpportunity (shopId : string) (searchTerm : JValue) : M unit :=
  match searchTerm with
  | JStr term => missedOpportunity_upsert shopId term
  | _ => throw (PrismaError "Argument `searchTerm`: Invalid value provided. Expected String.")
  end.

Record MerchantContext : Type := mkContext {
  ctx_shop : string;
  ctx_accessToken : string;
  ctx_brandVoice : string;
  ctx_returnPolicy : option string;
  ctx_shippingInfo : option string;
  ctx_minFreeShipping : Z }.

Definition nonempty (s : string) : bool := negb (String.eqb s EmptyString).

(** Truthiness of an optional text column ([null] and the empty string are falsy). *)
Definition present (o : option string) : bool :=
  match o with Some s => nonempty s | None => false end.

Definition buildSystemPrompt (context : MerchantContext) : string :=
  String.concat (nl +:+ nl)
    (["You are a helpful shopping assistant for " +:+ ctx_shop context +:+ ".";
      "Your tone should be " +:+ ctx_brandVoice context +:+ "."]
     ++ (if present (ctx_returnPolicy context)
         then ["Return Policy: " +:+ default EmptyString (ctx_returnPolicy context)] else [])
     ++ (if present (ctx_shippingInfo context)
         then ["Shipping Information: " +:+ default EmptyString (ctx_shippingInfo context)] else [])
     ++ (if (0 <? ctx_minFreeShipping context)%Z
         then ["Free shipping is available on orders over $"
               +:+ pretty (ctx_minFreeShipping context) +:+ "."] else [])
     ++ ["Always be helpful and guide customers to find what they're looking for.";
         "When suggesting products, include prices and availability.";
         "If you can't find what the customer wants, suggest alternatives."]).

Definition formatProductsForAI (products : list ProductSearchResult) : string :=
  if (length products =? 0)%nat then "No products found matching your search."
  else
    String.concat (nl +:+ nl)
      (imap (λ i p,
          let minPrice := minVariantPrice (priceRange p) in
          let availableVariants := List.filter availableForSale (variants p) in
          pretty (i + 1)%nat +:+ ". **" +:+ p_title p +:+ "**" +:+ nl
          +:+ "   - Price: " +:+ currencyCode minPrice +:+ " " +:+ amount minPrice +:+ nl
          +:+ "   - " +:+ pretty (length availableVariants) +:+ " variant(s) available" +:+ nl
          +:+ "   - Handle: " +:+ p_handle p +:+ nl
          +:+ "   " +:+ (if nonempty (p_description p)
                         then "- Description: " +:+ String.substring 0 150 (p_description p) +:+ "..."
                         else EmptyString))
        products).

(** *** The tool registry *)

Definition TOOLS : JValue :=
  JArr [
    JObj [("name", JStr "search_products");
          ("description", JStr "Search for products in the store catalog. Use this to find products matching a query.");
          ("inputSchema", JObj [
             ("type", JStr "object");
             ("properties", JObj [
                ("query", JObj [("type", JStr "string");
                                ("description", JStr "Search query (e.g., 'red dress', 'gifts under $50')")]);
                ("limit", JObj [("type", JStr "integer");
                                ("description", JStr "Maximum number of results to return");
                                ("default", JNum 10)])]);
             ("required", JArr [JStr "query"])])];
    JObj [("name", JStr "get_product");
          ("description", JStr "Get detailed information about a specific product by its handle/slug.");
          ("inputSchema", JObj [
             ("type", JStr "object");
             ("properties", JObj [
                ("handle", JObj [("type", JStr "string");
                                 ("description", JStr "The product handle (URL slug)")])]);
             ("required", JArr [JStr "handle"])])];
    JObj [("name", JStr "create_checkout");
          ("description", JStr "Create an instant checkout link for one or more products. Returns a URL the customer can use to purchase.");
          ("inputSchema", JObj [
             ("type", JStr "object");
             ("properties", JObj [
                ("variant_ids", JObj [("type", JStr "array");
                                      ("items", JObj [("type", JStr "string")]);
                                      ("description", JStr "Array of Shopify variant GIDs (e.g., 'gid://shopify/ProductVariant/12345')")]);
                ("quantities", JObj [("type", JStr "array");
                                     ("items", JObj [("type", JStr "integer")]);
                                     ("description", JStr "Array of quantities for each variant (defaults to 1 for each)")])]);
             ("required", JArr [JStr "variant_ids"])])];
    JObj [("name", JStr "get_store_info");
          ("description", JStr "Get information about the store's policies and details.");
          ("inputSchema", JObj [
             ("type", JStr "object");
             ("properties", JObj [
                ("topic", JObj [("type", JStr "string");
                                ("enum", JArr [JStr "shipping"; JStr "returns"; JStr "brand"; JStr "all"]);
                                ("description", JStr "The topic to get information about")])])])]
  ].

(** *** api.mcp.$shopId: session lookup and tool handlers *)

Definition getMerchantSession (shopId : string) : M (Session * option MerchantProfile) :=
  found ← session_findFirst shopId;
  match found with
  | None => throw (Error "Shop not found")
  | Some (session, profile) =>
      if negb (default false (isEnabled <$> profile))
      then throw (Error "AI Agent is disabled for this store")
      else mret (session, profile)
  end.

(** [merchantProfile.x] *)
Definition ofProfile {A : Type} (name : string) (f : MerchantProfile → A)
    (merchantProfile : option MerchantProfile) : M A :=
  match merchantProfile with
  | Some p => mret (f p)
  | None => throw (TypeError ("Cannot read properties of null (reading '" +:+ name +:+ "')"))
  end.

(** [v === "literal"] *)
Definition is_str (v : JValue) (s : string) : bool :=
  match v with JStr t => String.eqb t s | _ => false end.

Definition textBlock (text : string) (data : JValue) : JValue :=
  JObj [("type", JStr "text"); ("text", JStr text); ("data", data)].

Definition textOnly (text : string) : JValue :=
  JObj [("type", JStr "text"); ("text", JStr text)].

Definition handleToolCall (toolName args : JValue) (session : Session)
    (merchantProfile : option MerchantProfile) : M JValue :=
  let shopId := shop session in
  let accessTok := accessToken session in
  if is_str toolName "search_products" then
    let query := field "query" args in
    let limit := js_or (field "limit" args) (JNum 10) in
    products ← searchProducts shopId accessTok query limit;
    _ ← (if (length products =? 0)%nat then trackMissedOpportunity shopId query else mret tt);
    merchant ← ofProfile "id" profileId merchantProfile;
    _ ← logInteraction merchant "search_products" query None None None None;
    mret (textBlock
            (if (0 <? length products)%nat then formatProductsForAI products
             else "No products found for " +:+ dq +:+ toStr query +:+ dq
                  +:+ ". Try a different search term.")
            (JArr (map productJ products)))
  else if is_str toolName "get_product" then
    let handle := field "handle" args in
    product ← getProductByHandle shopId accessTok handle;
    merchant ← ofProfile "id" profileId merchantProfile;
    _ ← logInteraction merchant "get_product" handle None None None None;
    match product with
    | None =>
        mret (textOnly ("Product with handle " +:+ dq +:+ toStr handle +:+ dq +:+ " not found."))
    | Some p =>
        let availableVariants := List.filter availableForSale (variants p) in
        mret (textBlock
                ("**" +:+ p_title p +:+ "**" +:+ nl
                 +:+ "        " +:+ nl
                 +:+ (if nonempty (p_description p) then p_description p
                      else "No description available.") +:+ nl
                 +:+ nl
                 +:+ "Price: " +:+ currencyCode (minVariantPrice (priceRange p)) +:+ " "
                 +:+ amount (minVariantPrice (priceRange p)) +:+ nl
                 +:+ pretty (length availableVariants) +:+ " variant(s) in stock" +:+ nl
                 +:+ nl
                 +:+ "Variants:" +:+ nl
                 +:+ String.concat nl
                       (map (λ v, "- " +:+ v_title v +:+ ": " +:+ v_price v
                                  +:+ " (ID: " +:+ v_id v +:+ ")") availableVariants))
                (productJ p))
    end
  else if is_str toolName "create_checkout" then
    let variantIds := field "variant_ids" args in
    quantities ← (if truthy (field "quantities" args) then mret (field "quantities" args)
                  else ids ← lift (js_elements "variantIds" variantIds);
                       mret (JArr (map (λ _, JNum 1) ids)));
    merchant ← ofProfile "id" profileId merchantProfile;
    interactionId ← logInteraction merchant "create_checkout"
                      (JStr (JSON_stringify (JObj [("variantIds", variantIds);
                                                   ("quantities", quantities)])))
                      None None None None;
    checkout ← createCheckoutLink shopId accessTok variantIds quantities interactionId;
    _ ← agentInteraction_update interactionId
          (λ row, mkInteraction (merchantId row) (userIntent row) (inputQuery row)
                    (Some (checkoutId checkout)) (Some (checkoutUrl checkout))
                    (Some (totalPrice checkout)) (userAgent row));
    mret (textBlock
            ("✅ Checkout created!" +:+ nl
             +:+ nl
             +:+ "**Total:** " +:+ co_currencyCode checkout +:+ " " +:+ totalPrice checkout +:+ nl
             +:+ "**Checkout URL:** " +:+ checkoutUrl checkout +:+ nl
             +:+ nl
             +:+ "Share this link with the customer to complete their purchase.")
            (JObj [("checkoutUrl", JStr (checkoutUrl checkout));
                   ("checkoutId", JStr (checkoutId checkout));
                   ("totalPrice", JStr (totalPrice checkout));
                   ("currencyCode", JStr (co_currencyCode checkout))]))
  else if is_str toolName "get_store_info" then
    let topic := js_or (field "topic" args) (JStr "all") in
    voice ← ofProfile "brandVoice" brandVoice merchantProfile;
    returns ← ofProfile "returnPolicy" returnPolicy merchantProfile;
    shipping ← ofProfile "shippingInfo" shippingInfo merchantProfile;
    threshold ← ofProfile "minFreeShipping" minFreeShipping merchantProfile;
    let context := mkContext shopId accessTok voice returns shipping threshold in
    let info :=
      (if is_str topic "all" || is_str topic "brand"
       then "**Brand Voice:** " +:+ ctx_brandVoice context +:+ nl +:+ nl else EmptyString)
      +:+ (if is_str topic "all" || is_str topic "shipping"
           then (if present (ctx_shippingInfo context)
                 then "**Shipping:** " +:+ default EmptyString (ctx_shippingInfo context) +:+ nl
                 else "**Shipping:** Contact the store for shipping information." +:+ nl)
                +:+ (if (0 <? ctx_minFreeShipping context)%Z
                     then "Free shipping on orders over $"
                          +:+ pretty (ctx_minFreeShipping context) +:+ "." +:+ nl
                     else EmptyString)
                +:+ nl
           else EmptyString)
      +:+ (if is_str topic "all" || is_str topic "returns"
           then (if present (ctx_returnPolicy context)
                 then "**Returns:** " +:+ default EmptyString (ctx_returnPolicy context) +:+ nl
                 else "**Returns:** Contact the store for return policy information." +:+ nl)
           else EmptyString) in
    merchant ← ofProfile "id" profileId merchantProfile;
    _ ← logInteraction merchant "get_store_info" topic None None None None;
    mret (textOnly (if nonempty info then info else "No store information available."))
  else throw (Error ("Unknown tool: " +:+ toStr toolName)).

(** *** api.mcp.$shopId: the dispatcher *)

Record HttpResponse : Type := mkResponse {
  resp_status : nat;
  resp_headers : list (string * string);
  resp_body : JValue }.

(** The bytes on the wire. *)
Definition responseText (r : HttpResponse) : string := JSON_stringify (resp_body r).

(** Remix's [json(data, init)]: the content type is added unless given. *)
Definition json_init (data : JValue) (code : nat) (headers : list (string * string))
    : HttpResponse :=
  mkResponse code
    (if existsb (λ h, String.eqb (fst h) "Content-Type") headers then headers
     else headers ++ [("Content-Type", "application/json; charset=utf-8")])
    data.

Definition json (data : JValue) : HttpResponse := json_init data 200 [].

Definition rpcResult (id result : JValue) : JValue :=
  JObj [("jsonrpc", JStr "2.0"); ("id", id); ("result", result)].

Definition rpcError (id : JValue) (code : Z) (message : string) : JValue :=
  JObj [("jsonrpc", JStr "2.0"); ("id", id);
        ("error", JObj [("code", JNum code); ("message", JStr message)])].

(** Reading a property of (or destructuring) a value that may be null. *)
Definition deref (what : string) (v : JValue) : M JValue :=
  match v with
  | JUndefined => throw (TypeError ("Cannot read properties of undefined (reading '" +:+ what +:+ "')"))
  | JNull => throw (TypeError ("Cannot read properties of null (reading '" +:+ what +:+ "')"))
  | _ => mret v
  end.

Definition contextResource (shopId : string) : string := "shop://" +:+ shopId +:+ "/context".

(** The [switch (method)] of [action], after the body has been taken apart. *)
Definition route (shopId : string) (session : Session) (profile : option MerchantProfile)
    (body : JValue) : M HttpResponse :=
  let method := field "method" body in
  let rpcParams := field "params" body in
  let id := field "id" body in
  if is_str method "initialize" then
    mret (json (rpcResult id
      (JObj [("protocolVersion", JStr "2024-11-05");
             ("capabilities", JObj [("tools", JObj [])]);
             ("serverInfo", JObj [("name", JStr "Universal Agent Gateway");
                                  ("version", JStr "1.0.0")])])))
  else if is_str method "tools/list" then
    mret (json (rpcResult id (JObj [("tools", TOOLS)])))
  else if is_str method "tools/call" then
    rpcParams ← deref "name" rpcParams;
    let name := field "name" rpcParams in
    let toolArgs := field "arguments" rpcParams in
    result ← handleToolCall name (js_or toolArgs (JObj [])) session profile;
    mret (json (rpcResult id (JObj [("content", JArr [result])])))
  else if is_str method "resources/list" then
    mret (json (rpcResult id
      (JObj [("resources",
              JArr [JObj [("uri", JStr (contextResource shopId));
                          ("name", JStr "Store Context");
                          ("description", JStr "Brand voice and policy information for this store");
                          ("mimeType", JStr "text/plain")]])])))
  else if is_str method "resources/read" then
    rpcParams ← deref "uri" rpcParams;
    let uri := field "uri" rpcParams in
    if is_str uri (contextResource shopId) then
      let context :=
        mkContext (shop session) (accessToken session)
          (match brandVoice <$> profile with
           | Some voice => if nonempty voice then voice else "friendly"
           | None => "friendly"
           end)
          (profile ≫= returnPolicy)
          (profile ≫= shippingInfo)
          (default 0%Z (minFreeShipping <$> profile)) in
      mret (json (rpcResult id
        (JObj [("contents",
                JArr [JObj [("uri", uri); ("mimeType", JStr "text/plain");
                            ("text", JStr (buildSystemPrompt context))]])])))
    else
      mret (json (rpcError id (-32602) "Resource not found"))
  else
    mret (json (rpcError id (-32601) ("Method not found: " +:+ toStr method))).

(** The body of the [try] block of [action]: parse, authenticate,
    destructure, route. *)
Definition dispatch (shopId : string) (request_json : option JValue) : M HttpResponse :=
  body ← (match request_json with
          | Some b => mret b
          | None => throw (SyntaxError "Unexpected end of JSON input")
          end);
  found ← getMerchantSession shopId;
  body ← deref "method" body;
  route shopId (fst found) (snd found) body.

(** The [catch] block of [action]. *)
Definition internalError (error : Exn) : HttpResponse :=
  json (rpcError JNull (-32603) (default "Internal error" (exn_message error))).

(** [action({ request, params })]: [shopId] is [params.shopId],
    [request_json] what [request.json()] yields ([None] when it rejects). *)
Definition action (shopId : option string) (request_json : option JValue) (w : World)
    : HttpResponse * World :=
  match shopId with
  | None => (json_init (JObj [("error", JStr "Shop ID is required")]) 400 [], w)
  | Some key =>
      if negb (nonempty key)
      then (json_init (JObj [("error", JStr "Shop ID is required")]) 400 [], w)
      else
        match dispatch key request_json w with
        | (Return response, w') => (response, w')
        | (Throw error, w') => (internalError error, w')
        end
  end.

(** *** The UCP discovery route *)

(** [s.replace(pattern, replacement)] with a string pattern: the first
    occurrence only. *)
Fixpoint replace_first (pattern replacement s : string) : string :=
  if String.prefix pattern s
  then replacement +:+ String.substring (String.length pattern)
                                         (String.length s - String.length pattern) s
  else match s with
       | EmptyString => EmptyString
       | String c rest => String c (replace_first pattern replacement rest)
       end.

Definition mcpEndpoint (shopId : string) : string :=
  default "undefined" SHOPIFY_APP_URL +:+ "/api/mcp/" +:+ encodeURIComponent shopId.

Definition disabledDocument : JValue :=
  JObj [("ucp_version", JStr "1.0");
        ("status", JStr "disabled");
        ("message", JStr "AI Agent is currently disabled for this store.")].

Definition ucpTools : JValue :=
  JArr [
    JObj [("name", JStr "search_products");
          ("description", JStr "Search for products in the store catalog");
          ("parameters", JObj [
             ("type", JStr "object");
             ("properties", JObj [
                ("query", JObj [("type", JStr "string");
                                ("description", JStr "Search query (e.g., 'red dress under $50')")]);
                ("limit", JObj [("type", JStr "integer");
                                ("description", JStr "Maximum number of results (default: 10)");
                                ("default", JNum 10)])]);
             ("required", JArr [JStr "query"])])];
    JObj [("name", JStr "get_product");
          ("description", JStr "Get detailed information about a specific product");
          ("parameters", JObj [
             ("type", JStr "object");
             ("properties", JObj [
                ("handle", JObj [("type", JStr "string");
                                 ("description", JStr "Product handle/slug")])]);
             ("required", JArr [JStr "handle"])])];
    JObj [("name", JStr "create_checkout");
          ("description", JStr "Create an instant checkout link for products");
          ("parameters", JObj [
             ("type", JStr "object");
             ("properties", JObj [
                ("variant_ids", JObj [("type", JStr "array");
                                      ("items", JObj [("type", JStr "string")]);
                                      ("description", JStr "Array of product variant IDs to add to cart")]);
                ("quantities", JObj [("type", JStr "array");
                                     ("items", JObj [("type", JStr "integer")]);
                                     ("description", JStr "Array of quantities for each variant")])]);
             ("required", JArr [JStr "variant_ids"])])];
    JObj [("name", JStr "get_store_info");
          ("description", JStr "Get information about the store (shipping, returns, etc.)");
          ("parameters", JObj [
             ("type", JStr "object");
             ("properties", JObj [
                ("topic", JObj [("type", JStr "string");
                                ("enum", JArr [JStr "shipping"; JStr "returns"; JStr "contact"; JStr "about"]);
                                ("description", JStr "Topic to get information about")])])])]
  ].

Definition ucpProfile (shopId : string) (profile : MerchantProfile) : JValue :=
  let capability (kind description : string) :=
    JObj [("type", JStr kind); ("description", JStr description);
          ("mcp_endpoint", JStr (mcpEndpoint shopId))] in
  JObj [("ucp_version", JStr "1.0");
        ("store", JObj [("name", JStr (replace_first ".myshopify.com" EmptyString shopId));
                        ("domain", JStr shopId)]);
        ("capabilities",
         JArr [capability "discovery" "Search and browse products";
               capability "checkout" "Create instant checkout links";
               capability "inquiry" "Answer questions about products, shipping, and returns"]);
        ("tools", ucpTools);
        ("metadata",
         JObj [("brand_voice", JStr (brandVoice profile));
               ("free_shipping_threshold", JNum (minFreeShipping profile));
               ("last_updated", match updatedAt profile with
                                | Some iso => JStr iso
                                | None => JUndefined
                                end)])].

(** [loader({ request })] of the discovery route.  [auth] is what
    [authenticate.public.appProxy(request)] does: it throws, or yields the
    session of the shop behind the proxy, if any. *)
Definition loader (auth : Outcome (option Session)) (w : World) : HttpResponse :=
  match auth with
  | Throw _ =>
      json_init (JObj [("error", JStr "Internal server error")]) 500
                [("Content-Type", "application/json")]
  | Return None =>
      json_init (JObj [("error", JStr "Unauthorized")]) 401
                [("Content-Type", "application/json")]
  | Return (Some session) =>
      let shopId := shop session in
      match merchantProfile_findUnique shopId w with
      | (Throw _, _) =>
          json_init (JObj [("error", JStr "Internal server error")]) 500
                    [("Content-Type", "application/json")]
      | (Return profile, _) =>
          if negb (default false (isEnabled <$> profile)) then
            json_init disabledDocument 200
                      [("Content-Type", "application/json");
                       ("Cache-Control", "public, max-age=300")]
          else
            match profile with
            | Some p =>
                json_init (ucpProfile shopId p) 200
                          [("Content-Type", "application/json");
                           ("Cache-Control", "public, max-age=300");
                           ("Access-Control-Allow-Origin", "*")]
            | None =>
                json_init (JObj [("error", JStr "Internal server error")]) 500
                          [("Content-Type", "application/json")]
            end
      end
  end.

(** *** Vocabulary of the statements *)

(** The tenant behind [shopId] has a session and a profile that is on. *)
Definition tenantEnabled (shopId : string) (w : World) : bool :=
  match findSession shopId w with
  | Some s => default false (isEnabled <$> profiles w !! shop s)
  | None => false
  end.

(** The tenant has a session and a profile row whose flag is off. *)
Definition tenantDisabled (shopId : string) (w : World) : bool :=
  match findSession shopId w with
  | Some s => match profiles w !! shop s with
              | Some p => negb (isEnabled p)
              | None => false
              end
  | None => false
  end.

(** A body that [request.json()] can yield and that can be destructured. *)
Definition destructurable (body : JValue) : bool :=
  match body with JUndefined | JNull => false | _ => true end.

Definition knownMethod (method : JValue) : bool :=
  is_str method "initialize" || is_str method "tools/list" || is_str method "tools/call"
  || is_str method "resources/list" || is_str method "resources/read".

Definition errorCode (r : HttpResponse) : JValue := field "code" (field "error" (resp_body r)).

(** A non-empty list, as in a populated [errors] member. *)
Definition populated (v : JValue) : bool :=
  match v with JArr (_ :: _) => true | _ => false end.

Definition missedCount (shopId term : string) (w : World) : Z :=
  default 0%Z (count <$> missed w !! (shopId, term)).

(** The [input] a cart request carries, and its parts. *)
Definition inputOf (r : UpstreamRequest) : JValue :=
  field "input" (field "variables" (payload r)).

Definition toolNames : list JValue :=
  match TOOLS with JArr ts => map (field "name") ts | _ => [] end.

(** The one request each client call sends. *)
Definition searchRequest (shopId accessTok : string) (query limit : JValue) : UpstreamRequest :=
  graphqlRequest shopId accessTok SEARCH_PRODUCTS_QUERY
    (JObj [("query", query); ("first", limit)]).

Definition productRequest (shopId accessTok : string) (handle : JValue) : UpstreamRequest :=
  graphqlRequest shopId accessTok GET_PRODUCT_BY_HANDLE_QUERY (JObj [("handle", handle)]).

Definition cartRequest (shopId accessTok : string) (lineItems : list LineItem)
    (interactionId : string) : UpstreamRequest :=
  graphqlRequest shopId accessTok CREATE_CART_MUTATION
    (JObj [("input", cartInput lineItems interactionId)]).

(** [needle] occurs in [hay]. *)
Definition contains (needle hay : string) : Prop :=
  ∃ before after, hay = before +:+ needle +:+ after.

(** A call that sends exactly [request], once, whatever comes back, and
    throws on an answer with a non-success status or with a populated
    top-level error list. *)
Definition failsOnBadAnswer {A : Type} (call : M A) (request : UpstreamRequest) : Prop :=
  ∀ w,
    sent (snd (call w)) = (sent w ++ [request])%list
    ∧ ∀ r, upstream (sent w) request = Responded r →
        (ok r = false →
         fst (call w) = Throw (Error ("Shopify API error: " +:+ pretty (status r) +:+ " "
                                      +:+ statusText r)))
        ∧ (∀ b, ok r = true → body r = Some b → populated (errors b) = true →
           fst (call w) = Throw (Error ("GraphQL errors: " +:+ JSON_stringify (errors b)))).

(** The same request, n times in a row. *)
Fixpoint repeatRequest (n : nat) (shopId : string) (body : JValue) (w : World) : World :=
  match n with
  | O => w
  | S k => snd (action (Some shopId) (Some body) (repeatRequest k shopId body w))
  end.

(** *** More of agent-logic and of the MCP route *)

(** [getMerchantContext(shop)]: the context of a shop, [None] for [null]. *)
Definition getMerchantContext (shopId : string) : M (option MerchantContext) :=
  found ← session_findFirst shopId;
  mret (match found with
        | None => None
        | Some (session, profile) =>
            Some (mkContext (shop session) (accessToken session)
                    (match brandVoice <$> profile with
                     | Some voice => if nonempty voice then voice
                                     else "friendly and professional"
                     | None => "friendly and professional"
                     end)
                    (match profile ≫= returnPolicy with
                     | Some text => if nonempty text then Some text else None
                     | None => None
                     end)
                    (match profile ≫= shippingInfo with
                     | Some text => if nonempty text then Some text else None
                     | None => None
                     end)
                    (default 0%Z (minFreeShipping <$> profile)))
        end).

(** [loader({ params })] of api.mcp.$shopId: the health check behind GET. *)
Definition healthLoader (shopId : option string) (w : World) : HttpResponse :=
  match shopId with
  | None => json_init (JObj [("error", JStr "Shop ID is required")]) 400 []
  | Some key =>
      if negb (nonempty key)
      then json_init (JObj [("error", JStr "Shop ID is required")]) 400 []
      else
        match session_findFirst key w with
        | (Throw _, _) => json_init (JObj [("error", JStr "Internal error")]) 500 []
        | (Return None, _) => json_init (JObj [("error", JStr "Shop not found")]) 404 []
        | (Return (Some (session, profile)), _) =>
            json (JObj [("status", JStr "active");
                        ("shop", JStr key);
                        ("agentEnabled", JBool (default false (isEnabled <$> profile)));
                        ("mcp", JObj [("version", JStr "2024-11-05");
                                      ("transport", JStr "http");
                                      ("endpoint", JStr (mcpEndpoint key))]);
                        ("tools", JArr toolNames)])
        end
  end.

(** The CORS headers of the route. *)
Definition headers : list (string * string) :=
  [("Access-Control-Allow-Origin", "*");
   ("Access-Control-Allow-Methods", "GET, POST, OPTIONS");
   ("Access-Control-Allow-Headers", "Content-Type, Authorization")].

(** *** More vocabulary *)

(** [name] is the name of one of the descriptors of [TOOLS]. *)
Definition registered (name : JValue) : bool :=
  existsb (λ known, match name, known with
                    | JStr a, JStr b => String.eqb a b
                    | _, _ => false
                    end) toolNames.

(** The four methods that only read. *)
Definition readOnlyMethod (method : JValue) : bool :=
  is_str method "initialize" || is_str method "tools/list"
  || is_str method "resources/list" || is_str method "resources/read".

(** No id the database has yet to hand out is in use. *)
Definition idsUnused (w : World) : Prop :=
  ∀ k, (minted w ≤ k)%nat → interactions w !! newId k = None.

(** Every missed-opportunity row counts at least one search. *)
Definition countsPositive (w : World) : Prop :=
  ∀ key row, missed w !! key = Some row → (1 ≤ count row)%Z.

(** How a world may have changed since the ids from [base] on were unused:
    sessions, profiles and the clock are as they were, at most [requests]
    requests were sent and at most [rows] ids minted, interactions differ
    only under ids minted since [base], and no missed-opportunity row was
    removed or had its count lowered. *)
Definition change (base requests rows : nat) (w w' : World) : Prop :=
  sessions w' = sessions w ∧ profiles w' = profiles w ∧ now w' = now w
  ∧ (∃ more, sent w' = (sent w ++ more)%list ∧ (length more ≤ requests)%nat)
  ∧ (minted w ≤ minted w')%nat ∧ (minted w' ≤ minted w + rows)%nat
  ∧ (∀ id, interactions w' !! id = interactions w !! id
           ∨ ∃ k, (base ≤ k)%nat ∧ (k < minted w')%nat ∧ id = newId k)
  ∧ (∀ key row, missed w !! key = Some row →
       ∃ row', missed w' !! key = Some row' ∧ (count row ≤ count row')%Z)
  ∧ (countsPositive w → countsPositive w').

(** A computation that changes every world that way. *)
Definition effect {A : Type} (requests rows : nat) (m : M A) : Prop :=
  ∀ base w, (base ≤ minted w)%nat → change base requests rows w (snd (m w)).

(** The character [c] does not occur in [s]. *)
Fixpoint lacks (c : ascii) (s : string) : bool :=
  match s with
  | EmptyString => true
  | String x rest => negb (Ascii.eqb x c) && lacks c rest
  end.

(** The elements of a JSON array, none for anything else. *)
Definition elementsOf (v : JValue) : list JValue :=
  match v with JArr xs => xs | _ => [] end.

(** *** The webhook route *)

(** The columns of an AgentInteraction that only the order webhook writes.
    They are kept here by interaction id, beside the columns of
    [AgentInteraction]; [orderValue] is the text handed to [parseFloat]. *)
Record Conversion : Type := mkConversion {
  converted : bool;
  orderId : string;
  orderValue : string }.

(** The database as the webhooks see it. *)
Record Ledger : Type := mkLedger {
  tables : World;
  conversions : gmap string Conversion }.

(** [xs.find(pred)]: the first element the predicate accepts; a predicate
    that throws ends the search. *)
Fixpoint js_find (pred : JValue → Outcome bool) (xs : list JValue) : Outcome (option JValue) :=
  match xs with
  | [] => Return None
  | x :: rest =>
      match pred x with
      | Throw e => Throw e
      | Return true => Return (Some x)
      | Return false => js_find pred rest
      end
  end.

(** [attr => attr.name === name], with [&& attr.value === value] when a
    value is asked for; reading [attr.name] throws on [null]. *)
Definition attrIs (name : string) (value : option string) (attr : JValue) : Outcome bool :=
  match attr with
  | JUndefined => Throw (TypeError "Cannot read properties of undefined (reading 'name')")
  | JNull => Throw (TypeError "Cannot read properties of null (reading 'name')")
  | _ =>
      Return (is_str (field "name" attr) name
              && match value with
                 | Some v => is_str (field "value" attr) v
                 | None => true
                 end)
  end.

(** The part of [handleOrderCreate] before the database is touched: the id
    the order is attributed to and the columns to write, [None] when the
    order is passed over. *)
Definition orderAttribution (payload : JValue) : Outcome (option (JValue * Conversion)) :=
  match payload with
  | JUndefined =>
      Throw (TypeError "Cannot read properties of undefined (reading 'note_attributes')")
  | JNull => Throw (TypeError "Cannot read properties of null (reading 'note_attributes')")
  | _ =>
      match js_or (field "note_attributes" payload) (JArr []) with
      | JArr noteAttributes =>
          match js_find (attrIs "_source" (Some "universal_agent_gateway")) noteAttributes with
          | Throw e => Throw e
          | Return None => Return None
          | Return (Some _) =>
              match js_find (attrIs "_interaction_id" None) noteAttributes with
              | Throw e => Throw e
              | Return found =>
                  let interactionId :=
                    match found with Some attr => field "value" attr | None => JUndefined end in
                  if negb (truthy interactionId) then Return None
                  else Return (Some (interactionId,
                                     mkConversion true (toStr (field "id" payload))
                                       (toStr (js_or (field "total_price" payload)
                                                     (JStr "0")))))
              end
          end
      | _ => Throw (TypeError "noteAttributes.find is not a function")
      end
  end.

(** [handleOrderCreate(shop, payload)]: everything happens inside a [try]
    whose [catch] only logs, so a failure leaves the database as it was. *)
Definition handleOrderCreate (shopId : string) (payload : JValue) (l : Ledger) : Ledger :=
  match orderAttribution payload with
  | Return (Some (JStr interactionId, columns)) =>
      match interactions (tables l) !! interactionId with
      | Some _ => mkLedger (tables l) (<[interactionId := columns]> (conversions l))
      | None => l                          (* record to update not found *)
      end
  | _ => l
  end.

(** [handleAppUninstalled(shop)]: the profile of the shop goes, and with it
    (by the cascade of the schema the source relies on) the interactions of
    that profile; then the sessions and the missed opportunities of the
    shop. *)
Definition handleAppUninstalled (shopId : string) (l : Ledger) : Ledger :=
  let w := tables l in
  let kept : gmap string AgentInteraction :=
    match profiles w !! shopId with
    | Some p => filter (λ kv : string * AgentInteraction, merchantId kv.2 ≠ profileId p)
                       (interactions w)
    | None => interactions w
    end in
  mkLedger
    (mkWorld (List.filter (λ s, negb (String.eqb (shop s) shopId)) (sessions w))
             (delete shopId (profiles w))
             kept
             (minted w)
             (filter (λ kv : (string * string) * MissedOpportunity, kv.1.1 ≠ shopId) (missed w))
             (sent w) (now w))
    (filter (λ kv : string * Conversion, is_Some (kept !! kv.1)) (conversions l)).

(** [action({ request })] of the webhook route, for a delivery that
    [authenticate.webhook] has let through: what it leaves in the database
    (the response is always the empty 200). *)
Definition webhookAction (topic shopId : string) (payload : JValue) (l : Ledger) : Ledger :=
  if String.eqb topic "ORDERS_CREATE" then handleOrderCreate shopId payload l
  else if String.eqb topic "APP_UNINSTALLED" then handleAppUninstalled shopId l
  else l.

(** How the platform hands the attributes of a cart to the order made from
    it: each [{key, value}] of the cart input becomes a [{name, value}]
    note attribute. *)
Definition noteAttributesOf (input : JValue) : JValue :=
  match field "attributes" input with
  | JArr attrs =>
      JArr (map (λ attr, JObj [("name", field "key" attr); ("value", field "value" attr)])
                attrs)
  | _ => JArr []
  end.

(** Every conversion belongs to a stored interaction. *)
Definition conversionsAttached (l : Ledger) : Prop :=
  ∀ id, is_Some (conversions l !! id) → is_Some (interactions (tables l) !! id).

(** *** The dashboard *)

(** What the Prisma schema decides and the route does not: the row a new
    profile of a shop starts from (its id and the columns a [create] leaves
    out), and what an update does to the [updatedAt] column it is not
    given. *)
Variable profileDefaults : string → MerchantProfile.
Variable stampOnUpdate : option string → option string.

Definition set_profiles (f : gmap string MerchantProfile → gmap string MerchantProfile)
    (w : World) : World :=
  mkWorld (sessions w) (f (profiles w)) (interactions w) (minted w) (missed w) (sent w) (now w).

(** [prisma.merchantProfile.upsert({ where: { shop }, update, create })] *)
Definition merchantProfile_upsert (shopId : string)
    (update create : MerchantProfile → MerchantProfile) : M unit := λ w,
  (Return tt,
   set_profiles (λ m, match m !! shopId with
                      | Some row => <[shopId := update row]> m
                      | None => <[shopId := create (profileDefaults shopId)]> m
                      end) w).

(** [action({ request })] of the dashboard: [session] is what
    [authenticate.admin] yields, [formData] the posted form.  The answer is
    the JSON body. *)
Definition dashboardAction (session : Session) (formData : string → option string)
    (w : World) : JValue * World :=
  if match formData "intent" with
     | Some intent => String.eqb intent "toggle_agent"
     | None => false
     end
  then
      let enabled := match formData "isEnabled" with
                     | Some value => String.eqb value "true"
                     | None => false
                     end in
      match merchantProfile_upsert (shop session)
              (λ row, mkProfile (profileId row) enabled (brandVoice row) (returnPolicy row)
                        (shippingInfo row) (minFreeShipping row)
                        (stampOnUpdate (updatedAt row)))
              (λ row, mkProfile (profileId row) enabled "friendly and professional"
                        (returnPolicy row) (shippingInfo row) 50 (updatedAt row)) w with
      | (_, w') => (JObj [("status", JStr "success"); ("isEnabled", JBool enabled)], w')
      end
  else (JObj [("status", JStr "error"); ("message", JStr "Unknown action")], w).

(** *** Text helpers of the playground and the landing page

    Case and white space are those of ASCII: on a text with a byte outside
    ASCII, [toLowerCase], [trim] and a case-insensitive pattern may do more
    in JavaScript than here, so the statements about these two routes are
    made for ASCII input. *)

Definition isUpper (c : ascii) : bool :=
  (65 <=? nat_of_ascii c)%nat && (nat_of_ascii c <=? 90)%nat.

Definition isLower (c : ascii) : bool :=
  (97 <=? nat_of_ascii c)%nat && (nat_of_ascii c <=? 122)%nat.

Definition isDigit (c : ascii) : bool :=
  (48 <=? nat_of_ascii c)%nat && (nat_of_ascii c <=? 57)%nat.

Definition isSpace (c : ascii) : bool :=
  let n := nat_of_ascii c in
  (n =? 32)%nat || ((9 <=? n)%nat && (n <=? 13)%nat).

Definition lowerChar (c : ascii) : ascii :=
  if isUpper c then ascii_of_nat (nat_of_ascii c + 32) else c.

(** Every character of [s] passes [test]. *)
Fixpoint allChars (test : ascii → bool) (s : string) : bool :=
  match s with
  | EmptyString => true
  | String c rest => test c && allChars test rest
  end.

Definition asciiOnly (s : string) : bool :=
  allChars (λ c, (nat_of_ascii c <? 128)%nat) s.

(** A character [JSON.stringify] copies as it is: no control character, no
    double quote, no backslash. *)
Definition plainChar (c : ascii) : bool :=
  (32 <=? nat_of_ascii c)%nat && negb (nat_of_ascii c =? 34)%nat
  && negb (nat_of_ascii c =? 92)%nat.

Definition plainText (s : string) : bool := allChars plainChar s.

(** A JSON text written with apostrophes where it has double quotes. *)
Fixpoint fromSingleQuotes (s : string) : string :=
  match s with
  | EmptyString => EmptyString
  | String c rest =>
      String (if (nat_of_ascii c =? 39)%nat then ascii_of_nat 34 else c)
             (fromSingleQuotes rest)
  end.

(** [s.toLowerCase()] *)
Fixpoint toLowerCase (s : string) : string :=
  match s with
  | EmptyString => EmptyString
  | String c rest => String (lowerChar c) (toLowerCase rest)
  end.

(** [hay.includes(needle)] *)
Fixpoint includes (needle hay : string) : bool :=
  String.prefix needle hay
  || match hay with
     | EmptyString => false
     | String _ rest => includes needle rest
     end.

Fixpoint trimStart (s : string) : string :=
  match s with
  | EmptyString => EmptyString
  | String c rest => if isSpace c then trimStart rest else s
  end.

Fixpoint trimEnd (s : string) : string :=
  match s with
  | EmptyString => EmptyString
  | String c rest =>
      match trimEnd rest with
      | EmptyString => if isSpace c then EmptyString else String c EmptyString
      | kept => String c kept
      end
  end.

(** [s.trim()] *)
Definition trim (s : string) : string := trimEnd (trimStart s).

Fixpoint dropChars (n : nat) (s : string) : string :=
  match n, s with
  | S k, String _ rest => dropChars k rest
  | _, _ => s
  end.

(** The alternatives of the playground's pattern, in its order. *)
Definition fillerWords : list string :=
  ["find"; "search"; "looking for"; "show me"; "i want"; "i need"; "can you"; "please"].

(** The length of the first alternative that matches at the head of [s],
    letters compared without case. *)
Definition fillerAt (s : string) : option nat :=
  String.length <$>
    List.find (λ word, String.prefix word
                         (toLowerCase (String.substring 0 (String.length word) s)))
              fillerWords.

(** [s.replace(/find|search|looking for|show me|i want|i need|can you|please/gi, '')]:
    the text is read from the left; where an alternative matches it is
    left out and reading goes on behind it.  [skip] counts the characters
    of a match still to be left out. *)
Fixpoint removeFillers (skip : nat) (s : string) : string :=
  match s with
  | EmptyString => EmptyString
  | String c rest =>
      match skip with
      | S k => removeFillers k rest
      | O =>
          match fillerAt s with
          | Some (S k) => removeFillers k rest
          | _ => String c (removeFillers 0 rest)
          end
      end
  end.

(** *** The playground *)

Definition helpText (message : string) : string :=
  "I understand you're asking about " +:+ dq +:+ message +:+ dq
  +:+ ". Try asking me to:" +:+ nl
  +:+ "      " +:+ nl
  +:+ "• **Find products**: " +:+ dq +:+ "Show me red dresses under $50" +:+ dq +:+ nl
  +:+ "• **Get details**: " +:+ dq +:+ "Tell me about the vintage jacket" +:+ dq +:+ nl
  +:+ "• **Create checkout**: " +:+ dq +:+ "I want to buy the blue sweater" +:+ dq +:+ nl
  +:+ nl
  +:+ "How can I help you shop today?".

(** The keyword test of the playground, on the lowered message. *)
Definition wantsSearch (lowerMessage : string) : bool :=
  includes "find" lowerMessage || includes "search" lowerMessage
  || includes "looking for" lowerMessage || includes "show me" lowerMessage
  || includes "want" lowerMessage || includes "need" lowerMessage.

(** [action({ request })] of the playground: [session] is what
    [authenticate.admin] yields, [message] the posted form field. *)
Definition playgroundAction (session : Session) (message : option string) (w : World)
    : HttpResponse * World :=
  match message with
  | None => (json_init (JObj [("error", JStr "Message is required")]) 400 [], w)
  | Some message =>
      if negb (nonempty message)
      then (json_init (JObj [("error", JStr "Message is required")]) 400 [], w)
      else if wantsSearch (toLowerCase message) then
        let searchTerms := trim (removeFillers 0 message) in
        match searchProducts (shop session) (accessToken session)
                (JStr (if nonempty searchTerms then searchTerms else message)) (JNum 5) w with
        | (Return products, w') =>
            if (length products =? 0)%nat then
              (json (JObj [("response",
                            JStr ("I couldn't find any products matching " +:+ dq
                                  +:+ searchTerms +:+ dq
                                  +:+ ". Would you like me to try a different search?"));
                           ("type", JStr "text")]), w')
            else
              (json (JObj [("response",
                            JStr ("Here's what I found:" +:+ nl +:+ nl
                                  +:+ formatProductsForAI products));
                           ("type", JStr "products");
                           ("data", JArr (map productJ products))]), w')
        | (Throw _, w') =>
            (json (JObj [("response", JStr "Sorry, I encountered an error. Please try again.");
                         ("type", JStr "error")]), w')
        end
      else
        (json (JObj [("response", JStr (helpText message)); ("type", JStr "help")]), w)
  end.

(** *** The landing page *)

Definition isAlnum (c : ascii) : bool := isDigit c || isUpper c || isLower c.

Definition isLabelChar (c : ascii) : bool :=
  isAlnum c || (nat_of_ascii c =? 45)%nat.

(** [s.replace(/\/+$/, '')] *)
Fixpoint stripTrailingSlashes (s : string) : string :=
  match s with
  | EmptyString => EmptyString
  | String c rest =>
      match stripTrailingSlashes rest with
      | EmptyString => if (nat_of_ascii c =? 47)%nat then EmptyString
                       else String c EmptyString
      | kept => String c kept
      end
  end.

(** What [[a-zA-Z0-9-]*] leaves of [s]. *)
Fixpoint afterLabel (s : string) : string :=
  match s with
  | EmptyString => EmptyString
  | String c rest => if isLabelChar c then afterLabel rest else s
  end.

(** [/^[a-zA-Z0-9][a-zA-Z0-9-]*\.myshopify\.com$/.test(s)] *)
Definition shopifyDomain (s : string) : bool :=
  match s with
  | EmptyString => false
  | String c rest => isAlnum c && String.eqb (afterLabel rest) ".myshopify.com"
  end.

(** The normalisation of the posted shop: trimmed and lowered, without
    protocol and trailing slashes, completed to a myshopify domain. *)
Definition normalizeShop (shopInput : string) : string :=
  let shop := toLowerCase (trim shopInput) in
  let shop := if String.prefix "https://" shop then dropChars 8 shop
              else if String.prefix "http://" shop then dropChars 7 shop
              else shop in
  let shop := stripTrailingSlashes shop in
  if includes ".myshopify.com" shop then shop else shop +:+ ".myshopify.com".

(** Remix's [redirect(url)]. *)
Definition redirect (location : string) : HttpResponse :=
  mkResponse 302 [("Location", location)] JNull.

(** [action({ request })] of the landing page, on the posted [shop] field. *)
Definition landingAction (shopInput : option string) : HttpResponse :=
  match shopInput with
  | None => json_init (JObj [("error", JStr "Please enter your store URL")]) 400 []
  | Some input =>
      if negb (nonempty input)
      then json_init (JObj [("error", JStr "Please enter your store URL")]) 400 []
      else if negb (shopifyDomain (normalizeShop input))
      then json_init
             (JObj [("error",
                     JStr "Please enter a valid Shopify store URL (e.g., your-store.myshopify.com)")])
             400 []
      else redirect ("/auth?shop=" +:+ encodeURIComponent (normalizeShop input))
  end.

(** A character of a lower-case shop label: digit, lower-case letter, hyphen. *)
Definition isLowerLabelChar (c : ascii) : bool :=
  isDigit c || isLower c || (nat_of_ascii c =? 45)%nat.

(** A shop label as the install flow gets it: a digit or lower-case letter,
    then digits, lower-case letters and hyphens. *)
Definition shopLabel (s : string) : bool :=
  match s with
  | EmptyString => false
  | String c rest => (isDigit c || isLower c) && allChars isLowerLabelChar rest
  end.

(** *** More scenarios *)

(** A shop that knows no product under the handle it is asked for. *)
Definition missingProductShop : list UpstreamRequest → UpstreamRequest → FetchOutcome :=
  λ _ _, replyOk (DProductByHandle None).

Definition otherShop : string := "other.myshopify.com".

(** Two installed shops, both switched on. *)
Definition twoShops : World :=
  mkWorld [demoSession; mkSession otherShop "shpat_other"]
          {[demoShop := demoProfile true;
            otherShop := mkProfile "mp_2" true "formal" None None 0 None]}
          ∅ 0 ∅ [] 0.

(** The interaction of a checkout the gateway created, as it is stored. *)
Definition checkoutRow : AgentInteraction :=
  mkInteraction "mp_1" "create_checkout" None (Some "gid://shopify/Cart/1")
                (Some "https://demo.myshopify.com/cart/c/1") (Some "10.00") None.

(** The demo shop after that checkout, no order yet. *)
Definition openLedger : Ledger :=
  mkLedger (set_minted 1 (set_interactions (insert "int_0" checkoutRow) (demoWorld true))) ∅.

(** The order made from the cart of that checkout. *)
Definition demoOrder : JValue :=
  JObj [("id", JNum 1001); ("total_price", JStr "10.00"); ("currency", JStr "USD");
        ("note_attributes",
         noteAttributesOf (cartInput [mkLine (JStr "gid://shopify/ProductVariant/1") (JNum 1)]
                                     "int_0"))].

(** The form the dashboard's switch posts. *)
Definition toggleForm (value : string) (name : string) : option string :=
  if String.eqb name "intent" then Some "toggle_agent"
  else if String.eqb name "isEnabled" then Some value
  else None.

(** A schema whose new profiles start switched off, with the text defaults
    empty, and whose updates leave the time stamp alone. *)
Definition plainDefaults (shopId : string) : MerchantProfile :=
  mkProfile ("mp_" +:+ shopId) false EmptyString None None 0 None.

(** Requests for the tenant's resources. *)
Definition listResources : JValue := rpcRequest "resources/list" (JNum 5) JUndefined.

Definition readResource (uri : string) : JValue :=
  rpcRequest "resources/read" (JNum 6) (JObj [("uri", JStr uri)]).

(** A checkout of three variants with the quantities 3 and null: the second
    entry is falsy, the third is missing. *)
Definition threeVariantArguments : JValue :=
  JObj [("variant_ids", JArr [JStr "gid://shopify/ProductVariant/1";
                              JStr "gid://shopify/ProductVariant/2";
                              JStr "gid://shopify/ProductVariant/3"]);
        ("quantities", JArr [JNum 3; JNull])].

(** A catalogue entry and a shop that finds it for every search. *)
Definition redDressNode : ProductNode :=
  mkNode "gid://shopify/Product/1" "Red Dress" "A red dress." "red-dress" None
    (mkRange (mkMoney "49.00" "USD") (mkMoney "59.00" "USD"))
    [mkVariant "gid://shopify/ProductVariant/1" "Default" "49.00" true None].

Definition stockedShop : list UpstreamRequest → UpstreamRequest → FetchOutcome :=
  λ _ _, replyOk (DProducts [redDressNode]).

(** * Properties *)

(** ** Running the monad *)

Lemma bind_run {A B : Type} (m : M A) (f : A → M B) (w : World) :
  (m ≫= f) w = match m w with
               | (Return a, w') => f a w'
               | (Throw e, w') => (Throw e, w')
               end.
Proof. reflexivity. Qed.

Lemma findSession_shop (shopId : string) (w : World) (s : Session) :
  findSession shopId w = Some s → shop s = shopId.
Proof.
  unfold findSession. intros Hfind.
  apply find_some in Hfind as [_ Heq].
  by apply String.eqb_eq.
Qed.

(** ** The authentication step *)

Lemma getMerchantSession_enabled (shopId : string) (w : World) :
  tenantEnabled shopId w = true →
  ∃ s p, getMerchantSession shopId w = (Return (s, Some p), w)
         ∧ findSession shopId w = Some s
         ∧ profiles w !! shopId = Some p ∧ isEnabled p = true.
Proof.
  unfold tenantEnabled, getMerchantSession, session_findFirst.
  rewrite !bind_run. simpl.
  destruct (findSession shopId w) as [s|] eqn:Hs; [|discriminate].
  pose proof (findSession_shop _ _ _ Hs) as Hshop. rewrite Hshop.
  destruct (profiles w !! shopId) as [p|] eqn:Hp; simpl; [|discriminate].
  intros Hon. rewrite Hon. simpl. by exists s, p.
Qed.

Lemma getMerchantSession_disabled (shopId : string) (w : World) :
  tenantDisabled shopId w = true →
  getMerchantSession shopId w = (Throw (Error "AI Agent is disabled for this store"), w).
Proof.
  unfold tenantDisabled, getMerchantSession, session_findFirst.
  rewrite !bind_run. simpl.
  destruct (findSession shopId w) as [s|]; [|discriminate].
  destruct (profiles w !! shop s) as [p|]; simpl; [|discriminate].
  by intros ->.
Qed.

(** A session lookup never writes. *)
Lemma getMerchantSession_pure (shopId : string) (w : World) :
  snd (getMerchantSession shopId w) = w.
Proof.
  unfold getMerchantSession, session_findFirst. rewrite !bind_run. simpl.
  destruct (findSession shopId w) as [s|]; [|reflexivity].
  by destruct (negb _).
Qed.

(** ** C2: a disabled tenant gets an error, never a result *)

(** C2.  For a tenant whose profile has the enabled flag off, every request
    that reaches the dispatcher under that tenant's key (every tools/call
    in particular) is answered with a JSON-RPC error object of code -32603,
    without a [result] member; when the body parses, the message is the one
    of the disabled-agent error.  Nothing is written. *)
Theorem disabled_tenant_gets_error_not_result
    (shopId : string) (request_json : option JValue) (w : World) :
  nonempty shopId = true →
  tenantDisabled shopId w = true →
  let response := fst (action (Some shopId) request_json w) in
  errorCode response = JNum (-32603)
  ∧ field "result" (resp_body response) = JUndefined
  ∧ field "id" (resp_body response) = JNull
  ∧ (∀ body, request_json = Some body →
       response = json (rpcError JNull (-32603) "AI Agent is disabled for this store"))
  ∧ snd (action (Some shopId) request_json w) = w.
Proof.
  intros Hkey Hoff. unfold action. rewrite Hkey. simpl negb. cbv iota.
  unfold dispatch. rewrite bind_run.
  destruct request_json as [body|]; simpl.
  - rewrite bind_run, (getMerchantSession_disabled _ _ Hoff). simpl.
    repeat split; try reflexivity. 
  - repeat split; try reflexivity. intros body Hbody. discriminate.
Qed.

(** ** C5: unknown methods *)

Lemma bind_Return {A B : Type} (m : M A) (f : A → M B) (w w' : World) (a : A) :
  m w = (Return a, w') → (m ≫= f) w = f a w'.
Proof. intros H. by rewrite bind_run, H. Qed.

Lemma bind_Throw {A B : Type} (m : M A) (f : A → M B) (w w' : World) (e : Exn) :
  m w = (Throw e, w') → (m ≫= f) w = (Throw e, w').
Proof. intros H. by rewrite bind_run, H. Qed.

Lemma dispatch_enabled (shopId : string) (body : JValue) (w : World) :
  tenantEnabled shopId w = true →
  destructurable body = true →
  ∃ s p, findSession shopId w = Some s ∧ profiles w !! shopId = Some p ∧ isEnabled p = true
         ∧ dispatch shopId (Some body) w = route shopId s (Some p) body w.
Proof.
  intros Hon Hbody.
  destruct (getMerchantSession_enabled _ _ Hon) as (s & p & Hrun & Hshop & Hp & Hflag).
  exists s, p. repeat split; try assumption.
  unfold dispatch. rewrite bind_run. cbn [mret M_ret].
  rewrite (bind_Return _ _ _ _ _ Hrun).
  rewrite (bind_Return _ _ w w body); [reflexivity|].
  by destruct body.
Qed.

(** C5 (as amended).  Under the key of an enabled tenant, a body that can be
    taken apart and whose [method] is none of initialize, tools/list,
    tools/call, resources/list, resources/read is answered, with status 200,
    by a JSON-RPC 2.0 object that has the request's own id, an error of code
    -32601 and no result, and nothing is written, whatever else the body
    holds.  When the method is a text, the whole answer is the object with
    the message [Method not found: <method>]. *)
Theorem unknown_method_of_enabled_tenant
    (shopId : string) (body : JValue) (w : World) :
  nonempty shopId = true →
  tenantEnabled shopId w = true →
  destructurable body = true →
  knownMethod (field "method" body) = false →
  let response := fst (action (Some shopId) (Some body) w) in
  resp_status response = 200%nat
  ∧ field "jsonrpc" (resp_body response) = JStr "2.0"
  ∧ field "id" (resp_body response) = field "id" body
  ∧ field "code" (field "error" (resp_body response)) = JNum (-32601)
  ∧ field "result" (resp_body response) = JUndefined
  ∧ (∀ method, field "method" body = JStr method →
       response =
         mkResponse 200 [("Content-Type", "application/json; charset=utf-8")]
           (JObj [("jsonrpc", JStr "2.0"); ("id", field "id" body);
                  ("error", JObj [("code", JNum (-32601));
                                  ("message", JStr ("Method not found: " +:+ method))])]))
  ∧ snd (action (Some shopId) (Some body) w) = w.
Proof.
  intros Hkey Hon Hbody Hunknown.
  destruct (dispatch_enabled _ _ _ Hon Hbody) as (s & p & _ & _ & _ & Hroute).
  unfold action. rewrite Hkey, Hroute. cbn [negb].
  unfold knownMethod in Hunknown.
  repeat (apply orb_false_elim in Hunknown as [Hunknown ?]).
  unfold route.
  repeat match goal with H : is_str _ _ = false |- _ => rewrite H; clear H end.
  cbn [mret M_ret fst snd]. repeat split. by intros method ->.
Qed.

(** ** C8: tools/list *)

Lemma tools_list_response (shopId : string) (body : JValue) (w : World) :
  nonempty shopId = true →
  tenantEnabled shopId w = true →
  is_str (field "method" body) "tools/list" = true →
  action (Some shopId) (Some body) w =
    (json (rpcResult (field "id" body) (JObj [("tools", TOOLS)])), w).
Proof.
  intros Hkey Hon Hmethod.
  assert (destructurable body = true) as Hbody.
  { destruct body; try discriminate; reflexivity. }
  destruct (dispatch_enabled _ _ _ Hon Hbody) as (s & p & _ & _ & _ & Hroute).
  unfold action. rewrite Hkey, Hroute. cbn [negb].
  unfold route. rewrite Hmethod.
  destruct (is_str (field "method" body) "initialize") eqn:Hinit; [|reflexivity].
  destruct (field "method" body) as [| | | |m| |]; try discriminate.
  apply String.eqb_eq in Hinit, Hmethod. congruence.
Qed.

(** ** C10: discovery for a shop without a profile *)

(** C10.  For an authenticated shop with no MerchantProfile row the
    discovery loader answers with status 200, a 300-second Cache-Control
    header and the minimal disabled document; a shop whose profile exists
    with the flag off gets exactly the same response. *)
Theorem discovery_without_profile_is_disabled (session : Session) (w : World) :
  profiles w !! shop session = None →
  loader (Return (Some session)) w =
    mkResponse 200
      [("Content-Type", "application/json"); ("Cache-Control", "public, max-age=300")]
      (JObj [("ucp_version", JStr "1.0");
             ("status", JStr "disabled");
             ("message", JStr "AI Agent is currently disabled for this store.")])
  ∧ ∀ (w' : World) (p : MerchantProfile),
      profiles w' !! shop session = Some p → isEnabled p = false →
      loader (Return (Some session)) w' = loader (Return (Some session)) w.
Proof.
  intros Habsent. unfold loader, merchantProfile_findUnique.
  rewrite !bind_run. cbn [get_world mret M_ret]. rewrite Habsent.
  split; [reflexivity|].
  intros w' p Hp Hoff. rewrite !bind_run. cbn [get_world mret M_ret].
  rewrite Hp. cbn. by rewrite Hoff.
Qed.

(** ** What each operation does to the world *)

Lemma bind_Return_inv {A B : Type} (m : M A) (f : A → M B) (w w' : World) (b : B) :
  (m ≫= f) w = (Return b, w') →
  ∃ a w1, m w = (Return a, w1) ∧ f a w1 = (Return b, w').
Proof.
  rewrite bind_run. destruct (m w) as [[a|e] w1]; [|discriminate].
  intros H. by exists a, w1.
Qed.

Lemma lift_run {A : Type} (o : Outcome A) (w : World) : lift o w = (o, w).
Proof. reflexivity. Qed.

Lemma ofProfile_run {A : Type} (name : string) (f : MerchantProfile → A)
    (p : MerchantProfile) (w : World) :
  ofProfile name f (Some p) w = (Return (f p), w).
Proof. reflexivity. Qed.

Lemma logInteraction_fresh (merchant intent q : string) (w : World) :
  interactions w !! newId (minted w) = None →
  logInteraction merchant intent (JStr q) None None None None w =
    (Return (newId (minted w)),
     set_minted (S (minted w))
       (set_interactions
          (insert (newId (minted w)) (mkInteraction merchant intent (Some q) None None None None))
          w)).
Proof.
  intros Hfresh. unfold logInteraction. rewrite bind_run, lift_run. cbn [optionalString].
  unfold agentInteraction_create. by rewrite Hfresh.
Qed.

Lemma logInteraction_Return (merchant intent : string) (query : JValue)
    (w w' : World) (id : string) :
  logInteraction merchant intent query None None None None w = (Return id, w') →
  id = newId (minted w)
  ∧ interactions w !! id = None
  ∧ ∃ row, userIntent row = intent ∧ merchantId row = merchant
           ∧ w' = set_minted (S (minted w)) (set_interactions (insert id row) w).
Proof.
  unfold logInteraction. intros H.
  apply bind_Return_inv in H as (q & w1 & Hq & Hcreate).
  rewrite lift_run in Hq. injection Hq as Hq <-.
  unfold agentInteraction_create in Hcreate.
  destruct (interactions w !! newId (minted w)) eqn:Hfresh; [discriminate|].
  injection Hcreate as <- <-.
  split; [reflexivity|]. split; [assumption|].
  by exists (mkInteraction merchant intent q None None None None).
Qed.

Lemma logInteraction_sent (merchant intent : string) (query : JValue) (w : World) :
  sent (snd (logInteraction merchant intent query None None None None w)) = sent w.
Proof.
  unfold logInteraction. rewrite bind_run, lift_run.
  destruct (optionalString _ _); [|reflexivity].
  unfold agentInteraction_create. by destruct (interactions w !! _).
Qed.

Lemma trackMissedOpportunity_sent (shopId : string) (term : JValue) (w : World) :
  sent (snd (trackMissedOpportunity shopId term w)) = sent w.
Proof. by destruct term. Qed.

Lemma executeShopifyGraphQL_run (shopId accessTok query : string) (variables : JValue)
    (w : World) :
  executeShopifyGraphQL shopId accessTok query variables w =
    (checkResponse (upstream (sent w) (graphqlRequest shopId accessTok query variables)),
     set_sent (sent w ++ [graphqlRequest shopId accessTok query variables]) w).
Proof. reflexivity. Qed.

Lemma checkResponse_bad_status (r : HttpReply) :
  ok r = false →
  checkResponse (Responded r) =
    Throw (Error ("Shopify API error: " +:+ pretty (status r) +:+ " " +:+ statusText r)).
Proof. intros H. unfold checkResponse. by rewrite H. Qed.

Lemma populated_truthy (v : JValue) : populated v = true → truthy v = true.
Proof. by destruct v. Qed.

Lemma checkResponse_graphql_errors (r : HttpReply) (b : GqlBody) :
  ok r = true → body r = Some b → truthy (errors b) = true →
  checkResponse (Responded r) =
    Throw (Error ("GraphQL errors: " +:+ JSON_stringify (errors b))).
Proof. intros Hok Hbody Herr. unfold checkResponse. by rewrite Hok, Hbody, Herr. Qed.

Lemma checkResponse_Return (r : HttpReply) (b : GqlBody) :
  ok r = true → body r = Some b → truthy (errors b) = false →
  checkResponse (Responded r) = Return b.
Proof. intros Hok Hbody Herr. unfold checkResponse. by rewrite Hok, Hbody, Herr. Qed.


Lemma searchProducts_run (shopId accessTok : string) (query limit : JValue) (w : World) :
  searchProducts shopId accessTok query limit w =
    (match checkResponse
             (upstream (sent w) (searchRequest shopId accessTok query (limitOrDefault limit))) with
     | Return reply =>
         match data reply with
         | DProducts nodes => Return (map shapeProduct nodes)
         | DNull => Throw (TypeError "Cannot read properties of null (reading 'products')")
         | _ => Throw (TypeError "Cannot read properties of undefined (reading 'nodes')")
         end
     | Throw e => Throw e
     end,
     set_sent (sent w ++ [searchRequest shopId accessTok query (limitOrDefault limit)]) w).
Proof.
  unfold searchProducts.
  rewrite bind_run, executeShopifyGraphQL_run.
  fold (searchRequest shopId accessTok query (limitOrDefault limit)).
  destruct (checkResponse _) as [reply|e]; [|reflexivity].
  by destruct (data reply).
Qed.

Lemma getProductByHandle_run (shopId accessTok : string) (handle : JValue) (w : World) :
  getProductByHandle shopId accessTok handle w =
    (match checkResponse (upstream (sent w) (productRequest shopId accessTok handle)) with
     | Return reply =>
         match data reply with
         | DProductByHandle product => Return (shapeProduct <$> product)
         | DNull => Throw (TypeError "Cannot read properties of null (reading 'productByHandle')")
         | _ => Return None
         end
     | Throw e => Throw e
     end,
     set_sent (sent w ++ [productRequest shopId accessTok handle]) w).
Proof.
  unfold getProductByHandle.
  rewrite bind_run, executeShopifyGraphQL_run. fold (productRequest shopId accessTok handle).
  destruct (checkResponse _) as [reply|e]; [|reflexivity].
  by destruct (data reply).
Qed.

Lemma createCheckoutLink_run (shopId accessTok : string) (ids : list JValue)
    (quantities : JValue) (items : list LineItem) (interactionId : string) (w : World) :
  lineItemsOf ids quantities = Return items →
  createCheckoutLink shopId accessTok (JArr ids) quantities interactionId w =
    (match checkResponse
             (upstream (sent w) (cartRequest shopId accessTok items interactionId)) with
     | Return reply =>
         match data reply with
         | DCartCreate cart userErrors =>
             if (0 <? length userErrors)%nat then
               Throw (Error ("Cart creation failed: "
                             +:+ JSON_stringify (JArr (map userErrorJ userErrors))))
             else
               match cart with
               | Some c =>
                   Return (mkCheckout (cart_checkoutUrl c) (cart_id c)
                             (amount (cart_totalAmount c)) (currencyCode (cart_totalAmount c)))
               | None => Throw (TypeError "Cannot read properties of null (reading 'checkoutUrl')")
               end
         | DNull => Throw (TypeError "Cannot read properties of null (reading 'cartCreate')")
         | _ => Throw (TypeError "Cannot read properties of undefined (reading 'cart')")
         end
     | Throw e => Throw e
     end,
     set_sent (sent w ++ [cartRequest shopId accessTok items interactionId]) w).
Proof.
  intros Hitems. unfold createCheckoutLink.
  rewrite bind_run, lift_run. cbn [js_elements].
  rewrite bind_run, lift_run, Hitems.
  rewrite bind_run, executeShopifyGraphQL_run.
  fold (cartRequest shopId accessTok items interactionId).
  destruct (checkResponse _) as [reply|e]; [|reflexivity].
  destruct (data reply) as [| | |cart userErrors]; try reflexivity.
  destruct (0 <? length userErrors)%nat; [reflexivity|].
  by destruct cart.
Qed.

(** Without a line-item list nothing is sent. *)
Lemma createCheckoutLink_sent_le (shopId accessTok : string) (variantIds quantities : JValue)
    (interactionId : string) (w : World) :
  (length (sent (snd (createCheckoutLink shopId accessTok variantIds quantities interactionId w)))
   ≤ S (length (sent w)))%nat.
Proof.
  destruct (js_elements "variantIds" variantIds) as [ids|e] eqn:Hids.
  - assert (variantIds = JArr ids) as ->.
    { destruct variantIds; try discriminate. by injection Hids as ->. }
    destruct (lineItemsOf ids quantities) as [items|e] eqn:Hitems.
    + rewrite (createCheckoutLink_run _ _ _ _ _ _ _ Hitems). cbn.
      rewrite length_app. cbn. lia.
    + unfold createCheckoutLink. rewrite bind_run, lift_run. cbn [js_elements].
      rewrite bind_run, lift_run, Hitems. cbn. lia.
  - unfold createCheckoutLink. rewrite bind_run, lift_run, Hids. cbn. lia.
Qed.

(** ** Occurrences in strings *)

Lemma append_assoc (a b c : string) : (a +:+ b) +:+ c = a +:+ (b +:+ c).
Proof.
  induction a as [|x a IH]; [reflexivity|].
  change (String x ((a +:+ b) +:+ c) = String x (a +:+ b +:+ c)). by f_equal.
Qed.

Lemma contains_refl (s : string) : contains s s.
Proof.
  exists EmptyString, EmptyString. change (s = s +:+ EmptyString).
  induction s as [|x s IH]; [reflexivity|].
  change (String x s = String x (s +:+ EmptyString)). by f_equal.
Qed.

Lemma contains_app_l (n p h : string) : contains n h → contains n (p +:+ h).
Proof.
  intros (before & after & ->). exists (p +:+ before), after.
  by rewrite append_assoc.
Qed.

Lemma contains_app_r (n p h : string) : contains n h → contains n (h +:+ p).
Proof.
  intros (before & after & ->). exists before, (after +:+ p).
  by rewrite !append_assoc.
Qed.

Lemma contains_String (n : string) (c : ascii) (h : string) :
  contains n h → contains n (String c h).
Proof. apply (contains_app_l n (String c EmptyString) h). Qed.

Lemma contains_concat (sep n x : string) (l : list string) :
  x ∈ l → contains n x → contains n (String.concat sep l).
Proof.
  intros Hin Hx. induction l as [|y l IH]; [by apply elem_of_nil in Hin|].
  apply elem_of_cons in Hin. cbn [String.concat].
  destruct l as [|z l].
  - destruct Hin as [->|Hin]; [assumption|by apply elem_of_nil in Hin].
  - destruct Hin as [->|Hin].
    + by apply contains_app_r.
    + by apply contains_app_l, contains_app_l, IH.
Qed.

Lemma userError_message_kept (e : UserError) :
  contains (quote (ue_message e)) (JSON_stringify (userErrorJ e)).
Proof.
  destruct e as [code path message]. unfold userErrorJ. cbn [ue_code ue_field ue_message].
  destruct code, path; cbn [JSON_stringify optStrJ String.concat];
    apply contains_app_l, contains_app_r;
    do 2 apply contains_app_l, contains_app_l;
    apply contains_app_l, contains_app_l, contains_refl.
Qed.

Lemma escape_char_plain (c : ascii) :
  plainChar c = true → escape_char c = String c EmptyString.
Proof. by destruct c as [[] [] [] [] [] [] [] []]. Qed.

Lemma escape_plain (s : string) : plainText s = true → escape s = s.
Proof.
  induction s as [|c s IH]; [reflexivity|]. cbn [plainText allChars escape].
  intros [Hc Hs]%andb_true_iff. by rewrite (escape_char_plain c Hc), (IH Hs).
Qed.

Lemma userError_member_kept (e : UserError) :
  contains (quote "message" +:+ ":" +:+ quote (ue_message e)) (JSON_stringify (userErrorJ e)).
Proof.
  destruct e as [code path message]. unfold userErrorJ. cbn [ue_code ue_field ue_message].
  destruct code, path; cbn [JSON_stringify optStrJ String.concat];
    apply contains_app_l, contains_app_r;
    do 2 apply contains_app_l, contains_app_l;
    apply contains_refl.
Qed.

Lemma userErrors_members_kept (userErrors : list UserError) (e : UserError) :
  e ∈ userErrors →
  contains (quote "message" +:+ ":" +:+ quote (ue_message e))
    ("Cart creation failed: " +:+ JSON_stringify (JArr (map userErrorJ userErrors))).
Proof.
  intros Hin. apply contains_app_l. cbn [JSON_stringify].
  apply contains_app_l, contains_app_r.
  apply (contains_concat _ _ (JSON_stringify (userErrorJ e))).
  - by apply list_elem_of_fmap_2, list_elem_of_fmap_2.
  - apply userError_member_kept.
Qed.

Lemma userErrors_messages_kept (userErrors : list UserError) (e : UserError) :
  e ∈ userErrors →
  contains (quote (ue_message e))
    ("Cart creation failed: " +:+ JSON_stringify (JArr (map userErrorJ userErrors))).
Proof.
  intros Hin. apply contains_app_l. cbn [JSON_stringify].
  apply contains_app_l, contains_app_r.
  apply (contains_concat _ _ (JSON_stringify (userErrorJ e))).
  - by apply list_elem_of_fmap_2, list_elem_of_fmap_2.
  - apply userError_message_kept.
Qed.

(** ** C6: upstream failures surface, nothing is retried *)

Lemma failsOnBadAnswer_intro {A : Type} (call : M A) (request : UpstreamRequest)
    (k : GqlBody → Outcome A) :
  (∀ w, call w =
          (match checkResponse (upstream (sent w) request) with
           | Return reply => k reply
           | Throw e => Throw e
           end,
           set_sent (sent w ++ [request]) w)) →
  failsOnBadAnswer call request.
Proof.
  intros Hrun w. rewrite Hrun. cbn [fst snd]. split; [reflexivity|].
  intros r ->. split.
  - intros Hbad. by rewrite (checkResponse_bad_status _ Hbad).
  - intros b Hok Hbody Herr.
    by rewrite (checkResponse_graphql_errors _ _ Hok Hbody (populated_truthy _ Herr)).
Qed.

(** C6.  Each client call sends its one request exactly once, whatever the
    answer (no retry), and throws an error that carries the upstream status
    when the status is not a success, and the upstream error list when that
    list is populated.  [createCheckoutLink] also throws when the platform
    reports user errors, and the error it throws contains the JSON text of
    every reported message: for a message without control characters,
    double quotes and backslashes the text thrown contains the member
    ["message":"<message>"] letter by letter.  A call that cannot build its
    line items sends nothing. *)
Theorem client_calls_fail_on_upstream_errors_without_retry :
  (∀ shopId accessTok query limit,
     failsOnBadAnswer (searchProducts shopId accessTok query limit)
                      (searchRequest shopId accessTok query (limitOrDefault limit)))
  ∧ (∀ shopId accessTok handle,
       failsOnBadAnswer (getProductByHandle shopId accessTok handle)
                        (productRequest shopId accessTok handle))
  ∧ (∀ shopId accessTok ids quantities items interactionId,
       lineItemsOf ids quantities = Return items →
       failsOnBadAnswer (createCheckoutLink shopId accessTok (JArr ids) quantities interactionId)
                        (cartRequest shopId accessTok items interactionId)
       ∧ ∀ w r b cart userErrors,
           upstream (sent w) (cartRequest shopId accessTok items interactionId) = Responded r →
           ok r = true → body r = Some b → truthy (errors b) = false →
           data b = DCartCreate cart userErrors → userErrors ≠ [] →
           fst (createCheckoutLink shopId accessTok (JArr ids) quantities interactionId w) =
             Throw (Error ("Cart creation failed: "
                           +:+ JSON_stringify (JArr (map userErrorJ userErrors))))
           ∧ ∀ e, e ∈ userErrors →
               contains (quote (ue_message e))
                 ("Cart creation failed: "
                  +:+ JSON_stringify (JArr (map userErrorJ userErrors)))
               ∧ (plainText (ue_message e) = true →
                  contains (dq +:+ "message" +:+ dq +:+ ":" +:+ dq +:+ ue_message e +:+ dq)
                    (match fst (createCheckoutLink shopId accessTok (JArr ids) quantities
                                  interactionId w) with
                     | Throw (Error text) => text
                     | _ => EmptyString
                     end)))
  ∧ (∀ shopId accessTok variantIds quantities interactionId w,
       (length (sent (snd (createCheckoutLink shopId accessTok variantIds quantities
                             interactionId w)))
        ≤ S (length (sent w)))%nat).
Proof.
  split; [|split; [|split]].
  - intros shopId accessTok query limit.
    eapply failsOnBadAnswer_intro. intros w. apply searchProducts_run.
  - intros shopId accessTok handle.
    eapply failsOnBadAnswer_intro. intros w. apply getProductByHandle_run.
  - intros shopId accessTok ids quantities items interactionId Hitems. split.
    + eapply failsOnBadAnswer_intro. intros w. by apply createCheckoutLink_run.
    + intros w r b cart userErrors Hanswer Hok Hbody Hclean Hdata Hsome.
      rewrite (createCheckoutLink_run _ _ _ _ _ _ _ Hitems), Hanswer.
      rewrite (checkResponse_Return _ _ Hok Hbody Hclean), Hdata. cbn [fst].
      destruct userErrors as [|e0 rest]; [done|]. cbn [length Nat.ltb Nat.leb].
      split; [reflexivity|]. intros e He.
      split; [by apply userErrors_messages_kept|].
      intros Hplain. pose proof (userErrors_members_kept _ _ He) as Hmember.
      unfold quote in Hmember. rewrite (escape_plain _ Hplain) in Hmember.
      exact Hmember.
  - intros. apply createCheckoutLink_sent_le.
Qed.

(** ** C9: the default limit *)

Lemma handler_search_run (args : JValue) (session : Session)
    (profile : option MerchantProfile) (w : World) :
  handleToolCall (JStr "search_products") args session profile w =
    (products ← searchProducts (shop session) (accessToken session) (field "query" args)
                  (js_or (field "limit" args) (JNum 10));
     _ ← (if (length products =? 0)%nat
          then trackMissedOpportunity (shop session) (field "query" args) else mret tt);
     merchant ← ofProfile "id" profileId profile;
     _ ← logInteraction merchant "search_products" (field "query" args) None None None None;
     mret (textBlock
             (if (0 <? length products)%nat then formatProductsForAI products
              else "No products found for " +:+ dq +:+ toStr (field "query" args) +:+ dq
                   +:+ ". Try a different search term.")
             (JArr (map productJ products)))) w.
Proof. reflexivity. Qed.

Lemma js_or_defined (a b : JValue) : b ≠ JUndefined → limitOrDefault (js_or a b) = js_or a b.
Proof.
  intros Hb. unfold js_or.
  destruct (truthy a) eqn:Ha; [by destruct a|by destruct b].
Qed.

(** The rest of the search handler sends nothing. *)
Lemma handler_search_sent (args : JValue) (session : Session)
    (profile : option MerchantProfile) (w : World) :
  sent (snd (handleToolCall (JStr "search_products") args session profile w)) =
    (sent w ++ [searchRequest (shop session) (accessToken session) (field "query" args)
                  (js_or (field "limit" args) (JNum 10))])%list.
Proof.
  rewrite handler_search_run, bind_run, searchProducts_run, js_or_defined by done.
  set (w1 := set_sent _ w).
  destruct (match checkResponse _ with Return _ => _ | Throw e => Throw e end)
    as [products|e]; [|reflexivity].
  rewrite bind_run.
  assert (∃ o w2, (if (length products =? 0)%nat
                   then trackMissedOpportunity (shop session) (field "query" args)
                   else mret tt) w1 = (o, w2) ∧ sent w2 = sent w1) as (o & w2 & -> & Hw2).
  { destruct (length products =? 0)%nat.
    - destruct (trackMissedOpportunity _ _ w1) as [o w2] eqn:Htrack.
      exists o, w2. split; [reflexivity|].
      pose proof (trackMissedOpportunity_sent (shop session) (field "query" args) w1) as H.
      by rewrite Htrack in H.
    - by exists (Return tt), w1. }
  destruct o as [[]|e]; [|cbn [snd]; by rewrite Hw2].
  rewrite bind_run. destruct profile as [p|]; [|cbn [ofProfile throw snd]; by rewrite Hw2].
  rewrite ofProfile_run, bind_run.
  pose proof (logInteraction_sent (profileId p) "search_products" (field "query" args) w2) as Hlog.
  destruct (logInteraction _ _ _ _ _ _ _ w2) as [[id|e] w3];
    cbn [snd mret M_ret] in Hlog |- *; by rewrite Hlog, Hw2.
Qed.

(** C9.  When the [limit] argument of a search_products call is absent, 0,
    null or otherwise falsy, the one request the call sends (to the shop's
    Admin API, with the session's token) carries the variables
    [{query, first: 10}]; an explicit 0 in particular is replaced by 10. *)
Theorem falsy_limit_is_replaced_by_10 (args : JValue) (session : Session)
    (profile : option MerchantProfile) (w : World) :
  truthy (field "limit" args) = false →
  ∃ request,
    sent (snd (handleToolCall (JStr "search_products") args session profile w))
      = (sent w ++ [request])%list
    ∧ url request = "https://" +:+ shop session +:+ "/admin/api/2025-01/graphql.json"
    ∧ token request = accessToken session
    ∧ payload request =
        JObj [("query", JStr SEARCH_PRODUCTS_QUERY);
              ("variables", JObj [("query", field "query" args); ("first", JNum 10)])]
    ∧ field "first" (field "variables" (payload request)) = JNum 10.
Proof.
  intros Hfalsy. eexists. split.
  - rewrite handler_search_sent. unfold js_or. rewrite Hfalsy. reflexivity.
  - by repeat split.
Qed.

(** ** C4: a search that finds nothing *)

Lemma is_str_eq (v : JValue) (s : string) : is_str v s = true → v = JStr s.
Proof. destruct v; try discriminate. cbn. by intros ->%String.eqb_eq. Qed.

Lemma field_defined (k : string) (v : JValue) :
  field k v ≠ JUndefined → ∃ fs, v = JObj fs.
Proof. destruct v; try done. by eexists. Qed.

Lemma handler_search_zero (args : JValue) (q : string) (session : Session)
    (p : MerchantProfile) (reply : GqlBody) (w : World) :
  field "query" args = JStr q →
  checkResponse (upstream (sent w)
     (searchRequest (shop session) (accessToken session) (JStr q)
                    (js_or (field "limit" args) (JNum 10)))) = Return reply →
  data reply = DProducts [] →
  interactions w !! newId (minted w) = None →
  handleToolCall (JStr "search_products") args session (Some p) w =
    (Return (textBlock ("No products found for " +:+ dq +:+ q +:+ dq
                        +:+ ". Try a different search term.") (JArr [])),
     set_minted (S (minted w))
       (set_interactions
          (insert (newId (minted w))
                  (mkInteraction (profileId p) "search_products" (Some q) None None None None))
          (set_missed
             (insert (shop session, q)
                     (mkMissed (missedCount (shop session) q w + 1) (now w)))
             (set_sent (sent w ++ [searchRequest (shop session) (accessToken session) (JStr q)
                                     (js_or (field "limit" args) (JNum 10))]) w)))).
Proof.
  intros Hq Hreply Hdata Hfresh.
  rewrite handler_search_run, Hq, bind_run, searchProducts_run, js_or_defined by done.
  rewrite Hreply, Hdata. cbn [map length Nat.eqb Nat.ltb Nat.leb].
  rewrite bind_run. cbn [trackMissedOpportunity missedOpportunity_upsert].
  rewrite bind_run, ofProfile_run, bind_run.
  rewrite logInteraction_fresh by exact Hfresh.
  cbn [mret M_ret toStr]. f_equal. f_equal. f_equal.
  unfold set_missed, set_sent, missedCount. cbn [missed now sessions profiles interactions minted sent].
  f_equal. by destruct (missed w !! (shop session, q)).
Qed.

Lemma deref_defined (what : string) (v : JValue) (w : World) :
  destructurable v = true → deref what v w = (Return v, w).
Proof. by destruct v. Qed.

Lemma is_str_other (v : JValue) (a b : string) :
  is_str v a = true → a ≠ b → is_str v b = false.
Proof.
  intros ->%is_str_eq Hne. cbn. by apply String.eqb_neq.
Qed.

(** The whole effect of an empty search on an enabled tenant: the answer,
    one request sent, one upsert, one interaction logged. *)
Lemma empty_search_action
    (shopId q : string) (body : JValue) (session : Session) (p : MerchantProfile)
    (reply : GqlBody) (w : World) :
  nonempty shopId = true →
  findSession shopId w = Some session →
  profiles w !! shopId = Some p →
  isEnabled p = true →
  is_str (field "method" body) "tools/call" = true →
  is_str (field "name" (field "params" body)) "search_products" = true →
  field "query" (field "arguments" (field "params" body)) = JStr q →
  checkResponse (upstream (sent w)
     (searchRequest shopId (accessToken session) (JStr q)
        (js_or (field "limit" (field "arguments" (field "params" body))) (JNum 10))))
    = Return reply →
  data reply = DProducts [] →
  interactions w !! newId (minted w) = None →
  action (Some shopId) (Some body) w =
    (json (rpcResult (field "id" body)
             (JObj [("content",
                     JArr [textBlock ("No products found for " +:+ dq +:+ q +:+ dq
                                      +:+ ". Try a different search term.") (JArr [])])])),
     set_minted (S (minted w))
       (set_interactions
          (insert (newId (minted w))
                  (mkInteraction (profileId p) "search_products" (Some q) None None None None))
          (set_missed
             (insert (shopId, q) (mkMissed (missedCount shopId q w + 1) (now w)))
             (set_sent (sent w ++ [searchRequest shopId (accessToken session) (JStr q)
                                     (js_or (field "limit"
                                               (field "arguments" (field "params" body)))
                                            (JNum 10))]) w)))).
Proof.
  intros Hkey Hsession Hprofile Hflag Hmethod Hname Hquery Hreply Hdata Hfresh.
  assert (destructurable body = true) as Hbody.
  { destruct body; try discriminate; reflexivity. }
  assert (tenantEnabled shopId w = true) as Hon.
  { unfold tenantEnabled. rewrite Hsession, (findSession_shop _ _ _ Hsession), Hprofile.
    exact Hflag. }
  destruct (dispatch_enabled _ _ _ Hon Hbody) as (s & p' & Hs & Hp' & _ & Hroute).
  assert (s = session) as -> by congruence.
  assert (p' = p) as -> by congruence.
  pose proof (findSession_shop _ _ _ Hsession) as Hshop.
  destruct (field_defined "query" (field "arguments" (field "params" body)))
    as [fargs Hargs]; [by rewrite Hquery|].
  destruct (field_defined "arguments" (field "params" body))
    as [fparams Hparams]; [by rewrite Hargs|].
  unfold action. rewrite Hkey, Hroute. cbn [negb].
  unfold route.
  rewrite (is_str_other _ _ "initialize" Hmethod) by done.
  rewrite (is_str_other _ _ "tools/list" Hmethod) by done.
  rewrite Hmethod, bind_run, deref_defined by (by rewrite Hparams).
  rewrite (is_str_eq _ _ Hname), Hargs.
  change (js_or (JObj fargs) (JObj [])) with (JObj fargs).
  rewrite <- Hargs, bind_run.
  rewrite <- Hshop in Hreply.
  rewrite (handler_search_zero _ q session p reply w Hquery Hreply Hdata Hfresh).
  cbn [fst snd mret M_ret]. by rewrite Hshop.
Qed.

(** C4 (as amended).  For an enabled tenant, a tools/call of search_products
    with a text query whose search comes back empty is answered with the
    envelope whose single content block has type text, the text
    [No products found for "<query>". Try a different search term.] and the
    member [data] holding the empty product list; exactly one upsert is made,
    on the (tenant, term) pair, and it raises that pair's count by one. *)
Theorem empty_search_is_reported_and_counted
    (shopId q : string) (body : JValue) (session : Session) (reply : GqlBody) (w : World) :
  nonempty shopId = true →
  tenantEnabled shopId w = true →
  findSession shopId w = Some session →
  is_str (field "method" body) "tools/call" = true →
  is_str (field "name" (field "params" body)) "search_products" = true →
  field "query" (field "arguments" (field "params" body)) = JStr q →
  checkResponse (upstream (sent w)
     (searchRequest shopId (accessToken session) (JStr q)
        (js_or (field "limit" (field "arguments" (field "params" body))) (JNum 10))))
    = Return reply →
  data reply = DProducts [] →
  interactions w !! newId (minted w) = None →
  fst (action (Some shopId) (Some body) w) =
    mkResponse 200 [("Content-Type", "application/json; charset=utf-8")]
      (JObj [("jsonrpc", JStr "2.0"); ("id", field "id" body);
             ("result",
              JObj [("content",
                     JArr [JObj [("type", JStr "text");
                                 ("text", JStr ("No products found for " +:+ dq +:+ q +:+ dq
                                                +:+ ". Try a different search term."));
                                 ("data", JArr [])]])])])
  ∧ missed (snd (action (Some shopId) (Some body) w)) =
      <[(shopId, q) := mkMissed (missedCount shopId q w + 1) (now w)]> (missed w)
  ∧ missedCount shopId q (snd (action (Some shopId) (Some body) w))
    = (missedCount shopId q w + 1)%Z.
Proof.
  intros Hkey Hon Hsession Hmethod Hname Hquery Hreply Hdata Hfresh.
  destruct (getMerchantSession_enabled _ _ Hon) as (s & p & _ & Hs & Hp & Hflag).
  rewrite (empty_search_action shopId q body session p reply w) by congruence.
  split; [reflexivity|]. split; [reflexivity|].
  unfold missedCount at 1. cbn [snd missed set_minted set_interactions set_missed].
  by rewrite lookup_insert_eq.
Qed.

(** The count keeps going up by one: after n identical empty searches it
    has grown by n, provided the database never hands out an id twice. *)
Lemma repeated_empty_searches_count_up
    (shopId q : string) (body : JValue) (session : Session) (p : MerchantProfile)
    (w : World) :
  nonempty shopId = true →
  findSession shopId w = Some session →
  profiles w !! shopId = Some p →
  isEnabled p = true →
  is_str (field "method" body) "tools/call" = true →
  is_str (field "name" (field "params" body)) "search_products" = true →
  field "query" (field "arguments" (field "params" body)) = JStr q →
  (∀ history request, ∃ reply,
      checkResponse (upstream history request) = Return reply ∧ data reply = DProducts []) →
  (∀ a b, newId a = newId b → a = b) →
  (∀ k, (minted w ≤ k)%nat → interactions w !! newId k = None) →
  ∀ n, missedCount shopId q (repeatRequest n shopId body w)
       = (missedCount shopId q w + Z.of_nat n)%Z.
Proof.
  intros Hkey Hsession Hprofile Hflag Hmethod Hname Hquery Hempty Hinj Hfresh n.
  enough (sessions (repeatRequest n shopId body w) = sessions w
          ∧ profiles (repeatRequest n shopId body w) = profiles w
          ∧ (∀ k, (minted (repeatRequest n shopId body w) ≤ k)%nat →
                  interactions (repeatRequest n shopId body w) !! newId k = None)
          ∧ missedCount shopId q (repeatRequest n shopId body w)
            = (missedCount shopId q w + Z.of_nat n)%Z) as (_ & _ & _ & H) by exact H.
  induction n as [|n (Hsessions & Hprofiles & Hunused & Hcount)].
  - repeat split; try done. cbn. lia.
  - cbn [repeatRequest]. set (wn := repeatRequest n shopId body w) in *.
    destruct (Hempty (sent wn)
                (searchRequest shopId (accessToken session) (JStr q)
                   (js_or (field "limit" (field "arguments" (field "params" body)))
                          (JNum 10)))) as (reply & Hreply & Hdata).
    rewrite (empty_search_action shopId q body session p reply wn); try done.
    + cbn [snd]. repeat split; try done.
      * intros k Hk. cbn in Hk |- *. rewrite lookup_insert_ne; [apply Hunused; lia|].
        intros Heq%Hinj. lia.
      * unfold missedCount at 1. cbn [missed set_minted set_interactions set_missed].
        rewrite lookup_insert_eq. cbn. lia.
    + unfold findSession in *. by rewrite Hsessions.
    + by rewrite Hprofiles.
    + apply Hunused. lia.
Qed.

(** ** C1 and C7: the checkout handler *)

(** [args.quantities || variantIds.map(() => 1)] *)
Lemma handler_checkout_run (args : JValue) (session : Session)
    (profile : option MerchantProfile) (w : World) :
  handleToolCall (JStr "create_checkout") args session profile w =
    (quantities ← (if truthy (field "quantities" args) then mret (field "quantities" args)
                   else ids ← lift (js_elements "variantIds" (field "variant_ids" args));
                        mret (JArr (map (λ _, JNum 1) ids)));
     merchant ← ofProfile "id" profileId profile;
     interactionId ← logInteraction merchant "create_checkout"
                       (JStr (JSON_stringify (JObj [("variantIds", field "variant_ids" args);
                                                    ("quantities", quantities)])))
                       None None None None;
     checkout ← createCheckoutLink (shop session) (accessToken session)
                  (field "variant_ids" args) quantities interactionId;
     _ ← agentInteraction_update interactionId
           (λ row, mkInteraction (merchantId row) (userIntent row) (inputQuery row)
                     (Some (checkoutId checkout)) (Some (checkoutUrl checkout))
                     (Some (totalPrice checkout)) (userAgent row));
     mret (textBlock
             ("✅ Checkout created!" +:+ nl
              +:+ nl
              +:+ "**Total:** " +:+ co_currencyCode checkout +:+ " " +:+ totalPrice checkout +:+ nl
              +:+ "**Checkout URL:** " +:+ checkoutUrl checkout +:+ nl
              +:+ nl
              +:+ "Share this link with the customer to complete their purchase.")
             (JObj [("checkoutUrl", JStr (checkoutUrl checkout));
                    ("checkoutId", JStr (checkoutId checkout));
                    ("totalPrice", JStr (totalPrice checkout));
                    ("currencyCode", JStr (co_currencyCode checkout))]))) w.
Proof. reflexivity. Qed.

Lemma quantities_step (args : JValue) (w w' : World) (quantities : JValue) :
  (if truthy (field "quantities" args) then mret (field "quantities" args)
   else ids ← lift (js_elements "variantIds" (field "variant_ids" args));
        mret (JArr (map (λ _, JNum 1) ids))) w = (Return quantities, w') →
  w' = w ∧ truthy quantities = true.
Proof.
  destruct (truthy (field "quantities" args)) eqn:Hq.
  - intros [= <- <-]. by split.
  - rewrite bind_run, lift_run.
    destruct (js_elements _ _) as [ids|e]; [|discriminate].
    intros [= <- <-]. by split.
Qed.

Lemma createCheckoutLink_Return (shopId accessTok : string) (variantIds quantities : JValue)
    (interactionId : string) (w w' : World) (checkout : CheckoutResult) :
  createCheckoutLink shopId accessTok variantIds quantities interactionId w
    = (Return checkout, w') →
  ∃ ids items,
    variantIds = JArr ids ∧ lineItemsOf ids quantities = Return items
    ∧ w' = set_sent (sent w ++ [cartRequest shopId accessTok items interactionId]) w.
Proof.
  intros Hrun.
  destruct (js_elements "variantIds" variantIds) as [ids|e] eqn:Hids.
  - assert (variantIds = JArr ids) as ->.
    { destruct variantIds; try discriminate. by injection Hids as ->. }
    destruct (lineItemsOf ids quantities) as [items|e] eqn:Hitems.
    + rewrite (createCheckoutLink_run _ _ _ _ _ _ _ Hitems) in Hrun.
      injection Hrun as _ <-. by exists ids, items.
    + unfold createCheckoutLink in Hrun. rewrite bind_run, lift_run in Hrun.
      cbn [js_elements] in Hrun. rewrite bind_run, lift_run, Hitems in Hrun. discriminate.
  - unfold createCheckoutLink in Hrun. rewrite bind_run, lift_run, Hids in Hrun. discriminate.
Qed.

(** C1.  Whenever a create_checkout tool call succeeds, the handler has
    logged an interaction first, and the one request it then sent, the cart
    mutation, carries the attribute [_source] with value
    [universal_agent_gateway] followed by the attribute [_interaction_id]
    whose value is the id that log call returned; the interaction stored
    under that id is the create_checkout one, now holding the id of the cart
    the call reports. *)
Theorem checkout_is_tagged_with_the_logged_interaction
    (args : JValue) (session : Session) (profile : option MerchantProfile)
    (w w' : World) (result : JValue) :
  handleToolCall (JStr "create_checkout") args session profile w = (Return result, w') →
  ∃ merchant query interactionId w1 request,
    logInteraction merchant "create_checkout" query None None None None w
      = (Return interactionId, w1)
    ∧ sent w' = (sent w ++ [request])%list
    ∧ field "query" (payload request) = JStr CREATE_CART_MUTATION
    ∧ field "attributes" (inputOf request) =
        JArr [JObj [("key", JStr "_source"); ("value", JStr "universal_agent_gateway")];
              JObj [("key", JStr "_interaction_id"); ("value", JStr interactionId)]]
    ∧ ∃ row cart,
        interactions w' !! interactionId = Some row
        ∧ userIntent row = "create_checkout"
        ∧ ai_checkoutId row = Some cart
        ∧ field "checkoutId" (field "data" result) = JStr cart.
Proof.
  rewrite handler_checkout_run. intros Hrun.
  apply bind_Return_inv in Hrun as (quantities & w0 & Hq & Hrun).
  apply quantities_step in Hq as [-> _].
  apply bind_Return_inv in Hrun as (merchant & w0 & Hm & Hrun).
  destruct profile as [p|]; [|discriminate]. injection Hm as <- <-.
  apply bind_Return_inv in Hrun as (interactionId & w1 & Hlog & Hrun).
  apply bind_Return_inv in Hrun as (checkout & w2 & Hcart & Hrun).
  apply bind_Return_inv in Hrun as ([] & w3 & Hupdate & Hrun).
  injection Hrun as <- <-.
  apply createCheckoutLink_Return in Hcart as (ids & items & _ & _ & ->).
  unfold agentInteraction_update in Hupdate.
  destruct (interactions _ !! interactionId) as [row|] eqn:Hrow; [|discriminate].
  injection Hupdate as <-.
  destruct (logInteraction_Return _ _ _ _ _ _ Hlog) as (Hid & _ & row0 & Hintent & _ & ->).
  eexists _, _, interactionId, _, _. split; [exact Hlog|].
  split; [reflexivity|]. split; [reflexivity|]. split; [reflexivity|].
  cbn in Hrow. rewrite lookup_insert_eq in Hrow. injection Hrow as <-.
  eexists _, (checkoutId checkout). cbn. rewrite lookup_insert_eq.
  by repeat split.
Qed.

Lemma lineItemsOf_truthy (ids : list JValue) (quantities : JValue) :
  truthy quantities = true →
  lineItemsOf ids quantities =
    Return (imap (λ index variantId,
                    mkLine variantId (js_or (js_index quantities index) (JNum 1))) ids).
Proof. by destruct quantities. Qed.

(** A falsy [quantities] argument has no entries. *)
Lemma js_index_falsy (quantities : JValue) (i : nat) :
  truthy quantities = false → js_index quantities i = JUndefined.
Proof.
  destruct quantities as [| | | |s| |]; try done. cbn.
  intros Hs. apply negb_false_iff, String.eqb_eq in Hs as ->. by destruct i.
Qed.

Lemma ones_index (ids : list JValue) (i : nat) (v : JValue) :
  ids !! i = Some v → js_index (JArr (map (λ _, JNum 1) ids)) i = JNum 1.
Proof.
  intros Hi. cbn. change (map (λ _ : JValue, JNum 1) ids) with ((λ _ : JValue, JNum 1) <$> ids).
  by rewrite list_lookup_fmap, Hi.
Qed.

(** The line items the checkout handler ends up sending. *)
Lemma handler_checkout_sent (args : JValue) (ids : list JValue) (session : Session)
    (p : MerchantProfile) (w : World) :
  field "variant_ids" args = JArr ids →
  interactions w !! newId (minted w) = None →
  sent (snd (handleToolCall (JStr "create_checkout") args session (Some p) w)) =
    (sent w ++
     [cartRequest (shop session) (accessToken session)
        (imap (λ index variantId,
                 mkLine variantId
                   (js_or (js_index (js_or (field "quantities" args)
                                           (JArr (map (λ _, JNum 1) ids))) index)
                          (JNum 1))) ids)
        (newId (minted w))])%list.
Proof.
  intros Hids Hfresh. rewrite handler_checkout_run, Hids, bind_run.
  assert ((if truthy (field "quantities" args) then mret (field "quantities" args)
           else ids0 ← lift (js_elements "variantIds" (JArr ids));
                mret (JArr (map (λ _, JNum 1) ids0))) w
          = (Return (js_or (field "quantities" args) (JArr (map (λ _, JNum 1) ids))), w)) as ->.
  { unfold js_or. by destruct (truthy (field "quantities" args)). }
  set (quantities := js_or _ _).
  assert (truthy quantities = true) as Htruthy.
  { unfold quantities, js_or. by destruct (truthy (field "quantities" args)) eqn:Hq. }
  rewrite bind_run, ofProfile_run, bind_run, logInteraction_fresh by exact Hfresh.
  rewrite bind_run.
  rewrite (createCheckoutLink_run _ _ _ _ _ _ _ (lineItemsOf_truthy ids quantities Htruthy)).
  match goal with
  | |- context [checkResponse ?a] => destruct (checkResponse a) as [reply|e]
  end; [|reflexivity].
  destruct (data reply) as [| | |cart userErrors]; try reflexivity.
  destruct (0 <? length userErrors)%nat; [reflexivity|].
  destruct cart as [c|]; [|reflexivity].
  rewrite bind_run. unfold agentInteraction_update.
  match goal with
  | |- context [interactions ?x !! ?k] => destruct (interactions x !! k)
  end; reflexivity.
Qed.

(** C7 (as amended).  The line items of a create_checkout call, read out of
    the [input.lines] of the one request it sends, align with
    [variant_ids]: item i carries variant_ids[i], with the quantity
    quantities[i] when that entry is truthy (supplied and neither 0 nor
    null), and 1 otherwise, in particular at every index when [quantities]
    is absent. *)
Theorem line_items_align_with_variant_ids
    (args : JValue) (ids : list JValue) (session : Session) (p : MerchantProfile)
    (w : World) :
  field "variant_ids" args = JArr ids →
  interactions w !! newId (minted w) = None →
  ∃ request lines,
    sent (snd (handleToolCall (JStr "create_checkout") args session (Some p) w))
      = (sent w ++ [request])%list
    ∧ url request = "https://" +:+ shop session +:+ "/admin/api/2025-01/graphql.json"
    ∧ field "query" (payload request) = JStr CREATE_CART_MUTATION
    ∧ field "lines" (field "input" (field "variables" (payload request))) = JArr lines
    ∧ length lines = length ids
    ∧ ∀ i v, ids !! i = Some v →
        lines !! i =
          Some (JObj [("merchandiseId", v);
                      ("quantity", if truthy (js_index (field "quantities" args) i)
                                   then js_index (field "quantities" args) i
                                   else JNum 1)]).
Proof.
  intros Hids Hfresh. eexists _, _.
  split; [by apply handler_checkout_sent|].
  split; [reflexivity|]. split; [reflexivity|]. split; [reflexivity|].
  split; [by rewrite length_map, length_imap|].
  intros i v Hi.
  match goal with
  | |- map ?f ?l !! _ = _ => change (map f l) with (f <$> l)
  end.
  rewrite list_lookup_fmap, list_lookup_imap, Hi. cbn [fmap option_fmap option_map variantId quantity].
  do 4 f_equal. unfold js_or at 2.
  destruct (truthy (field "quantities" args)) eqn:Hq; [reflexivity|].
  rewrite (ones_index _ _ _ Hi), (js_index_falsy _ _ Hq). reflexivity.
Qed.

(** ** The catch block *)

(** Whatever the [try] block throws is answered with the -32603 envelope,
    and that envelope's id is [null] whatever the request said. *)
Lemma thrown_errors_become_internal_error
    (shopId : string) (request_json : option JValue) (w w' : World) (e : Exn) :
  nonempty shopId = true →
  dispatch shopId request_json w = (Throw e, w') →
  action (Some shopId) request_json w =
    (json (rpcError JNull (-32603) (default "Internal error" (exn_message e))), w').
Proof. intros Hkey Hthrow. unfold action. by rewrite Hkey, Hthrow. Qed.

Lemma action_answers_every_request
    (shopId : string) (request_json : option JValue) (w : World) :
  nonempty shopId = true →
  (∃ response, dispatch shopId request_json w
               = (Return response, snd (action (Some shopId) request_json w))
               ∧ fst (action (Some shopId) request_json w) = response)
  ∨ (∃ e, errorCode (fst (action (Some shopId) request_json w)) = JNum (-32603)
          ∧ field "id" (resp_body (fst (action (Some shopId) request_json w))) = JNull
          ∧ fst (dispatch shopId request_json w) = Throw e).
Proof.
  intros Hkey. unfold action. rewrite Hkey. cbn [negb].
  destruct (dispatch shopId request_json w) as [[response|e] w'].
  - left. by exists response.
  - right. by exists e.
Qed.

(** ** Further properties of the client and of the handlers *)

(** X1.  [executeShopifyGraphQL] hands back a reply exactly when the answer
    has a status from 200 to 299, a body that parses and no truthy [errors]
    member; in particular an answer whose [errors] is the empty array is
    turned down like one with errors in it.  One request goes out either
    way. *)
Theorem executeShopifyGraphQL_succeeds_iff
    (shopId accessTok query : string) (variables : JValue) (reply : GqlBody) (w : World) :
  (fst (executeShopifyGraphQL shopId accessTok query variables w) = Return reply
   ↔ ∃ r, upstream (sent w) (graphqlRequest shopId accessTok query variables) = Responded r
          ∧ (200 ≤ status r)%nat ∧ (status r ≤ 299)%nat
          ∧ body r = Some reply ∧ truthy (errors reply) = false)
  ∧ (errors reply = JArr [] →
     fst (executeShopifyGraphQL shopId accessTok query variables w) ≠ Return reply)
  ∧ sent (snd (executeShopifyGraphQL shopId accessTok query variables w))
    = (sent w ++ [graphqlRequest shopId accessTok query variables])%list.
Proof.
  rewrite executeShopifyGraphQL_run. cbn [fst snd]. split; [|split; [|reflexivity]].
  - unfold checkResponse, ok. split.
    + destruct (upstream _ _) as [message|r]; [discriminate|].
      destruct (200 <=? status r)%nat eqn:Hlo; [|discriminate].
      destruct (status r <=? 299)%nat eqn:Hhi; [|discriminate]. cbn [andb negb].
      destruct (body r) as [b|] eqn:Hbody; [|discriminate].
      destruct (truthy (errors b)) eqn:Herr; [discriminate|].
      intros [= ->]. exists r.
      apply Nat.leb_le in Hlo, Hhi. by repeat split.
    + intros (r & -> & Hlo & Hhi & -> & ->).
      apply Nat.leb_le in Hlo, Hhi. by rewrite Hlo, Hhi.
  - intros Hempty. unfold checkResponse.
    destruct (upstream _ _) as [message|r]; [discriminate|].
    destruct (negb (ok r)); [discriminate|].
    destruct (body r) as [b|]; [|discriminate].
    destruct (truthy (errors b)) eqn:Herr; [discriminate|].
    intros [= ->]. by rewrite Hempty in Herr.
Qed.

Lemma handler_product_run (args : JValue) (session : Session)
    (profile : option MerchantProfile) (w : World) :
  handleToolCall (JStr "get_product") args session profile w =
    (product ← getProductByHandle (shop session) (accessToken session) (field "handle" args);
     merchant ← ofProfile "id" profileId profile;
     _ ← logInteraction merchant "get_product" (field "handle" args) None None None None;
     match product with
     | None =>
         mret (textOnly ("Product with handle " +:+ dq +:+ toStr (field "handle" args) +:+ dq
                         +:+ " not found."))
     | Some p =>
         let availableVariants := List.filter availableForSale (variants p) in
         mret (textBlock
                 ("**" +:+ p_title p +:+ "**" +:+ nl
                  +:+ "        " +:+ nl
                  +:+ (if nonempty (p_description p) then p_description p
                       else "No description available.") +:+ nl
                  +:+ nl
                  +:+ "Price: " +:+ currencyCode (minVariantPrice (priceRange p)) +:+ " "
                  +:+ amount (minVariantPrice (priceRange p)) +:+ nl
                  +:+ pretty (length availableVariants) +:+ " variant(s) in stock" +:+ nl
                  +:+ nl
                  +:+ "Variants:" +:+ nl
                  +:+ String.concat nl
                        (map (λ v, "- " +:+ v_title v +:+ ": " +:+ v_price v
                                   +:+ " (ID: " +:+ v_id v +:+ ")") availableVariants))
                 (productJ p))
     end) w.
Proof. reflexivity. Qed.

(** X2.  A handle that resolves to nothing is not an error: when the shop
    answers the get_product lookup with no product, the handler returns the
    text [Product with handle "<handle>" not found.] without a [data]
    member, after one request and one logged get_product interaction that
    holds the handle. *)
Theorem missing_product_is_reported_not_thrown
    (args : JValue) (handle : string) (session : Session) (p : MerchantProfile)
    (reply : GqlBody) (w : World) :
  field "handle" args = JStr handle →
  checkResponse (upstream (sent w)
     (productRequest (shop session) (accessToken session) (JStr handle))) = Return reply →
  data reply = DProductByHandle None →
  interactions w !! newId (minted w) = None →
  handleToolCall (JStr "get_product") args session (Some p) w =
    (Return (JObj [("type", JStr "text");
                   ("text", JStr ("Product with handle " +:+ dq +:+ handle +:+ dq
                                  +:+ " not found."))]),
     set_minted (S (minted w))
       (set_interactions
          (insert (newId (minted w))
                  (mkInteraction (profileId p) "get_product" (Some handle)
                                 None None None None))
          (set_sent (sent w ++ [productRequest (shop session) (accessToken session)
                                  (JStr handle)]) w))).
Proof.
  intros Hhandle Hreply Hdata Hfresh.
  rewrite handler_product_run, Hhandle, bind_run, getProductByHandle_run, Hreply, Hdata.
  cbn [fmap option_fmap option_map].
  rewrite bind_run, ofProfile_run, bind_run.
  by rewrite logInteraction_fresh by exact Hfresh.
Qed.

(** X3.  The checkout handler writes in two phases and does not undo the
    first: whenever a create_checkout call with a list of variant ids fails,
    the interaction it logged at the start is still stored, as a
    create_checkout interaction without checkout id and without checkout
    url. *)
Theorem failed_checkout_leaves_its_interaction
    (args : JValue) (ids : list JValue) (session : Session) (p : MerchantProfile)
    (w : World) (e : Exn) :
  field "variant_ids" args = JArr ids →
  interactions w !! newId (minted w) = None →
  fst (handleToolCall (JStr "create_checkout") args session (Some p) w) = Throw e →
  ∃ row,
    interactions (snd (handleToolCall (JStr "create_checkout") args session (Some p) w))
      !! newId (minted w) = Some row
    ∧ merchantId row = profileId p
    ∧ userIntent row = "create_checkout"
    ∧ ai_checkoutId row = None ∧ ai_checkoutUrl row = None ∧ potentialValue row = None.
Proof.
  intros Hids Hfresh. rewrite handler_checkout_run, Hids, bind_run.
  assert ((if truthy (field "quantities" args) then mret (field "quantities" args)
           else ids0 ← lift (js_elements "variantIds" (JArr ids));
                mret (JArr (map (λ _, JNum 1) ids0))) w
          = (Return (js_or (field "quantities" args) (JArr (map (λ _, JNum 1) ids))), w)) as ->.
  { unfold js_or. by destruct (truthy (field "quantities" args)). }
  set (quantities := js_or _ _).
  assert (truthy quantities = true) as Htruthy.
  { unfold quantities, js_or. by destruct (truthy (field "quantities" args)) eqn:Hq. }
  rewrite bind_run, ofProfile_run, bind_run, logInteraction_fresh by exact Hfresh.
  rewrite bind_run.
  rewrite (createCheckoutLink_run _ _ _ _ _ _ _ (lineItemsOf_truthy ids quantities Htruthy)).
  set (row := mkInteraction _ _ _ _ _ _ _).
  match goal with
  | |- context [checkResponse ?a] => destruct (checkResponse a) as [reply|e0]
  end.
  2:{ intros _. exists row. cbn. by rewrite lookup_insert_eq. }
  destruct (data reply) as [| | |cart userErrors];
    try (intros _; exists row; cbn; by rewrite lookup_insert_eq).
  destruct (0 <? length userErrors)%nat;
    [intros _; exists row; cbn; by rewrite lookup_insert_eq|].
  destruct cart as [c|]; [|intros _; exists row; cbn; by rewrite lookup_insert_eq].
  rewrite bind_run. unfold agentInteraction_update. cbn [interactions set_sent set_minted
    set_interactions]. rewrite lookup_insert_eq. cbn. discriminate.
Qed.

(** X4.  A create_checkout call whose [variant_ids] is not a list fails
    with a type error either way, but what it leaves behind depends on
    [quantities]: without a truthy [quantities] it fails before anything is
    logged and the world is untouched; with one, the interaction has already
    been logged when the failure comes, and nothing has been sent. *)
Theorem checkout_without_variant_list
    (args : JValue) (session : Session) (p : MerchantProfile) (w : World) (e : Exn) :
  js_elements "variantIds" (field "variant_ids" args) = Throw e →
  (truthy (field "quantities" args) = false →
   handleToolCall (JStr "create_checkout") args session (Some p) w = (Throw e, w))
  ∧ (truthy (field "quantities" args) = true →
     interactions w !! newId (minted w) = None →
     fst (handleToolCall (JStr "create_checkout") args session (Some p) w) = Throw e
     ∧ is_Some (interactions
                  (snd (handleToolCall (JStr "create_checkout") args session (Some p) w))
                  !! newId (minted w))
     ∧ sent (snd (handleToolCall (JStr "create_checkout") args session (Some p) w))
       = sent w).
Proof.
  intros Hnot. rewrite handler_checkout_run. split.
  - intros Hq. by rewrite bind_run, Hq, bind_run, lift_run, Hnot.
  - intros Hq Hfresh. rewrite bind_run, Hq. cbn [mret M_ret].
    rewrite bind_run, ofProfile_run, bind_run, logInteraction_fresh by exact Hfresh.
    rewrite bind_run. unfold createCheckoutLink. rewrite bind_run, lift_run, Hnot.
    cbn. rewrite lookup_insert_eq. by repeat split.
Qed.

Lemma registered_spec (name : JValue) :
  registered name =
    (is_str name "search_products" || is_str name "get_product"
     || is_str name "create_checkout" || is_str name "get_store_info").
Proof. destruct name; try reflexivity. cbn. by rewrite !orb_false_r, !orb_assoc. Qed.

(** X5.  A tools/call whose [params] are there and name no tool of the
    registry is answered, for an enabled tenant, with status 200 and an
    object that has the id [null], an error of code -32603 and no result;
    when the name is a text, the whole answer is the object with the message
    [Unknown tool: <name>].  No interaction is logged, nothing is sent, the
    world is as it was. *)
Theorem unregistered_tool_changes_nothing
    (shopId : string) (body : JValue) (w : World) :
  nonempty shopId = true →
  tenantEnabled shopId w = true →
  is_str (field "method" body) "tools/call" = true →
  destructurable (field "params" body) = true →
  registered (field "name" (field "params" body)) = false →
  let response := fst (action (Some shopId) (Some body) w) in
  resp_status response = 200%nat
  ∧ field "id" (resp_body response) = JNull
  ∧ field "code" (field "error" (resp_body response)) = JNum (-32603)
  ∧ field "result" (resp_body response) = JUndefined
  ∧ (∀ name, field "name" (field "params" body) = JStr name →
       response =
         mkResponse 200 [("Content-Type", "application/json; charset=utf-8")]
           (JObj [("jsonrpc", JStr "2.0"); ("id", JNull);
                  ("error", JObj [("code", JNum (-32603));
                                  ("message", JStr ("Unknown tool: " +:+ name))])]))
  ∧ snd (action (Some shopId) (Some body) w) = w.
Proof.
  intros Hkey Hon Hmethod Hparams Hname.
  assert (action (Some shopId) (Some body) w =
          (internalError (Error ("Unknown tool: "
                                 +:+ toStr (field "name" (field "params" body)))), w))
    as Hrun; [|rewrite Hrun; cbv zeta; cbn [fst snd]; repeat split;
               intros name Hstr; by rewrite Hstr].
  assert (destructurable body = true) as Hbody.
  { destruct body; try discriminate; reflexivity. }
  destruct (dispatch_enabled _ _ _ Hon Hbody) as (s & p & _ & _ & _ & Hroute).
  unfold action. rewrite Hkey, Hroute. cbn [negb]. unfold route.
  rewrite (is_str_other _ _ "initialize" Hmethod) by done.
  rewrite (is_str_other _ _ "tools/list" Hmethod) by done.
  rewrite Hmethod, bind_run, deref_defined by exact Hparams.
  rewrite registered_spec in Hname.
  repeat (apply orb_false_elim in Hname as [Hname ?]).
  rewrite bind_run. unfold handleToolCall.
  by repeat match goal with H : is_str _ _ = false |- _ => rewrite H; clear H end.
Qed.

Lemma handler_info_run (args : JValue) (session : Session) (p : MerchantProfile)
    (w : World) :
  handleToolCall (JStr "get_store_info") args session (Some p) w =
    (let topic := js_or (field "topic" args) (JStr "all") in
     let info :=
       (if is_str topic "all" || is_str topic "brand"
        then "**Brand Voice:** " +:+ brandVoice p +:+ nl +:+ nl else EmptyString)
       +:+ (if is_str topic "all" || is_str topic "shipping"
            then (if present (shippingInfo p)
                  then "**Shipping:** " +:+ default EmptyString (shippingInfo p) +:+ nl
                  else "**Shipping:** Contact the store for shipping information." +:+ nl)
                 +:+ (if (0 <? minFreeShipping p)%Z
                      then "Free shipping on orders over $"
                           +:+ pretty (minFreeShipping p) +:+ "." +:+ nl
                      else EmptyString)
                 +:+ nl
            else EmptyString)
       +:+ (if is_str topic "all" || is_str topic "returns"
            then (if present (returnPolicy p)
                  then "**Returns:** " +:+ default EmptyString (returnPolicy p) +:+ nl
                  else "**Returns:** Contact the store for return policy information." +:+ nl)
            else EmptyString) in
     _ ← logInteraction (profileId p) "get_store_info" topic None None None None;
     mret (textOnly (if nonempty info then info else "No store information available."))) w.
Proof. reflexivity. Qed.

(** X6.  get_store_info never goes upstream, whatever it is asked and
    however it ends.  Asked about a topic that is a text other than all,
    brand, shipping and returns, it answers
    [No store information available.] and still logs the interaction, with
    the topic as its query. *)
Theorem store_info_stays_local
    (args : JValue) (session : Session) (p : MerchantProfile) (w : World) :
  sent (snd (handleToolCall (JStr "get_store_info") args session (Some p) w)) = sent w
  ∧ ∀ topic,
      field "topic" args = JStr topic →
      topic ∉ [EmptyString; "all"; "brand"; "shipping"; "returns"] →
      interactions w !! newId (minted w) = None →
      handleToolCall (JStr "get_store_info") args session (Some p) w =
        (Return (JObj [("type", JStr "text");
                       ("text", JStr "No store information available.")]),
         set_minted (S (minted w))
           (set_interactions
              (insert (newId (minted w))
                      (mkInteraction (profileId p) "get_store_info" (Some topic)
                                     None None None None)) w)).
Proof.
  rewrite handler_info_run. cbv zeta. split.
  - rewrite bind_run.
    pose proof (logInteraction_sent (profileId p) "get_store_info"
                  (js_or (field "topic" args) (JStr "all")) w) as Hlog.
    by destruct (logInteraction _ _ _ _ _ _ _ w) as [[id|e] w'].
  - intros topic Htopic Hother Hfresh. rewrite Htopic.
    assert (nonempty topic = true) as Hne.
    { unfold nonempty. apply negb_true_iff, String.eqb_neq. intros ->.
      apply Hother. by left. }
    unfold js_or. cbn [truthy]. fold (nonempty topic). rewrite Hne. cbn [is_str].
    assert (∀ known, known ∈ ["all"; "brand"; "shipping"; "returns"] →
                     String.eqb topic known = false) as Hneq.
    { intros known Hin. apply String.eqb_neq. intros ->. apply Hother. by right. }
    rewrite !Hneq by (repeat constructor). cbn [orb].
    rewrite bind_run, logInteraction_fresh by exact Hfresh. reflexivity.
Qed.

(** ** Further properties of the dispatcher *)

Lemma route_read (shopId : string) (session : Session) (p : MerchantProfile)
    (body : JValue) (w : World) :
  is_str (field "method" body) "resources/read" = true →
  destructurable (field "params" body) = true →
  route shopId session (Some p) body w =
    (Return (if is_str (field "uri" (field "params" body)) (contextResource shopId) then
       json (rpcResult (field "id" body)
         (JObj [("contents",
                 JArr [JObj [("uri", field "uri" (field "params" body));
                             ("mimeType", JStr "text/plain");
                             ("text", JStr (buildSystemPrompt
                                (mkContext (shop session) (accessToken session)
                                   (if nonempty (brandVoice p) then brandVoice p
                                    else "friendly")
                                   (returnPolicy p) (shippingInfo p)
                                   (minFreeShipping p))))]])]))
      else json (rpcError (field "id" body) (-32602) "Resource not found")),
     w).
Proof.
  intros Hmethod Hparams. unfold route.
  rewrite (is_str_other _ _ "initialize" Hmethod) by done.
  rewrite (is_str_other _ _ "tools/list" Hmethod) by done.
  rewrite (is_str_other _ _ "tools/call" Hmethod) by done.
  rewrite (is_str_other _ _ "resources/list" Hmethod) by done.
  rewrite Hmethod, bind_run, deref_defined by exact Hparams.
  by destruct (is_str _ (contextResource shopId)).
Qed.

(** X7.  For an enabled tenant, a resources/read whose [uri] is anything
    but the tenant's context resource [shop://<tenant>/context] is answered
    with the error -32602 [Resource not found] under the request's own id,
    and changes nothing. *)
Theorem foreign_resource_is_not_found
    (shopId : string) (body : JValue) (w : World) :
  nonempty shopId = true →
  tenantEnabled shopId w = true →
  is_str (field "method" body) "resources/read" = true →
  destructurable (field "params" body) = true →
  field "uri" (field "params" body) ≠ JStr ("shop://" +:+ shopId +:+ "/context") →
  action (Some shopId) (Some body) w =
    (json (JObj [("jsonrpc", JStr "2.0"); ("id", field "id" body);
                 ("error", JObj [("code", JNum (-32602));
                                 ("message", JStr "Resource not found")])]), w).
Proof.
  intros Hkey Hon Hmethod Hparams Hforeign.
  assert (destructurable body = true) as Hbody.
  { destruct body; try discriminate; reflexivity. }
  destruct (dispatch_enabled _ _ _ Hon Hbody) as (s & p & _ & _ & _ & Hroute).
  unfold action. rewrite Hkey, Hroute, (route_read _ _ _ _ _ Hmethod Hparams). cbn [negb].
  destruct (is_str _ (contextResource shopId)) eqn:Huri; [|reflexivity].
  by apply is_str_eq in Huri.
Qed.


(** X9.  initialize, tools/list, resources/list and resources/read only
    read: for an enabled tenant a request with one of these methods leaves
    the world exactly as it was, whatever its parameters and however it is
    answered. *)
Theorem reading_methods_write_nothing
    (shopId : string) (body : JValue) (w : World) :
  nonempty shopId = true →
  tenantEnabled shopId w = true →
  readOnlyMethod (field "method" body) = true →
  snd (action (Some shopId) (Some body) w) = w.
Proof.
  intros Hkey Hon Hmethod.
  assert (destructurable body = true) as Hbody.
  { destruct body; try discriminate; reflexivity. }
  destruct (dispatch_enabled _ _ _ Hon Hbody) as (s & p & _ & _ & _ & Hroute).
  unfold action. rewrite Hkey, Hroute. cbn [negb]. unfold route.
  destruct (is_str (field "method" body) "initialize") eqn:H1; [reflexivity|].
  destruct (is_str (field "method" body) "tools/list") eqn:H2; [reflexivity|].
  destruct (is_str (field "method" body) "tools/call") eqn:H3.
  { unfold readOnlyMethod in Hmethod. rewrite H1, H2 in Hmethod. cbn [orb] in Hmethod.
    apply orb_true_iff in Hmethod as [H|H];
      by rewrite (is_str_other _ _ _ H3) in H. }
  destruct (is_str (field "method" body) "resources/list") eqn:H4; [reflexivity|].
  destruct (is_str (field "method" body) "resources/read") eqn:H5.
  - rewrite bind_run.
    destruct (destructurable (field "params" body)) eqn:Hparams.
    + rewrite deref_defined by exact Hparams. by destruct (is_str _ (contextResource shopId)).
    + by destruct (field "params" body).
  - unfold readOnlyMethod in Hmethod. by rewrite H1, H2, H4, H5 in Hmethod.
Qed.

(** X10.  Authentication comes first and writes nothing.  Under a key no
    session is stored for, every request whose body parses is answered with
    the error -32603 [Shop not found]; under the key of a session without a
    profile row, with the same error as for a profile switched off,
    [AI Agent is disabled for this store]. *)
Theorem unauthenticated_requests_are_turned_away
    (shopId : string) (body : JValue) (w : World) :
  nonempty shopId = true →
  (findSession shopId w = None →
   action (Some shopId) (Some body) w =
     (mkResponse 200 [("Content-Type", "application/json; charset=utf-8")]
        (JObj [("jsonrpc", JStr "2.0"); ("id", JNull);
               ("error", JObj [("code", JNum (-32603));
                               ("message", JStr "Shop not found")])]), w))
  ∧ (is_Some (findSession shopId w) → profiles w !! shopId = None →
     action (Some shopId) (Some body) w =
       (mkResponse 200 [("Content-Type", "application/json; charset=utf-8")]
          (JObj [("jsonrpc", JStr "2.0"); ("id", JNull);
                 ("error", JObj [("code", JNum (-32603));
                                 ("message", JStr "AI Agent is disabled for this store")])]),
        w)).
Proof.
  intros Hkey. unfold action, dispatch. rewrite Hkey. cbn [negb].
  rewrite bind_run. cbn [mret M_ret]. split.
  - intros Hnone.
    assert (getMerchantSession shopId w = (Throw (Error "Shop not found"), w)) as Hauth.
    { unfold getMerchantSession, session_findFirst. rewrite !bind_run.
      cbn [get_world mret M_ret]. by rewrite Hnone. }
    by rewrite (bind_Throw _ _ _ _ _ Hauth).
  - intros [s Hs] Hnone.
    assert (getMerchantSession shopId w
            = (Throw (Error "AI Agent is disabled for this store"), w)) as Hauth.
    { unfold getMerchantSession, session_findFirst. rewrite !bind_run.
      cbn [get_world mret M_ret]. by rewrite Hs, (findSession_shop _ _ _ Hs), Hnone. }
    by rewrite (bind_Throw _ _ _ _ _ Hauth).
Qed.

(** ** What a request can and cannot do to the world *)

Lemma change_refl (base : nat) (w : World) : change base 0 0 w w.
Proof.
  repeat split; try done.
  - exists []. by rewrite app_nil_r.
  - lia.
  - by left.
  - intros key row Hrow. by exists row.
Qed.

Lemma change_weaken (base a b a' b' : nat) (w w' : World) :
  (a ≤ a')%nat → (b ≤ b')%nat → change base a b w w' → change base a' b' w w'.
Proof.
  intros Ha Hb (Hs & Hp & Hn & (more & Hsent & Hlen) & Hlo & Hhi & Hint & Hmiss & Hpos).
  repeat split; try done.
  - exists more. split; [done|lia].
  - lia.
Qed.

Lemma change_trans (base a1 b1 a2 b2 : nat) (w w1 w2 : World) :
  change base a1 b1 w w1 → change base a2 b2 w1 w2 →
  change base (a1 + a2) (b1 + b2) w w2.
Proof.
  intros (Hs & Hp & Hn & (more & Hsent & Hlen) & Hlo & Hhi & Hint & Hmiss & Hpos)
         (Hs' & Hp' & Hn' & (more' & Hsent' & Hlen') & Hlo' & Hhi' & Hint' & Hmiss' & Hpos').
  repeat split; try congruence.
  - exists (more ++ more')%list. split.
    + by rewrite Hsent', Hsent, app_assoc.
    + rewrite length_app. lia.
  - lia.
  - lia.
  - intros id. destruct (Hint' id) as [Hsame'|(k & Hk1 & Hk2 & ->)].
    + rewrite Hsame'. destruct (Hint id) as [Hsame|(k & Hk1 & Hk2 & ->)]; [by left|].
      right. exists k. repeat split; [done|lia].
    + right. by exists k.
  - intros key row Hrow. destruct (Hmiss key row Hrow) as (row1 & Hrow1 & Hle).
    destruct (Hmiss' key row1 Hrow1) as (row2 & Hrow2 & Hle').
    exists row2. split; [done|lia].
  - auto.
Qed.

Lemma effect_weaken {A : Type} (a b a' b' : nat) (m : M A) :
  (a ≤ a')%nat → (b ≤ b')%nat → effect a b m → effect a' b' m.
Proof. intros Ha Hb Hm base w Hbase. eapply change_weaken; eauto. Qed.

Lemma effect_pure {A : Type} (m : M A) : (∀ w, snd (m w) = w) → effect 0 0 m.
Proof. intros Hpure base w _. rewrite Hpure. apply change_refl. Qed.

Lemma effect_bind {A B : Type} (a1 b1 a2 b2 : nat) (m : M A) (f : A → M B) :
  effect a1 b1 m → (∀ x, effect a2 b2 (f x)) → effect (a1 + a2) (b1 + b2) (m ≫= f).
Proof.
  intros Hm Hf base w Hbase. rewrite bind_run.
  pose proof (Hm base w Hbase) as H1.
  destruct (m w) as [[x|e] w1]; cbn [snd] in *.
  - eapply change_trans; [exact H1|]. apply Hf.
    destruct H1 as (_ & _ & _ & _ & Hlo & _). lia.
  - eapply change_weaken; [| |exact H1]; lia.
Qed.

Lemma effect_mret {A : Type} (x : A) : effect 0 0 (mret x : M A).
Proof. by apply effect_pure. Qed.

Lemma effect_throw {A : Type} (e : Exn) : effect 0 0 (throw e : M A).
Proof. by apply effect_pure. Qed.

Lemma effect_lift {A : Type} (o : Outcome A) : effect 0 0 (lift o).
Proof. by apply effect_pure. Qed.

Lemma effect_ofProfile {A : Type} (name : string) (f : MerchantProfile → A)
    (profile : option MerchantProfile) : effect 0 0 (ofProfile name f profile).
Proof. apply effect_pure. intros w. by destruct profile. Qed.

Lemma effect_deref (what : string) (v : JValue) : effect 0 0 (deref what v).
Proof. apply effect_pure. intros w. by destruct v. Qed.

Lemma effect_getMerchantSession (shopId : string) : effect 0 0 (getMerchantSession shopId).
Proof. apply effect_pure, getMerchantSession_pure. Qed.

Lemma effect_executeShopifyGraphQL (shopId accessTok query : string) (variables : JValue) :
  effect 1 0 (executeShopifyGraphQL shopId accessTok query variables).
Proof.
  intros base w Hbase. rewrite executeShopifyGraphQL_run. cbn [snd].
  repeat split; try done.
  - by eexists [_].
  - cbn. lia.
  - by left.
  - intros key row Hrow. by exists row.
Qed.

Lemma effect_searchProducts (shopId accessTok : string) (query limit : JValue) :
  effect 1 0 (searchProducts shopId accessTok query limit).
Proof.
  unfold searchProducts. cbv zeta.
  apply (effect_bind 1 0 0 0); [apply effect_executeShopifyGraphQL|].
  intros reply. destruct (data reply); apply effect_pure; done.
Qed.

Lemma effect_getProductByHandle (shopId accessTok : string) (handle : JValue) :
  effect 1 0 (getProductByHandle shopId accessTok handle).
Proof.
  unfold getProductByHandle.
  apply (effect_bind 1 0 0 0); [apply effect_executeShopifyGraphQL|].
  intros reply. destruct (data reply); apply effect_pure; done.
Qed.

Lemma effect_createCheckoutLink (shopId accessTok : string) (variantIds quantities : JValue)
    (interactionId : string) :
  effect 1 0 (createCheckoutLink shopId accessTok variantIds quantities interactionId).
Proof.
  unfold createCheckoutLink.
  apply (effect_bind 0 0 1 0); [apply effect_lift|]. intros ids.
  apply (effect_bind 0 0 1 0); [apply effect_lift|]. intros items.
  apply (effect_bind 1 0 0 0); [apply effect_executeShopifyGraphQL|].
  intros reply. destruct (data reply) as [| | |cart userErrors]; try (by apply effect_pure).
  destruct (0 <? length userErrors)%nat; [by apply effect_pure|].
  destruct cart; by apply effect_pure.
Qed.

Lemma effect_agentInteraction_create (row : AgentInteraction) :
  effect 0 1 (agentInteraction_create row).
Proof.
  intros base w Hbase. unfold agentInteraction_create.
  destruct (interactions w !! newId (minted w)) eqn:Hid; cbn [snd].
  - repeat split; try done.
    + exists []. by rewrite app_nil_r.
    + cbn. lia.
    + cbn. lia.
    + by left.
    + intros key r Hr. by exists r.
  - repeat split; try done.
    + exists []. by rewrite app_nil_r.
    + cbn. lia.
    + cbn. lia.
    + intros id. cbn. destruct (decide (id = newId (minted w))) as [->|Hne].
      * right. exists (minted w). repeat split; [done|lia].
      * left. by rewrite lookup_insert_ne.
    + intros key r Hr. by exists r.
Qed.

Lemma effect_logInteraction (merchant intent : string) (query : JValue)
    (a b c d : option string) :
  effect 0 1 (logInteraction merchant intent query a b c d).
Proof.
  unfold logInteraction.
  apply (effect_bind 0 0 0 1); [apply effect_lift|].
  intros q. apply effect_agentInteraction_create.
Qed.

Lemma effect_trackMissedOpportunity (shopId : string) (term : JValue) :
  effect 0 0 (trackMissedOpportunity shopId term).
Proof.
  destruct term as [| | | |t| |]; try (by apply effect_pure).
  intros base w Hbase. cbn [trackMissedOpportunity missedOpportunity_upsert snd].
  repeat split; try done.
  - exists []. by rewrite app_nil_r.
  - cbn. lia.
  - by left.
  - intros key r Hr. cbn.
    destruct (decide (key = (shopId, t))) as [->|Hne].
    + rewrite Hr, lookup_insert_eq. eexists. split; [done|]. cbn. lia.
    + destruct (missed w !! (shopId, t)); rewrite lookup_insert_ne by done; by exists r.
  - intros Hpos key r. cbn.
    destruct (decide (key = (shopId, t))) as [->|Hne].
    + destruct (missed w !! (shopId, t)) as [old|] eqn:Hold;
        rewrite lookup_insert_eq; intros [= <-]; cbn; [|lia].
      pose proof (Hpos _ _ Hold). lia.
    + destruct (missed w !! (shopId, t)); rewrite lookup_insert_ne by done; apply Hpos.
Qed.

Lemma change_bind {A B : Type} (base a1 b1 a2 b2 : nat) (m : M A) (f : A → M B)
    (w : World) :
  change base a1 b1 w (snd (m w)) →
  (∀ x w1, m w = (Return x, w1) → change base a2 b2 w1 (snd (f x w1))) →
  change base (a1 + a2) (b1 + b2) w (snd ((m ≫= f) w)).
Proof.
  intros H1 Hf. rewrite bind_run.
  destruct (m w) as [[x|e] w1] eqn:Hrun; cbn [snd] in *.
  - eapply change_trans; [exact H1|]. by apply Hf.
  - eapply change_weaken; [| |exact H1]; lia.
Qed.

(** Filling in the row of an id minted since [base] is within bounds. *)
Lemma change_update (base k : nat) (f : AgentInteraction → AgentInteraction) (w : World) :
  (base ≤ k)%nat → (k < minted w)%nat →
  change base 0 0 w (snd (agentInteraction_update (newId k) f w)).
Proof.
  intros Hlo Hhi. unfold agentInteraction_update.
  destruct (interactions w !! newId k) as [row|] eqn:Hrow; cbn [snd]; [|apply change_refl].
  repeat split; try done.
  - exists []. by rewrite app_nil_r.
  - cbn. lia.
  - intros id. cbn. destruct (decide (id = newId k)) as [->|Hne].
    + right. by exists k.
    + left. by rewrite lookup_insert_ne.
  - intros key r Hr. by exists r.
Qed.

Lemma effect_handleToolCall (toolName args : JValue) (session : Session)
    (profile : option MerchantProfile) :
  effect 1 1 (handleToolCall toolName args session profile).
Proof.
  unfold handleToolCall. cbv zeta.
  destruct (is_str toolName "search_products").
  { apply (effect_bind 1 0 0 1); [apply effect_searchProducts|]. intros products.
    apply (effect_bind 0 0 0 1).
    { destruct (length products =? 0)%nat;
        [apply effect_trackMissedOpportunity|apply effect_mret]. }
    intros _. apply (effect_bind 0 0 0 1); [apply effect_ofProfile|]. intros merchant.
    apply (effect_bind 0 1 0 0); [apply effect_logInteraction|]. intros _.
    apply effect_mret. }
  destruct (is_str toolName "get_product").
  { apply (effect_bind 1 0 0 1); [apply effect_getProductByHandle|]. intros product.
    apply (effect_bind 0 0 0 1); [apply effect_ofProfile|]. intros merchant.
    apply (effect_bind 0 1 0 0); [apply effect_logInteraction|]. intros _.
    destruct product; apply effect_mret. }
  destruct (is_str toolName "create_checkout").
  { apply (effect_bind 0 0 1 1).
    { destruct (truthy (field "quantities" args)); [apply effect_mret|].
      apply (effect_bind 0 0 0 0); [apply effect_lift|]. intros ids. apply effect_mret. }
    intros quantities.
    apply (effect_bind 0 0 1 1); [apply effect_ofProfile|]. intros merchant.
    intros base w Hbase.
    apply (change_bind base 0 1 1 0); [by apply effect_logInteraction|].
    intros interactionId w1 Hlog.
    apply logInteraction_Return in Hlog as (-> & _ & row & _ & _ & ->).
    apply (change_bind base 1 0 0 0).
    { apply effect_createCheckoutLink. cbn. lia. }
    intros checkout w2 Hcart.
    apply createCheckoutLink_Return in Hcart as (ids & items & _ & _ & ->).
    apply (change_bind base 0 0 0 0).
    { apply change_update; [done|]. cbn. lia. }
    intros _ w3 _. apply change_refl. }
  destruct (is_str toolName "get_store_info").
  { apply (effect_bind 0 0 1 1); [apply effect_ofProfile|]. intros voice.
    apply (effect_bind 0 0 1 1); [apply effect_ofProfile|]. intros returns.
    apply (effect_bind 0 0 1 1); [apply effect_ofProfile|]. intros shipping.
    apply (effect_bind 0 0 1 1); [apply effect_ofProfile|]. intros threshold.
    apply (effect_bind 0 0 1 1); [apply effect_ofProfile|]. intros merchant.
    apply (effect_bind 0 1 1 0); [apply effect_logInteraction|]. intros _.
    eapply effect_weaken; [| |apply effect_mret]; lia. }
  eapply effect_weaken; [| |apply effect_throw]; lia.
Qed.

Lemma effect_route (shopId : string) (session : Session) (profile : option MerchantProfile)
    (body : JValue) :
  effect 1 1 (route shopId session profile body).
Proof.
  unfold route. cbv zeta.
  destruct (is_str _ "initialize");
    [eapply effect_weaken; [| |apply effect_mret]; lia|].
  destruct (is_str _ "tools/list");
    [eapply effect_weaken; [| |apply effect_mret]; lia|].
  destruct (is_str _ "tools/call").
  { apply (effect_bind 0 0 1 1); [apply effect_deref|]. intros rpcParams.
    apply (effect_bind 1 1 0 0); [apply effect_handleToolCall|]. intros result.
    apply effect_mret. }
  destruct (is_str _ "resources/list");
    [eapply effect_weaken; [| |apply effect_mret]; lia|].
  destruct (is_str _ "resources/read").
  { apply (effect_bind 0 0 1 1); [apply effect_deref|]. intros rpcParams.
    destruct (is_str _ (contextResource shopId));
      eapply effect_weaken; [| |apply effect_mret| | |apply effect_mret]; lia. }
  eapply effect_weaken; [| |apply effect_mret]; lia.
Qed.

Lemma effect_dispatch (shopId : string) (request_json : option JValue) :
  effect 1 1 (dispatch shopId request_json).
Proof.
  unfold dispatch.
  apply (effect_bind 0 0 1 1).
  { destruct request_json; [apply effect_mret|apply effect_throw]. }
  intros body. apply (effect_bind 0 0 1 1); [apply effect_getMerchantSession|].
  intros found. apply (effect_bind 0 0 1 1); [apply effect_deref|].
  intros body'. apply effect_route.
Qed.

Lemma change_action (shopId : option string) (request_json : option JValue) (w : World) :
  change (minted w) 1 1 w (snd (action shopId request_json w)).
Proof.
  unfold action.
  destruct shopId as [key|];
    [|eapply change_weaken; [| |apply change_refl]; lia].
  destruct (negb (nonempty key));
    [eapply change_weaken; [| |apply change_refl]; lia|].
  pose proof (effect_dispatch key request_json (minted w) w (le_n _)) as H.
  by destruct (dispatch key request_json w) as [[response|e] w'].
Qed.

(** X11.  Whatever the request, the dispatcher never writes a session or a
    profile and never moves the clock; it sends the requests it had sent
    before plus at most one more, and mints at most one interaction id. *)
Theorem one_request_costs_at_most_one_call_and_one_row
    (shopId : option string) (request_json : option JValue) (w : World) :
  sessions (snd (action shopId request_json w)) = sessions w
  ∧ profiles (snd (action shopId request_json w)) = profiles w
  ∧ now (snd (action shopId request_json w)) = now w
  ∧ (∃ more, sent (snd (action shopId request_json w)) = (sent w ++ more)%list
             ∧ (length more ≤ 1)%nat)
  ∧ (minted w ≤ minted (snd (action shopId request_json w)))%nat
  ∧ (minted (snd (action shopId request_json w)) ≤ minted w + 1)%nat.
Proof.
  destruct (change_action shopId request_json w)
    as (Hs & Hp & Hn & Hsent & Hlo & Hhi & _). by repeat split.
Qed.

(** X12.  The interaction log only grows.  If the database never hands out
    an id twice and no id it has yet to hand out is in use, then after any
    request every interaction stored before is stored unchanged, and again
    no id yet to be handed out is in use. *)
Theorem stored_interactions_are_never_changed
    (shopId : option string) (request_json : option JValue) (w : World) :
  (∀ a b, newId a = newId b → a = b) →
  idsUnused w →
  (∀ id row, interactions w !! id = Some row →
             interactions (snd (action shopId request_json w)) !! id = Some row)
  ∧ idsUnused (snd (action shopId request_json w)).
Proof.
  intros Hinj Hunused.
  destruct (change_action shopId request_json w)
    as (_ & _ & _ & _ & Hlo & _ & Hint & _).
  split.
  - intros id row Hrow. destruct (Hint id) as [->|(k & Hk & _ & ->)]; [done|].
    by rewrite (Hunused k Hk) in Hrow.
  - intros k Hk. destruct (Hint (newId k)) as [->|(k' & _ & Hk' & Heq)].
    + apply Hunused. lia.
    + apply Hinj in Heq. lia.
Qed.

(** X13.  No request removes a missed-opportunity row or lowers its count,
    and if every row counted at least one search before the request, every
    row does after it. *)
Theorem missed_counts_never_go_down
    (shopId : option string) (request_json : option JValue) (w : World) :
  (∀ key row, missed w !! key = Some row →
     ∃ row', missed (snd (action shopId request_json w)) !! key = Some row'
             ∧ (count row ≤ count row')%Z)
  ∧ (countsPositive w → countsPositive (snd (action shopId request_json w))).
Proof.
  destruct (change_action shopId request_json w) as (_ & _ & _ & _ & _ & _ & _ & Hmiss & Hpos).
  by split.
Qed.

(** ** Further properties of the prompt, the health check and discovery *)

Lemma buildSystemPrompt_blank_policy (shopId accessTok voice : string)
    (returns shipping : option string) (threshold : Z) :
  buildSystemPrompt
    (mkContext shopId accessTok voice
       (match returns with
        | Some text => if nonempty text then Some text else None
        | None => None
        end)
       (match shipping with
        | Some text => if nonempty text then Some text else None
        | None => None
        end) threshold)
  = buildSystemPrompt (mkContext shopId accessTok voice returns shipping threshold).
Proof.
  unfold buildSystemPrompt. cbn [ctx_shop ctx_brandVoice ctx_returnPolicy ctx_shippingInfo
    ctx_minFreeShipping].
  destruct returns as [r|], shipping as [s|]; cbn [present]; try reflexivity;
    try destruct (nonempty r) eqn:Hr; try destruct (nonempty s) eqn:Hs;
    cbn [present]; rewrite ?Hr, ?Hs; reflexivity.
Qed.

(** X14.  The two places that build a shop's context agree on the prompt:
    for an enabled tenant whose profile names a brand voice, the text served
    by resources/read for the tenant's context resource is the system prompt
    of the context [getMerchantContext] returns for the shop, although one
    keeps an empty policy text and the other drops it. *)
Theorem served_prompt_is_the_context_prompt
    (shopId : string) (body : JValue) (p : MerchantProfile) (w : World) :
  nonempty shopId = true →
  tenantEnabled shopId w = true →
  profiles w !! shopId = Some p →
  nonempty (brandVoice p) = true →
  is_str (field "method" body) "resources/read" = true →
  field "uri" (field "params" body) = JStr ("shop://" +:+ shopId +:+ "/context") →
  ∃ context,
    getMerchantContext shopId w = (Return (Some context), w)
    ∧ resp_body (fst (action (Some shopId) (Some body) w)) =
        rpcResult (field "id" body)
          (JObj [("contents",
                  JArr [JObj [("uri", JStr ("shop://" +:+ shopId +:+ "/context"));
                              ("mimeType", JStr "text/plain");
                              ("text", JStr (buildSystemPrompt context))]])]).
Proof.
  intros Hkey Hon Hp Hvoice Hmethod Huri.
  assert (destructurable body = true) as Hbody.
  { destruct body; try discriminate; reflexivity. }
  assert (destructurable (field "params" body) = true) as Hparams.
  { destruct (field "params" body); try discriminate; reflexivity. }
  destruct (dispatch_enabled _ _ _ Hon Hbody) as (s & p' & Hs & Hp' & _ & Hroute).
  assert (p' = p) as -> by congruence.
  pose proof (findSession_shop _ _ _ Hs) as Hshop.
  exists (mkContext (shop s) (accessToken s) (brandVoice p)
            (match returnPolicy p with
             | Some text => if nonempty text then Some text else None
             | None => None
             end)
            (match shippingInfo p with
             | Some text => if nonempty text then Some text else None
             | None => None
             end) (minFreeShipping p)).
  split.
  - unfold getMerchantContext, session_findFirst. rewrite !bind_run.
    cbn [get_world mret M_ret]. rewrite Hs, Hshop, Hp. cbn [fmap option_fmap option_map
      mbind option_bind default]. rewrite Hvoice. reflexivity.
  - unfold action. rewrite Hkey, Hroute, (route_read _ _ _ _ _ Hmethod Hparams).
    cbn [negb fst]. rewrite Huri. unfold contextResource. cbn [is_str].
    rewrite String.eqb_refl, Hvoice, buildSystemPrompt_blank_policy. reflexivity.
Qed.

(** X15.  The health check tells what the dispatcher will do.  For a key
    without a session it answers 404; for a key with one it answers 200 with
    [agentEnabled] true exactly when the tenant is enabled, in which case a
    tools/list under that key gets its result, and false otherwise, in which
    case every request under that key is turned away with the disabled
    error. *)
Theorem health_check_agrees_with_dispatcher
    (shopId : string) (body : JValue) (w : World) :
  nonempty shopId = true →
  (findSession shopId w = None →
   resp_status (healthLoader (Some shopId) w) = 404%nat)
  ∧ (is_Some (findSession shopId w) →
     resp_status (healthLoader (Some shopId) w) = 200%nat
     ∧ field "agentEnabled" (resp_body (healthLoader (Some shopId) w))
       = JBool (tenantEnabled shopId w)
     ∧ (tenantEnabled shopId w = true →
        is_str (field "method" body) "tools/list" = true →
        fst (action (Some shopId) (Some body) w)
        = mkResponse 200 [("Content-Type", "application/json; charset=utf-8")]
            (JObj [("jsonrpc", JStr "2.0"); ("id", field "id" body);
                   ("result", JObj [("tools", TOOLS)])]))
     ∧ (tenantEnabled shopId w = false →
        fst (action (Some shopId) (Some body) w)
        = mkResponse 200 [("Content-Type", "application/json; charset=utf-8")]
            (JObj [("jsonrpc", JStr "2.0"); ("id", JNull);
                   ("error", JObj [("code", JNum (-32603));
                                   ("message",
                                    JStr "AI Agent is disabled for this store")])]))).
Proof.
  intros Hkey. unfold healthLoader, session_findFirst. rewrite Hkey. cbn [negb].
  rewrite bind_run. cbn [get_world mret M_ret]. split.
  - by intros ->.
  - intros [s Hs]. rewrite Hs. split; [reflexivity|]. split.
    { unfold tenantEnabled. by rewrite Hs. }
    split.
    + intros Hon Hmethod. by rewrite (tools_list_response _ _ _ Hkey Hon Hmethod).
    + intros Hoff.
      assert (getMerchantSession shopId w
              = (Throw (Error "AI Agent is disabled for this store"), w)) as Hauth.
      { unfold getMerchantSession, session_findFirst. rewrite !bind_run.
        cbn [get_world mret M_ret]. rewrite Hs.
        unfold tenantEnabled in Hoff. rewrite Hs in Hoff. by rewrite Hoff. }
      unfold action, dispatch. rewrite Hkey. cbn [negb].
      rewrite bind_run. cbn [mret M_ret]. by rewrite (bind_Throw _ _ _ _ _ Hauth).
Qed.

Lemma prefix_refl (s : string) : String.prefix s s = true.
Proof.
  induction s as [|c s IH]; [reflexivity|]. cbn. by destruct (ascii_dec c c).
Qed.

Lemma substring_nothing (n : nat) (s : string) : String.substring n 0 s = EmptyString.
Proof.
  revert s. induction n as [|n IH]; intros [|c s]; try reflexivity. cbn. apply IH.
Qed.

Lemma append_empty (s : string) : s +:+ EmptyString = s.
Proof.
  induction s as [|c s IH]; [reflexivity|].
  change (String c (s +:+ EmptyString) = String c s). by f_equal.
Qed.

Lemma replace_first_suffix (c : ascii) (pattern replacement label : string) :
  lacks c label = true →
  replace_first (String c pattern) replacement (label +:+ String c pattern)
  = label +:+ replacement.
Proof.
  intros Hlacks. induction label as [|x label IH].
  - change (EmptyString +:+ String c pattern) with (String c pattern).
    change (EmptyString +:+ replacement) with replacement.
    unfold replace_first.
    rewrite prefix_refl, Nat.sub_diag, substring_nothing. apply append_empty.
  - cbn [lacks] in Hlacks. apply andb_true_iff in Hlacks as [Hx Hlabel].
    apply negb_true_iff, Ascii.eqb_neq in Hx.
    change (String x label +:+ String c pattern)
      with (String x (label +:+ String c pattern)).
    change (String x label +:+ replacement) with (String x (label +:+ replacement)).
    cbn [replace_first String.prefix].
    destruct (ascii_dec c x) as [->|_]; [done|].
    f_equal. by apply IH.
Qed.

(** X16.  The store name of the discovery document is the shop domain
    without its suffix: for an enabled shop [<label>.myshopify.com] whose
    label has no dot, the document (status 200, readable from any origin,
    cacheable for 300 seconds) names the store [<label>] and gives the whole
    domain as its domain. *)
Theorem discovery_names_the_store_by_its_label
    (label : string) (session : Session) (p : MerchantProfile) (w : World) :
  lacks "." label = true →
  shop session = label +:+ ".myshopify.com" →
  profiles w !! shop session = Some p →
  isEnabled p = true →
  resp_status (loader (Return (Some session)) w) = 200%nat
  ∧ resp_headers (loader (Return (Some session)) w)
    = [("Content-Type", "application/json"); ("Cache-Control", "public, max-age=300");
       ("Access-Control-Allow-Origin", "*")]
  ∧ field "store" (resp_body (loader (Return (Some session)) w))
    = JObj [("name", JStr label); ("domain", JStr (label +:+ ".myshopify.com"))].
Proof.
  intros Hlabel Hshop Hp Hon. unfold loader, merchantProfile_findUnique.
  rewrite bind_run. cbn [get_world mret M_ret]. rewrite Hp. cbn. rewrite Hon. cbn.
  repeat split. rewrite Hshop.
  change ".myshopify.com" with (String "." "myshopify.com") at 1 2.
  by rewrite (replace_first_suffix "." "myshopify.com" EmptyString label Hlabel), append_empty.
Qed.

(** ** The webhooks *)

Lemma find_filter {A : Type} (f g : A → bool) (l : list A) :
  (∀ x, f x = true → g x = true) → List.find f (List.filter g l) = List.find f l.
Proof.
  intros Hfg. induction l as [|x l IH]; [reflexivity|]. cbn.
  destruct (g x) eqn:Hg; cbn.
  - destruct (f x); [reflexivity|exact IH].
  - destruct (f x) eqn:Hf; [|exact IH]. apply Hfg in Hf. congruence.
Qed.

Lemma find_filter_none {A : Type} (f g : A → bool) (l : list A) :
  (∀ x, f x = true → g x = false) → List.find f (List.filter g l) = None.
Proof.
  intros Hfg. induction l as [|x l IH]; [reflexivity|]. cbn.
  destruct (g x) eqn:Hg; cbn; [|exact IH].
  destruct (f x) eqn:Hf; [|exact IH]. apply Hfg in Hf. congruence.
Qed.

Lemma uninstall_session_gone (shopId : string) (l : Ledger) :
  findSession shopId (tables (handleAppUninstalled shopId l)) = None.
Proof.
  unfold handleAppUninstalled, findSession. cbn [tables sessions].
  apply find_filter_none. intros s Hs. by rewrite Hs.
Qed.

Lemma uninstall_session_other (shopId other : string) (l : Ledger) :
  other ≠ shopId →
  findSession other (tables (handleAppUninstalled shopId l)) = findSession other (tables l).
Proof.
  intros Hother. unfold handleAppUninstalled, findSession. cbn [tables sessions].
  apply find_filter. intros s Hs. apply String.eqb_eq in Hs.
  apply negb_true_iff, String.eqb_neq. congruence.
Qed.

Lemma uninstall_profile_other (shopId other : string) (l : Ledger) :
  other ≠ shopId →
  profiles (tables (handleAppUninstalled shopId l)) !! other = profiles (tables l) !! other.
Proof. intros Hother. cbn. by apply lookup_delete_ne. Qed.

(** X17.  Uninstalling removes the shop and only the shop: afterwards no
    session, no profile and no missed-opportunity row of the shop is left,
    while the session found for any other shop, its profile and its
    missed-opportunity rows are what they were. *)
Theorem uninstall_removes_the_shop_and_nothing_else (shopId : string) (l : Ledger) :
  findSession shopId (tables (handleAppUninstalled shopId l)) = None
  ∧ profiles (tables (handleAppUninstalled shopId l)) !! shopId = None
  ∧ (∀ term, missed (tables (handleAppUninstalled shopId l)) !! (shopId, term) = None)
  ∧ ∀ other, other ≠ shopId →
      findSession other (tables (handleAppUninstalled shopId l)) = findSession other (tables l)
      ∧ profiles (tables (handleAppUninstalled shopId l)) !! other = profiles (tables l) !! other
      ∧ ∀ term, missed (tables (handleAppUninstalled shopId l)) !! (other, term)
                = missed (tables l) !! (other, term).
Proof.
  split; [apply uninstall_session_gone|]. split; [apply lookup_delete_eq|]. split.
  - intros term. apply map_lookup_filter_None. right. intros row _. cbn. by intros [].
  - intros other Hother.
    split; [by apply uninstall_session_other|]. split; [by apply uninstall_profile_other|].
    intros term. cbn [handleAppUninstalled tables missed].
    destruct (missed (tables l) !! (other, term)) as [row|] eqn:Hrow.
    + apply map_lookup_filter_Some. split; [done|]. cbn. congruence.
    + apply map_lookup_filter_None. by left.
Qed.

(** X18.  After the uninstall webhook the shop's endpoint is closed and the
    others are as open as before: every request under the shop's key is
    answered [Shop not found], the health check answers 404, and any other
    tenant is enabled exactly if it was. *)
Theorem uninstalled_shop_is_turned_away
    (shopId : string) (body : JValue) (l : Ledger) :
  nonempty shopId = true →
  action (Some shopId) (Some body) (tables (webhookAction "APP_UNINSTALLED" shopId JNull l))
    = (mkResponse 200 [("Content-Type", "application/json; charset=utf-8")]
         (JObj [("jsonrpc", JStr "2.0"); ("id", JNull);
                ("error", JObj [("code", JNum (-32603));
                                ("message", JStr "Shop not found")])]),
       tables (webhookAction "APP_UNINSTALLED" shopId JNull l))
  ∧ resp_status (healthLoader (Some shopId)
                   (tables (webhookAction "APP_UNINSTALLED" shopId JNull l))) = 404%nat
  ∧ ∀ other, other ≠ shopId →
      tenantEnabled other (tables (webhookAction "APP_UNINSTALLED" shopId JNull l))
      = tenantEnabled other (tables l).
Proof.
  intros Hkey. change (webhookAction "APP_UNINSTALLED" shopId JNull l)
    with (handleAppUninstalled shopId l).
  pose proof (uninstall_session_gone shopId l) as Hsession.
  split; [|split].
  - unfold action, dispatch. rewrite Hkey. cbn [negb]. rewrite bind_run.
    cbn [mret M_ret].
    assert (getMerchantSession shopId (tables (handleAppUninstalled shopId l))
            = (Throw (Error "Shop not found"), tables (handleAppUninstalled shopId l)))
      as Hauth.
    { unfold getMerchantSession, session_findFirst. rewrite !bind_run.
      cbn [get_world mret M_ret]. by rewrite Hsession. }
    by rewrite (bind_Throw _ _ _ _ _ Hauth).
  - unfold healthLoader, session_findFirst. rewrite Hkey. cbn [negb].
    rewrite bind_run. cbn [get_world mret M_ret]. by rewrite Hsession.
  - intros other Hother.
    pose proof (uninstall_profile_other shopId other l Hother) as Hprofile.
    unfold tenantEnabled. rewrite (uninstall_session_other shopId other l Hother).
    destruct (findSession other (tables l)) as [s|] eqn:Hs; [|reflexivity].
    rewrite (findSession_shop _ _ _ Hs). by rewrite Hprofile.
Qed.

Lemma handleOrderCreate_gateway
    (shopId interactionId : string) (items : list LineItem) (payload : JValue)
    (row : AgentInteraction) (l : Ledger) :
  nonempty interactionId = true →
  field "note_attributes" payload = noteAttributesOf (cartInput items interactionId) →
  interactions (tables l) !! interactionId = Some row →
  handleOrderCreate shopId payload l =
    mkLedger (tables l)
      (<[interactionId := mkConversion true (toStr (field "id" payload))
                            (toStr (js_or (field "total_price" payload) (JStr "0")))]>
         (conversions l)).
Proof.
  intros Hid Hattrs Hrow. unfold handleOrderCreate, orderAttribution.
  assert (destructurable payload = true) as Hpayload.
  { destruct payload; try discriminate; reflexivity. }
  rewrite Hattrs.
  change (noteAttributesOf (cartInput items interactionId))
    with (JArr [JObj [("name", JStr "_source"); ("value", JStr "universal_agent_gateway")];
                JObj [("name", JStr "_interaction_id"); ("value", JStr interactionId)]]).
  destruct payload; try discriminate; cbn; fold (nonempty interactionId);
    rewrite Hid; cbn; by rewrite Hrow.
Qed.

(** X19.  The attribution pair comes back: an order whose note attributes
    are the attributes of a cart the gateway created for the interaction
    [interactionId] marks exactly that interaction as converted, with the
    order's id and total, provided the interaction is stored and its id is
    not the empty text; nothing else in the database changes. *)
Theorem order_of_a_gateway_cart_is_attributed
    (shopId interactionId : string) (items : list LineItem) (payload : JValue)
    (row : AgentInteraction) (l : Ledger) :
  nonempty interactionId = true →
  field "note_attributes" payload = noteAttributesOf (cartInput items interactionId) →
  interactions (tables l) !! interactionId = Some row →
  webhookAction "ORDERS_CREATE" shopId payload l =
    mkLedger (tables l)
      (<[interactionId := mkConversion true (toStr (field "id" payload))
                            (toStr (js_or (field "total_price" payload) (JStr "0")))]>
         (conversions l)).
Proof. apply handleOrderCreate_gateway. Qed.

(** X20.  From checkout to conversion: after a create_checkout call has
    succeeded, an order that carries the attributes of the cart request that
    call sent is attributed to the interaction that call logged, the one
    whose stored row holds the checkout id the call returned, provided the
    id the database minted is not the empty text. *)
Theorem checkout_then_order_converts_its_interaction
    (args : JValue) (session : Session) (profile : option MerchantProfile)
    (w w' : World) (result payload : JValue) (shopId : string)
    (known : gmap string Conversion) :
  handleToolCall (JStr "create_checkout") args session profile w = (Return result, w') →
  nonempty (newId (minted w)) = true →
  (∀ request, last (sent w') = Some request →
              field "note_attributes" payload = noteAttributesOf (inputOf request)) →
  conversions (webhookAction "ORDERS_CREATE" shopId payload (mkLedger w' known))
    !! newId (minted w)
    = Some (mkConversion true (toStr (field "id" payload))
              (toStr (js_or (field "total_price" payload) (JStr "0"))))
  ∧ ∃ row cart,
      interactions w' !! newId (minted w) = Some row
      ∧ userIntent row = "create_checkout"
      ∧ ai_checkoutId row = Some cart
      ∧ field "checkoutId" (field "data" result) = JStr cart.
Proof.
  rewrite handler_checkout_run. intros Hrun Hid Hattrs.
  apply bind_Return_inv in Hrun as (quantities & w0 & Hq & Hrun).
  apply quantities_step in Hq as [-> _].
  apply bind_Return_inv in Hrun as (merchant & w0 & Hm & Hrun).
  destruct profile as [p|]; [|discriminate]. injection Hm as <- <-.
  apply bind_Return_inv in Hrun as (interactionId & w1 & Hlog & Hrun).
  apply bind_Return_inv in Hrun as (checkout & w2 & Hcart & Hrun).
  apply bind_Return_inv in Hrun as ([] & w3 & Hupdate & Hrun).
  injection Hrun as <- <-.
  apply createCheckoutLink_Return in Hcart as (ids & items & _ & _ & ->).
  unfold agentInteraction_update in Hupdate.
  destruct (interactions _ !! interactionId) as [row|] eqn:Hrow; [|discriminate].
  injection Hupdate as <-.
  destruct (logInteraction_Return _ _ _ _ _ _ Hlog) as (-> & _ & row0 & Hintent & _ & ->).
  cbn in Hrow. rewrite lookup_insert_eq in Hrow. injection Hrow as <-.
  match type of Hattrs with
  | ∀ request, last (sent ?final) = _ → _ => set (w' := final) in *
  end.
  assert (last (sent w') = Some (cartRequest (shop session) (accessToken session) items
                                   (newId (minted w)))) as Hlast.
  { unfold w'. cbn. by rewrite last_snoc. }
  assert (interactions w' !! newId (minted w)
          = Some (mkInteraction (merchantId row0) (userIntent row0) (inputQuery row0)
                    (Some (checkoutId checkout)) (Some (checkoutUrl checkout))
                    (Some (totalPrice checkout)) (userAgent row0))) as Hstored.
  { unfold w'. cbn. by rewrite lookup_insert_eq. }
  specialize (Hattrs _ Hlast). clearbody w'.
  split.
  - change (webhookAction "ORDERS_CREATE" shopId payload (mkLedger w' known))
      with (handleOrderCreate shopId payload (mkLedger w' known)).
    rewrite (handleOrderCreate_gateway shopId (newId (minted w)) items payload _
               (mkLedger w' known) Hid Hattrs Hstored).
    cbn. by rewrite lookup_insert_eq.
  - eexists _, (checkoutId checkout). split; [exact Hstored|]. by repeat split.
Qed.

(** X21.  The webhooks keep the conversions attached: whatever is
    delivered, under whatever topic, only an uninstall touches anything but
    the conversion columns, and if every conversion belonged to a stored
    interaction before the delivery, every conversion does after it (an
    order for an unknown interaction id adds none). *)
Theorem webhooks_keep_conversions_attached
    (topic shopId : string) (payload : JValue) (l : Ledger) :
  (topic ≠ "APP_UNINSTALLED" → tables (webhookAction topic shopId payload l) = tables l)
  ∧ (conversionsAttached l → conversionsAttached (webhookAction topic shopId payload l)).
Proof.
  unfold webhookAction.
  destruct (String.eqb topic "ORDERS_CREATE") eqn:Horder.
  - unfold handleOrderCreate.
    destruct (orderAttribution payload) as [[[[| | | |id| |] columns]|]|e]; try by split.
    destruct (interactions (tables l) !! id) as [row|] eqn:Hrow; [|by split].
    split; [done|]. intros Hattached id' Hsome. cbn in *.
    destruct (decide (id' = id)) as [->|Hne]; [by rewrite Hrow|].
    rewrite lookup_insert_ne in Hsome by done. by apply Hattached.
  - destruct (String.eqb topic "APP_UNINSTALLED") eqn:Huninstall; [|by split].
    split; [by apply String.eqb_eq in Huninstall|].
    intros _ id [c Hc]. unfold handleAppUninstalled in *. cbn in *.
    apply map_lookup_filter_Some in Hc as [_ Hkept]. exact Hkept.
Qed.

(** ** The dashboard switch *)

Lemma toggle_world (session : Session) (formData : string → option string) (w : World) :
  formData "intent" = Some "toggle_agent" →
  snd (dashboardAction session formData w) =
    set_profiles
      (λ m, match m !! shop session with
            | Some row =>
                <[shop session :=
                    mkProfile (profileId row)
                      (match formData "isEnabled" with
                       | Some value => String.eqb value "true"
                       | None => false
                       end)
                      (brandVoice row) (returnPolicy row) (shippingInfo row)
                      (minFreeShipping row) (stampOnUpdate (updatedAt row))]> m
            | None =>
                <[shop session :=
                    mkProfile (profileId (profileDefaults (shop session)))
                      (match formData "isEnabled" with
                       | Some value => String.eqb value "true"
                       | None => false
                       end)
                      "friendly and professional"
                      (returnPolicy (profileDefaults (shop session)))
                      (shippingInfo (profileDefaults (shop session))) 50
                      (updatedAt (profileDefaults (shop session)))]> m
            end) w.
Proof. intros Hintent. unfold dashboardAction. by rewrite Hintent, String.eqb_refl. Qed.

(** X22.  The switch works, and anything but the text [true] switches off.
    After the dashboard's toggle_agent action for a shop that has a session,
    the tenant is enabled exactly when the posted [isEnabled] is the text
    [true]; when it is anything else, or missing, every request to the
    shop's MCP endpoint is answered with the disabled error. *)
Theorem toggle_decides_the_dispatcher
    (session : Session) (formData : string → option string) (body : JValue) (w : World) :
  nonempty (shop session) = true →
  is_Some (findSession (shop session) w) →
  formData "intent" = Some "toggle_agent" →
  tenantEnabled (shop session) (snd (dashboardAction session formData w))
    = match formData "isEnabled" with
      | Some value => String.eqb value "true"
      | None => false
      end
  ∧ (formData "isEnabled" ≠ Some "true" →
     fst (action (Some (shop session)) (Some body) (snd (dashboardAction session formData w)))
     = mkResponse 200 [("Content-Type", "application/json; charset=utf-8")]
         (JObj [("jsonrpc", JStr "2.0"); ("id", JNull);
                ("error", JObj [("code", JNum (-32603));
                                ("message", JStr "AI Agent is disabled for this store")])])).
Proof.
  intros Hkey [s Hs] Hintent. rewrite (toggle_world _ _ _ Hintent).
  set (enabled := match formData "isEnabled" with
                  | Some value => String.eqb value "true"
                  | None => false
                  end).
  set (w' := set_profiles _ w).
  assert (findSession (shop session) w' = Some s) as Hs' by exact Hs.
  assert (∃ p, profiles w' !! shop session = Some p ∧ isEnabled p = enabled) as (p & Hp & Hflag).
  { unfold w'. cbn. destruct (profiles w !! shop session);
      rewrite lookup_insert_eq; by eexists. }
  assert (tenantEnabled (shop session) w' = enabled) as Hon.
  { unfold tenantEnabled. rewrite Hs', (findSession_shop _ _ _ Hs), Hp. exact Hflag. }
  split; [exact Hon|].
  intros Hoff.
  assert (enabled = false) as Henabled.
  { unfold enabled. destruct (formData "isEnabled") as [value|]; [|reflexivity].
    apply String.eqb_neq. congruence. }
  assert (tenantDisabled (shop session) w' = true) as Hdisabled.
  { unfold tenantDisabled. rewrite Hs', (findSession_shop _ _ _ Hs), Hp, Hflag, Henabled.
    reflexivity. }
  unfold action, dispatch. rewrite Hkey. cbn [negb]. rewrite bind_run. cbn [mret M_ret].
  by rewrite (bind_Throw _ _ _ _ _ (getMerchantSession_disabled _ _ Hdisabled)).
Qed.

(** X23.  The switch changes the flag and nothing a shopper sees: the
    toggle leaves sessions, interactions and missed opportunities alone, the
    profiles of other shops too, and in the profile it finds it keeps the
    id, the brand voice, both policy texts and the free-shipping threshold;
    an action with any other intent is answered with an error and writes
    nothing. *)
Theorem toggle_changes_only_the_flag
    (session : Session) (formData : string → option string) (w : World) :
  (formData "intent" = Some "toggle_agent" →
   sessions (snd (dashboardAction session formData w)) = sessions w
   ∧ interactions (snd (dashboardAction session formData w)) = interactions w
   ∧ missed (snd (dashboardAction session formData w)) = missed w
   ∧ (∀ other, other ≠ shop session →
        profiles (snd (dashboardAction session formData w)) !! other = profiles w !! other)
   ∧ ∀ row, profiles w !! shop session = Some row →
       ∃ row', profiles (snd (dashboardAction session formData w)) !! shop session = Some row'
         ∧ profileId row' = profileId row ∧ brandVoice row' = brandVoice row
         ∧ returnPolicy row' = returnPolicy row ∧ shippingInfo row' = shippingInfo row
         ∧ minFreeShipping row' = minFreeShipping row)
  ∧ (formData "intent" ≠ Some "toggle_agent" →
     dashboardAction session formData w
     = (JObj [("status", JStr "error"); ("message", JStr "Unknown action")], w)).
Proof.
  split.
  - intros Hintent. rewrite (toggle_world _ _ _ Hintent). cbn.
    repeat split.
    + intros other Hother. destruct (profiles w !! shop session);
        by rewrite lookup_insert_ne.
    + intros row Hrow. rewrite Hrow, lookup_insert_eq. by eexists.
  - intros Hintent. unfold dashboardAction.
    destruct (formData "intent") as [intent|]; [|reflexivity].
    destruct (String.eqb_spec intent "toggle_agent") as [->|Hne]; [done|reflexivity].
Qed.

(** ** The playground *)

(** X24.  The playground only looks: whatever ASCII text is posted, it
    logs no interaction, counts no missed opportunity and touches no session
    or profile, and it sends either nothing or one product search for at
    most five products, whose query is never the empty text. *)
Theorem playground_only_searches (session : Session) (message : option string) (w : World) :
  (∀ text, message = Some text → asciiOnly text = true) →
  sessions (snd (playgroundAction session message w)) = sessions w
  ∧ profiles (snd (playgroundAction session message w)) = profiles w
  ∧ interactions (snd (playgroundAction session message w)) = interactions w
  ∧ minted (snd (playgroundAction session message w)) = minted w
  ∧ missed (snd (playgroundAction session message w)) = missed w
  ∧ (sent (snd (playgroundAction session message w)) = sent w
     ∨ ∃ query, nonempty query = true
                ∧ sent (snd (playgroundAction session message w))
                  = (sent w
                     ++ [mkRequest ("https://" +:+ shop session
                                    +:+ "/admin/api/2025-01/graphql.json")
                                   (accessToken session)
                                   (JObj [("query", JStr SEARCH_PRODUCTS_QUERY);
                                          ("variables",
                                           JObj [("query", JStr query);
                                                 ("first", JNum 5)])])])%list).
Proof.
  intros _. unfold playgroundAction.
  destruct message as [message|]; [|by repeat split; try left].
  destruct (nonempty message) eqn:Hmessage; cbn [negb]; [|by repeat split; try left].
  destruct (wantsSearch (toLowerCase message)); [|by repeat split; try left].
  rewrite searchProducts_run. cbn [limitOrDefault].
  set (query := if nonempty _ then _ else message).
  assert (nonempty query = true) as Hquery.
  { unfold query. by destruct (nonempty (trim (removeFillers 0 message))) eqn:Hterms. }
  destruct (match checkResponse _ with Return _ => _ | Throw e => Throw e end)
    as [products|e]; [destruct (length products =? 0)%nat|];
    cbn [snd]; repeat split; right; by exists query.
Qed.

(** X25.  The playground never shows a raw failure: when the message (an
    ASCII text) asks for a search and the shop's answer makes the search
    fail, whatever the failure, the answer is the apology, as JSON with
    status 200. *)
Theorem playground_apologises_for_failures
    (session : Session) (message : string) (w : World) :
  asciiOnly message = true →
  nonempty message = true →
  wantsSearch (toLowerCase message) = true →
  (∀ request, ∃ e, checkResponse (upstream (sent w) request) = Throw e) →
  fst (playgroundAction session (Some message) w) =
    mkResponse 200 [("Content-Type", "application/json; charset=utf-8")]
      (JObj [("response", JStr "Sorry, I encountered an error. Please try again.");
             ("type", JStr "error")]).
Proof.
  intros _ Hmessage Hsearch Hfail. unfold playgroundAction.
  rewrite Hmessage, Hsearch. cbn [negb]. rewrite searchProducts_run.
  match goal with
  | |- context [checkResponse (upstream (sent w) ?request)] =>
      destruct (Hfail request) as [e ->]
  end.
  reflexivity.
Qed.

(** ** The landing page *)

Lemma lowerChar_not_upper (c : ascii) : isUpper (lowerChar c) = false.
Proof. by destruct c as [[] [] [] [] [] [] [] []]. Qed.

Lemma lowerChar_fixed (c : ascii) : isUpper c = false → lowerChar c = c.
Proof. unfold lowerChar. by intros ->. Qed.

Lemma allChars_app (test : ascii → bool) (a b : string) :
  allChars test (a +:+ b) = allChars test a && allChars test b.
Proof.
  induction a as [|c a IH]; [reflexivity|].
  change (String c a +:+ b) with (String c (a +:+ b)). cbn. by rewrite IH, andb_assoc.
Qed.

Lemma allChars_weaken (test test' : ascii → bool) (s : string) :
  (∀ c, test c = true → test' c = true) → allChars test s = true → allChars test' s = true.
Proof.
  intros Himp. induction s as [|c s IH]; [done|]. cbn.
  intros [Hc Hs]%andb_true_iff. by rewrite (Himp c Hc), IH.
Qed.

Lemma toLowerCase_not_upper (s : string) :
  allChars (λ c, negb (isUpper c)) (toLowerCase s) = true.
Proof.
  induction s as [|c s IH]; [reflexivity|]. cbn. by rewrite lowerChar_not_upper, IH.
Qed.

Lemma dropChars_allChars (test : ascii → bool) (n : nat) (s : string) :
  allChars test s = true → allChars test (dropChars n s) = true.
Proof.
  revert s. induction n as [|n IH]; intros [|c s]; try done. cbn.
  intros [_ Hs]%andb_true_iff. by apply IH.
Qed.

Lemma stripTrailingSlashes_allChars (test : ascii → bool) (s : string) :
  allChars test s = true → allChars test (stripTrailingSlashes s) = true.
Proof.
  induction s as [|c s IH]; [done|]. cbn [allChars stripTrailingSlashes].
  intros [Hc Hs]%andb_true_iff. specialize (IH Hs).
  destruct (stripTrailingSlashes s) as [|x kept].
  - destruct (nat_of_ascii c =? 47)%nat; [done|]. cbn. by rewrite Hc.
  - cbn [allChars]. by rewrite Hc.
Qed.

Lemma normalizeShop_not_upper (input : string) :
  allChars (λ c, negb (isUpper c)) (normalizeShop input) = true.
Proof.
  unfold normalizeShop.
  set (lowered := toLowerCase (trim input)).
  assert (allChars (λ c, negb (isUpper c)) lowered = true) as Hlowered
    by apply toLowerCase_not_upper.
  set (bare := if String.prefix "https://" lowered then _ else _).
  assert (allChars (λ c, negb (isUpper c)) bare = true) as Hbare.
  { unfold bare. destruct (String.prefix "https://" lowered);
      [by apply dropChars_allChars|].
    destruct (String.prefix "http://" lowered); [by apply dropChars_allChars|done]. }
  pose proof (stripTrailingSlashes_allChars _ _ Hbare) as Hstripped.
  destruct (includes _ _); [done|]. by rewrite allChars_app, Hstripped.
Qed.

Lemma afterLabel_split (s rest : string) :
  afterLabel s = rest →
  ∃ label, s = label +:+ rest ∧ allChars isLabelChar label = true.
Proof.
  revert rest. induction s as [|c s IH]; intros rest.
  - intros <-. by exists EmptyString.
  - cbn. destruct (isLabelChar c) eqn:Hc.
    + intros (label & -> & Hlabel)%IH. exists (String c label). split; [done|].
      cbn. by rewrite Hc.
    + intros <-. by exists EmptyString.
Qed.

(** X26.  The landing page sends no one to the install flow under a name
    that is not a shop domain: whenever its action redirects on an ASCII
    input, the target is
    [/auth?shop=] followed by the encoding of [<label>.myshopify.com], where
    the label starts with a digit or a lower-case letter and goes on with
    digits, lower-case letters and hyphens only. *)
Theorem landing_redirects_only_to_shop_domains (input : string) :
  asciiOnly input = true →
  resp_status (landingAction (Some input)) = 302%nat →
  ∃ label,
    shopLabel label = true
    ∧ landingAction (Some input)
      = redirect ("/auth?shop=" +:+ encodeURIComponent (label +:+ ".myshopify.com")).
Proof.
  intros _. unfold landingAction.
  destruct (nonempty input); cbn [negb]; [|discriminate].
  destruct (shopifyDomain (normalizeShop input)) eqn:Hvalid; cbn [negb]; [|discriminate].
  intros _. pose proof (normalizeShop_not_upper input) as Hlower.
  destruct (normalizeShop input) as [|c rest]; [discriminate|].
  cbn [shopifyDomain] in Hvalid. apply andb_true_iff in Hvalid as [Hc Hrest].
  apply String.eqb_eq, afterLabel_split in Hrest as (label & -> & Hlabel).
  cbn [allChars] in Hlower. apply andb_true_iff in Hlower as [Hc' Hlower].
  rewrite allChars_app in Hlower. apply andb_true_iff in Hlower as [Hlower _].
  exists (String c label). split; [|reflexivity].
  cbn [shopLabel]. apply andb_true_iff. split.
  - unfold isAlnum in Hc. apply negb_true_iff in Hc'. rewrite Hc' in Hc.
    by rewrite orb_false_r in Hc.
  - clear Hc Hc'. induction label as [|x label IH]; [done|].
    cbn [allChars] in *. apply andb_true_iff in Hlabel as [Hx Hlabel].
    apply andb_true_iff in Hlower as [Hx' Hlower]. rewrite (IH Hlabel Hlower), andb_true_r.
    unfold isLowerLabelChar, isLabelChar, isAlnum in *.
    apply negb_true_iff in Hx'. rewrite Hx' in Hx. by rewrite orb_false_r in Hx.
Qed.

(** A character of a shop domain in lower case: a label character or a dot. *)
Lemma domainChar_plain (c : ascii) :
  isLowerLabelChar c || (nat_of_ascii c =? 46)%nat = true →
  isSpace c = false ∧ isUpper c = false ∧ (nat_of_ascii c =? 47)%nat = false
  ∧ (nat_of_ascii c =? 58)%nat = false ∧ isLabelChar c || (nat_of_ascii c =? 46)%nat = true.
Proof. by destruct c as [[] [] [] [] [] [] [] []]. Qed.

Lemma labelChar_no_dot (c : ascii) :
  isLowerLabelChar c = true → (nat_of_ascii c =? 46)%nat = false ∧ isLabelChar c = true.
Proof. by destruct c as [[] [] [] [] [] [] [] []]. Qed.

Lemma trimStart_plain (s : string) :
  allChars (λ c, negb (isSpace c)) s = true → trimStart s = s.
Proof. destruct s as [|c s]; [done|]. cbn. by intros [->%negb_true_iff _]%andb_true_iff. Qed.

Lemma trimEnd_plain (s : string) :
  allChars (λ c, negb (isSpace c)) s = true → trimEnd s = s.
Proof.
  induction s as [|c s IH]; [done|]. cbn [allChars trimEnd].
  intros [Hc%negb_true_iff Hs]%andb_true_iff. rewrite (IH Hs), Hc. by destruct s.
Qed.

Lemma toLowerCase_plain (s : string) :
  allChars (λ c, negb (isUpper c)) s = true → toLowerCase s = s.
Proof.
  induction s as [|c s IH]; [done|]. cbn [allChars toLowerCase].
  intros [Hc%negb_true_iff Hs]%andb_true_iff. by rewrite (IH Hs), (lowerChar_fixed c Hc).
Qed.

Lemma stripTrailingSlashes_plain (s : string) :
  allChars (λ c, negb (nat_of_ascii c =? 47)%nat) s = true → stripTrailingSlashes s = s.
Proof.
  induction s as [|c s IH]; [done|]. cbn [allChars stripTrailingSlashes].
  intros [Hc%negb_true_iff Hs]%andb_true_iff. rewrite (IH Hs), Hc. by destruct s.
Qed.

Lemma stripTrailingSlashes_slash (s : string) :
  stripTrailingSlashes (s +:+ "/") = stripTrailingSlashes s.
Proof.
  induction s as [|c s IH]; [reflexivity|].
  change (String c s +:+ "/") with (String c (s +:+ "/")).
  cbn [stripTrailingSlashes]. by rewrite IH.
Qed.

Lemma prefix_split (a s : string) :
  String.prefix a s = true → ∃ rest, s = a +:+ rest.
Proof.
  revert s. induction a as [|x a IH]; intros s; [by exists s|].
  destruct s as [|c s]; [done|]. cbn.
  destruct (ascii_dec x c) as [->|]; [|done].
  intros [rest ->]%IH. by exists rest.
Qed.

Lemma prefix_app (a rest : string) : String.prefix a (a +:+ rest) = true.
Proof.
  induction a as [|x a IH]; [by destruct rest|].
  change (String x a +:+ rest) with (String x (a +:+ rest)). cbn.
  by destruct (ascii_dec x x).
Qed.

Lemma dropChars_app (a rest : string) : dropChars (String.length a) (a +:+ rest) = rest.
Proof.
  induction a as [|x a IH]; [by destruct rest|].
  change (String x a +:+ rest) with (String x (a +:+ rest)). by cbn.
Qed.

Lemma includes_app (needle a : string) : includes needle (a +:+ needle) = true.
Proof.
  induction a as [|x a IH].
  - change (EmptyString +:+ needle) with needle.
    destruct needle; cbn [includes]; by rewrite prefix_refl.
  - change (String x a +:+ needle) with (String x (a +:+ needle)).
    cbn [includes]. by rewrite IH, orb_true_r.
Qed.

Lemma includes_dot (needle s : string) :
  allChars (λ c, negb (nat_of_ascii c =? 46)%nat) s = true →
  includes (String "." needle) s = false.
Proof.
  induction s as [|c s IH]; [done|]. cbn [allChars includes].
  intros [Hc%negb_true_iff Hs]%andb_true_iff. rewrite (IH Hs), orb_false_r.
  cbn [String.prefix]. destruct (ascii_dec "." c) as [<-|]; [by vm_compute in Hc|done].
Qed.

Lemma no_protocol (protocol s : string) :
  allChars (λ c, negb (nat_of_ascii c =? 58)%nat) s = true →
  allChars (λ c, negb (nat_of_ascii c =? 58)%nat) protocol = false →
  String.prefix protocol s = false.
Proof.
  intros Hs Hprotocol. destruct (String.prefix protocol s) eqn:Hprefix; [|done].
  apply prefix_split in Hprefix as [rest ->].
  rewrite allChars_app, Hprotocol in Hs. done.
Qed.

Lemma afterLabel_app (label rest : string) :
  allChars isLabelChar label = true → afterLabel (label +:+ rest) = afterLabel rest.
Proof.
  induction label as [|c label IH]; [done|].
  change (String c label +:+ rest) with (String c (label +:+ rest)).
  cbn [allChars afterLabel]. intros [-> Hlabel]%andb_true_iff. by apply IH.
Qed.

Lemma shopLabel_chars (label : string) :
  shopLabel label = true → allChars isLowerLabelChar label = true.
Proof.
  destruct label as [|c label]; [done|]. cbn.
  intros [Hc ->]%andb_true_iff. unfold isLowerLabelChar. by rewrite Hc.
Qed.

Lemma shopLabel_domain (label : string) :
  shopLabel label = true → shopifyDomain (label +:+ ".myshopify.com") = true.
Proof.
  destruct label as [|c label]; [done|]. cbn [shopLabel].
  intros [Hc Hlabel]%andb_true_iff.
  change (String c label +:+ ".myshopify.com") with (String c (label +:+ ".myshopify.com")).
  cbn [shopifyDomain]. rewrite afterLabel_app.
  - unfold isAlnum. apply orb_true_iff in Hc as [-> | ->]; [done|by rewrite orb_true_r].
  - eapply allChars_weaken; [|exact Hlabel]. intros x. apply labelChar_no_dot.
Qed.

(** The domain of a shop label is left as it is by the normalisation. *)
Lemma normalizeShop_domain (label : string) :
  shopLabel label = true →
  normalizeShop (label +:+ ".myshopify.com") = label +:+ ".myshopify.com".
Proof.
  intros Hlabel%shopLabel_chars.
  assert (allChars (λ c, isLowerLabelChar c || (nat_of_ascii c =? 46)%nat)
            (label +:+ ".myshopify.com") = true) as Hdomain.
  { rewrite allChars_app. apply andb_true_iff. split; [|reflexivity].
    eapply allChars_weaken; [|exact Hlabel]. by intros c ->. }
  unfold normalizeShop, trim.
  rewrite trimStart_plain, trimEnd_plain, toLowerCase_plain;
    try (eapply allChars_weaken; [|exact Hdomain]; intros c Hc;
         destruct (domainChar_plain c Hc) as (H1 & H2 & H3 & H4 & H5);
         by rewrite ?H1, ?H2, ?H3, ?H4).
  rewrite !no_protocol; try reflexivity;
    try (eapply allChars_weaken; [|exact Hdomain]; intros c Hc;
         destruct (domainChar_plain c Hc) as (H1 & H2 & H3 & H4 & H5); by rewrite H4).
  rewrite stripTrailingSlashes_plain.
  - by rewrite includes_app.
  - eapply allChars_weaken; [|exact Hdomain]. intros c Hc.
    destruct (domainChar_plain c Hc) as (H1 & H2 & H3 & H4 & H5). by rewrite H3.
Qed.

(** The bare label is completed to its domain. *)
Lemma normalizeShop_label (label : string) :
  shopLabel label = true → normalizeShop label = label +:+ ".myshopify.com".
Proof.
  intros Hlabel%shopLabel_chars.
  assert (allChars (λ c, isLowerLabelChar c || (nat_of_ascii c =? 46)%nat) label = true)
    as Hdomain by (eapply allChars_weaken; [|exact Hlabel]; by intros c ->).
  unfold normalizeShop, trim.
  rewrite trimStart_plain, trimEnd_plain, toLowerCase_plain;
    try (eapply allChars_weaken; [|exact Hdomain]; intros c Hc;
         destruct (domainChar_plain c Hc) as (H1 & H2 & H3 & H4 & H5);
         by rewrite ?H1, ?H2, ?H3, ?H4).
  rewrite !no_protocol; try reflexivity;
    try (eapply allChars_weaken; [|exact Hdomain]; intros c Hc;
         destruct (domainChar_plain c Hc) as (H1 & H2 & H3 & H4 & H5); by rewrite H4).
  rewrite stripTrailingSlashes_plain.
  - rewrite includes_dot; [done|]. eapply allChars_weaken; [|exact Hlabel].
    intros c Hc. destruct (labelChar_no_dot c Hc) as [-> _]. done.
  - eapply allChars_weaken; [|exact Hdomain]. intros c Hc.
    destruct (domainChar_plain c Hc) as (H1 & H2 & H3 & H4 & H5). by rewrite H3.
Qed.

(** The store's address, as copied from a browser, is cut down to the domain. *)
Lemma normalizeShop_address (label : string) :
  shopLabel label = true →
  normalizeShop ("https://" +:+ (label +:+ ".myshopify.com") +:+ "/")
  = label +:+ ".myshopify.com".
Proof.
  intros Hshop. pose proof (shopLabel_chars _ Hshop) as Hlabel.
  assert (allChars (λ c, isLowerLabelChar c || (nat_of_ascii c =? 46)%nat)
            (label +:+ ".myshopify.com") = true) as Hdomain.
  { rewrite allChars_app. apply andb_true_iff. split; [|reflexivity].
    eapply allChars_weaken; [|exact Hlabel]. by intros c ->. }
  assert (∀ test : ascii → bool,
            (∀ c, isLowerLabelChar c || (nat_of_ascii c =? 46)%nat = true → test c = true) →
            allChars test "https://" = true → allChars test "/" = true →
            allChars test ("https://" +:+ (label +:+ ".myshopify.com") +:+ "/") = true)
    as Haddress.
  { intros test Htest Hhead Htail.
    pose proof (allChars_weaken _ test _ Htest Hdomain) as Hmiddle.
    rewrite allChars_app in Hmiddle. by rewrite !allChars_app, Hhead, Htail, Hmiddle. }
  unfold normalizeShop, trim.
  rewrite trimStart_plain, trimEnd_plain, toLowerCase_plain;
    try (apply Haddress; [|reflexivity|reflexivity]; intros c Hc;
         destruct (domainChar_plain c Hc) as (H1 & H2 & H3 & H4 & H5);
         by rewrite ?H1, ?H2).
  rewrite prefix_app.
  change 8%nat with (String.length "https://"). rewrite dropChars_app.
  rewrite stripTrailingSlashes_slash, stripTrailingSlashes_plain.
  - by rewrite includes_app.
  - eapply allChars_weaken; [|exact Hdomain]. intros c Hc.
    destruct (domainChar_plain c Hc) as (H1 & H2 & H3 & H4 & H5). by rewrite H3.
Qed.

(** X27.  The landing page accepts a shop however it is spelled: the bare
    label, the domain and the address copied from a browser all redirect to
    the install flow of the same domain. *)
Theorem landing_accepts_every_spelling (label : string) :
  shopLabel label = true →
  landingAction (Some label)
  = redirect ("/auth?shop=" +:+ encodeURIComponent (label +:+ ".myshopify.com"))
  ∧ landingAction (Some (label +:+ ".myshopify.com")) = landingAction (Some label)
  ∧ landingAction (Some ("https://" +:+ (label +:+ ".myshopify.com") +:+ "/"))
    = landingAction (Some label).
Proof.
  intros Hlabel. pose proof (shopLabel_domain _ Hlabel) as Hdomain.
  assert (nonempty label = true) as Hnonempty by by destruct label.
  assert (landingAction (Some label)
          = redirect ("/auth?shop=" +:+ encodeURIComponent (label +:+ ".myshopify.com")))
    as Hbare.
  { unfold landingAction. by rewrite Hnonempty, normalizeShop_label, Hdomain. }
  split; [exact Hbare|]. rewrite Hbare. split.
  - unfold landingAction. rewrite normalizeShop_domain, Hdomain by done.
    by destruct label.
  - unfold landingAction. by rewrite normalizeShop_address, Hdomain.
Qed.

(** ** What the two routes and the search handler agree on *)

(** X28.  A search that finds products counts no missed opportunity: the
    handler answers with the formatted products and the products themselves
    (the descriptions being ASCII texts, which [substring] cuts where the
    code cuts them), and the world differs from the one before by the one
    request sent and the one search_products interaction logged. *)
Theorem found_products_are_not_missed
    (args : JValue) (q : string) (session : Session) (p : MerchantProfile)
    (reply : GqlBody) (node : ProductNode) (nodes : list ProductNode) (w : World) :
  field "query" args = JStr q →
  checkResponse (upstream (sent w)
     (searchRequest (shop session) (accessToken session) (JStr q)
                    (js_or (field "limit" args) (JNum 10)))) = Return reply →
  data reply = DProducts (node :: nodes) →
  (∀ product, product ∈ node :: nodes → asciiOnly (n_description product) = true) →
  interactions w !! newId (minted w) = None →
  handleToolCall (JStr "search_products") args session (Some p) w =
    (Return (JObj [("type", JStr "text");
                   ("text", JStr (formatProductsForAI (map shapeProduct (node :: nodes))));
                   ("data", JArr (map productJ (map shapeProduct (node :: nodes))))]),
     set_minted (S (minted w))
       (set_interactions
          (insert (newId (minted w))
                  (mkInteraction (profileId p) "search_products" (Some q) None None None None))
          (set_sent (sent w
                     ++ [mkRequest ("https://" +:+ shop session
                                    +:+ "/admin/api/2025-01/graphql.json")
                                   (accessToken session)
                                   (JObj [("query", JStr SEARCH_PRODUCTS_QUERY);
                                          ("variables",
                                           JObj [("query", JStr q);
                                                 ("first", js_or (field "limit" args)
                                                                 (JNum 10))])])]) w)))
  ∧ missed (snd (handleToolCall (JStr "search_products") args session (Some p) w))
    = missed w.
Proof.
  intros Hq Hreply Hdata _ Hfresh.
  assert (handleToolCall (JStr "search_products") args session (Some p) w =
    (Return (JObj [("type", JStr "text");
                   ("text", JStr (formatProductsForAI (map shapeProduct (node :: nodes))));
                   ("data", JArr (map productJ (map shapeProduct (node :: nodes))))]),
     set_minted (S (minted w))
       (set_interactions
          (insert (newId (minted w))
                  (mkInteraction (profileId p) "search_products" (Some q) None None None None))
          (set_sent (sent w
                     ++ [mkRequest ("https://" +:+ shop session
                                    +:+ "/admin/api/2025-01/graphql.json")
                                   (accessToken session)
                                   (JObj [("query", JStr SEARCH_PRODUCTS_QUERY);
                                          ("variables",
                                           JObj [("query", JStr q);
                                                 ("first", js_or (field "limit" args)
                                                                 (JNum 10))])])]) w)))) as Hrun.
  { rewrite handler_search_run, Hq, bind_run, searchProducts_run, js_or_defined by done.
    rewrite Hreply, Hdata. cbn [map length Nat.eqb Nat.ltb Nat.leb].
    rewrite bind_run. cbn [mret M_ret].
    rewrite bind_run, ofProfile_run, bind_run.
    by rewrite logInteraction_fresh by exact Hfresh. }
  split; [exact Hrun|]. by rewrite Hrun.
Qed.

(** X29.  Discovery and the MCP route describe the same gateway: for an
    enabled shop the discovery document lists the tools of the registry, by
    the same names in the same order and with the same required parameters,
    and every capability it lists points at the endpoint the health check of
    the shop reports. *)
Theorem discovery_agrees_with_the_mcp_route
    (session : Session) (p : MerchantProfile) (w : World) :
  nonempty (shop session) = true →
  findSession (shop session) w = Some session →
  profiles w !! shop session = Some p →
  isEnabled p = true →
  map (field "name")
      (elementsOf (field "tools" (resp_body (loader (Return (Some session)) w))))
    = toolNames
  ∧ map (λ tool, field "required" (field "parameters" tool))
        (elementsOf (field "tools" (resp_body (loader (Return (Some session)) w))))
    = map (λ tool, field "required" (field "inputSchema" tool)) (elementsOf TOOLS)
  ∧ ∀ capability,
      capability ∈ elementsOf (field "capabilities"
                                 (resp_body (loader (Return (Some session)) w))) →
      field "mcp_endpoint" capability
      = field "endpoint" (field "mcp" (resp_body (healthLoader (Some (shop session)) w))).
Proof.
  intros Hkey Hsession Hp Hon.
  unfold loader, merchantProfile_findUnique.
  rewrite bind_run. cbn [get_world mret M_ret]. rewrite Hp. cbn [fmap option_fmap option_map default].
  rewrite Hon. cbn [negb].
  unfold healthLoader, session_findFirst. rewrite Hkey. cbn [negb].
  rewrite bind_run. cbn [get_world mret M_ret]. rewrite Hsession.
  split; [reflexivity|]. split; [reflexivity|].
  intros capability Hin. cbn in Hin.
  repeat (apply elem_of_cons in Hin as [->|Hin]; [reflexivity|]).
  by apply elem_of_nil in Hin.
Qed.

End Gateway.

(** * Closed statements *)

(** C8.  For enabled tenants, two tools/list requests with the same request
    id get the same response, byte for byte, whatever the tenants, the
    upstream shops, the worlds and the rest of the two bodies are: the
    response is the JSON-RPC 2.0 object with the request's id whose result
    holds the fixed registry, and the tools read out of the response are
    search_products, get_product, create_checkout and get_store_info in
    this order. *)
Theorem tools_list_is_byte_stable
    (upstream upstream' : list UpstreamRequest → UpstreamRequest → FetchOutcome)
    (newId newId' : nat → string)
    (shopId shopId' : string) (body body' : JValue) (w w' : World) :
  nonempty shopId = true → nonempty shopId' = true →
  tenantEnabled shopId w = true → tenantEnabled shopId' w' = true →
  is_str (field "method" body) "tools/list" = true →
  is_str (field "method" body') "tools/list" = true →
  field "id" body = field "id" body' →
  fst (action upstream newId (Some shopId) (Some body) w)
    = fst (action upstream' newId' (Some shopId') (Some body') w')
  ∧ responseText (fst (action upstream newId (Some shopId) (Some body) w))
    = responseText (fst (action upstream' newId' (Some shopId') (Some body') w'))
  ∧ fst (action upstream newId (Some shopId) (Some body) w)
    = mkResponse 200 [("Content-Type", "application/json; charset=utf-8")]
        (JObj [("jsonrpc", JStr "2.0"); ("id", field "id" body);
               ("result", JObj [("tools", TOOLS)])])
  ∧ map (field "name")
        (elementsOf (field "tools"
           (field "result"
              (resp_body (fst (action upstream newId (Some shopId) (Some body) w))))))
    = [JStr "search_products"; JStr "get_product";
       JStr "create_checkout"; JStr "get_store_info"].
Proof.
  intros Hk Hk' Hon Hon' Hm Hm' Hid.
  rewrite (tools_list_response upstream newId _ _ _ Hk Hon Hm).
  rewrite (tools_list_response upstream' newId' _ _ _ Hk' Hon' Hm').
  rewrite Hid. by repeat split.
Qed.

(** C3.  The request [unknownToolCall] carries the id 7; the tool handler
    throws on it, and the answer is the -32603 envelope with the id [null]
    although the id of the request was at hand. *)
Theorem tool_error_is_answered_with_null_id :
  field "id" unknownToolCall = JNum 7
  ∧ action emptyCatalog demoId (Some demoShop) (Some unknownToolCall) (demoWorld true)
    = (json (rpcError JNull (-32603) "Unknown tool: refund_order"), demoWorld true).
Proof. split; reflexivity. Qed.

(** ** The theorems at work on concrete requests *)

Lemma checkout_is_tagged_witness :
  ∃ result w',
    handleToolCall cartShop demoId (JStr "create_checkout")
      (JObj [("variant_ids", JArr [JStr "gid://shopify/ProductVariant/1"])])
      demoSession (Some (demoProfile true)) (demoWorld true) = (Return result, w')
    ∧ ∃ merchant query interactionId w1 request,
        logInteraction demoId merchant "create_checkout" query None None None None
          (demoWorld true) = (Return interactionId, w1)
        ∧ sent w' = (sent (demoWorld true) ++ [request])%list
        ∧ field "query" (payload request) = JStr CREATE_CART_MUTATION
        ∧ field "attributes" (inputOf request) =
            JArr [JObj [("key", JStr "_source"); ("value", JStr "universal_agent_gateway")];
                  JObj [("key", JStr "_interaction_id"); ("value", JStr interactionId)]]
        ∧ ∃ row cart,
            interactions w' !! interactionId = Some row
            ∧ userIntent row = "create_checkout"
            ∧ ai_checkoutId row = Some cart
            ∧ field "checkoutId" (field "data" result) = JStr cart.
Proof.
  pose (run := handleToolCall cartShop demoId (JStr "create_checkout")
                 (JObj [("variant_ids", JArr [JStr "gid://shopify/ProductVariant/1"])])
                 demoSession (Some (demoProfile true)) (demoWorld true)).
  assert (run = (Return (match fst run with Return r => r | Throw _ => JNull end), snd run))
    as Hrun by (vm_compute; reflexivity).
  eexists _, _. split; [exact Hrun|].
  exact (checkout_is_tagged_with_the_logged_interaction _ _ _ _ _ _ _ _ Hrun).
Defined.

Lemma disabled_tenant_witness :
  nonempty demoShop = true
  ∧ tenantDisabled demoShop (demoWorld false) = true
  ∧ errorCode (fst (action emptyCatalog demoId (Some demoShop) (Some redDress)
                      (demoWorld false))) = JNum (-32603)
  ∧ field "result" (resp_body (fst (action emptyCatalog demoId (Some demoShop)
                                      (Some redDress) (demoWorld false)))) = JUndefined.
Proof.
  split; [reflexivity|]. split; [reflexivity|].
  pose proof (disabled_tenant_gets_error_not_result emptyCatalog demoId demoShop
                (Some redDress) (demoWorld false) eq_refl eq_refl) as (Hcode & Hresult & _).
  by split.
Defined.

Lemma empty_search_witness :
  nonempty demoShop = true
  ∧ tenantEnabled demoShop (demoWorld true) = true
  ∧ fst (action emptyCatalog demoId (Some demoShop) (Some redDress) (demoWorld true)) =
      mkResponse 200 [("Content-Type", "application/json; charset=utf-8")]
        (JObj [("jsonrpc", JStr "2.0"); ("id", JNum 1);
               ("result",
                JObj [("content",
                       JArr [JObj [("type", JStr "text");
                                   ("text", JStr ("No products found for " +:+ dq
                                                  +:+ "red dress" +:+ dq
                                                  +:+ ". Try a different search term."));
                                   ("data", JArr [])]])])])
  ∧ responseText (fst (action emptyCatalog demoId (Some demoShop) (Some redDress)
                         (demoWorld true)))
    = fromSingleQuotes "{'jsonrpc':'2.0','id':1,'result':{'content':[{'type':'text','text':'No products found for \'red dress\'. Try a different search term.','data':[]}]}}"
  ∧ missedCount demoShop "red dress"
      (snd (action emptyCatalog demoId (Some demoShop) (Some redDress) (demoWorld true)))
    = (missedCount demoShop "red dress" (demoWorld true) + 1)%Z.
Proof.
  split; [reflexivity|]. split; [reflexivity|].
  pose proof (empty_search_is_reported_and_counted emptyCatalog demoId demoShop "red dress"
                redDress demoSession (mkBody JUndefined (DProducts [])) (demoWorld true)
                eq_refl eq_refl eq_refl eq_refl eq_refl eq_refl eq_refl eq_refl eq_refl)
    as (Hanswer & _ & Hcount).
  split; [exact Hanswer|]. split; [reflexivity|exact Hcount].
Defined.

Lemma unknown_method_witness :
  nonempty demoShop = true
  ∧ tenantEnabled demoShop (demoWorld true) = true
  ∧ destructurable unknownMethodCall = true
  ∧ knownMethod (field "method" unknownMethodCall) = false
  ∧ fst (action emptyCatalog demoId (Some demoShop) (Some unknownMethodCall) (demoWorld true))
    = mkResponse 200 [("Content-Type", "application/json; charset=utf-8")]
        (JObj [("jsonrpc", JStr "2.0"); ("id", JNum 3);
               ("error", JObj [("code", JNum (-32601));
                               ("message", JStr "Method not found: orders/list")])])
  ∧ responseText (fst (action emptyCatalog demoId (Some demoShop) (Some unknownMethodCall)
                         (demoWorld true)))
    = fromSingleQuotes "{'jsonrpc':'2.0','id':3,'error':{'code':-32601,'message':'Method not found: orders/list'}}"
  ∧ snd (action emptyCatalog demoId (Some demoShop) (Some unknownMethodCall) (demoWorld true))
    = demoWorld true.
Proof.
  do 4 (split; [reflexivity|]).
  destruct (unknown_method_of_enabled_tenant emptyCatalog demoId demoShop unknownMethodCall
              (demoWorld true) eq_refl eq_refl eq_refl eq_refl)
    as (_ & _ & _ & _ & _ & Hanswer & Hworld).
  split; [exact (Hanswer "orders/list" eq_refl)|]. split; [reflexivity|exact Hworld].
Defined.

Lemma upstream_failures_witness :
  fst (searchProducts brokenShop demoShop "shpat_demo" (JStr "red dress") (JNum 5)
         (demoWorld true))
    = Throw (Error "Shopify API error: 500 Internal Server Error")
  ∧ fst (getProductByHandle rejectingShop demoShop "shpat_demo" (JStr "red-dress")
           (demoWorld true))
    = Throw (Error ("GraphQL errors: "
                    +:+ JSON_stringify (JArr [JObj [("message", JStr "Throttled")]])))
  ∧ fst (createCheckoutLink pickyShop demoShop "shpat_demo" (JArr [JStr "v1"]) (JArr [JNum 1])
           "int_0" (demoWorld true))
    = Throw (Error ("Cart creation failed: "
                    +:+ fromSingleQuotes "[{'code':'INVALID','field':['input','lines','0','merchandiseId'],'message':'The merchandise with id v1 does not exist.'}]"))
  ∧ contains (dq +:+ "message" +:+ dq +:+ ":" +:+ dq
              +:+ "The merchandise with id v1 does not exist." +:+ dq)
      ("Cart creation failed: "
       +:+ fromSingleQuotes "[{'code':'INVALID','field':['input','lines','0','merchandiseId'],'message':'The merchandise with id v1 does not exist.'}]").
Proof.
  destruct (client_calls_fail_on_upstream_errors_without_retry brokenShop)
    as (Hsearch & _).
  destruct (client_calls_fail_on_upstream_errors_without_retry rejectingShop)
    as (_ & Hproduct & _).
  destruct (client_calls_fail_on_upstream_errors_without_retry pickyShop)
    as (_ & _ & Hcart & _).
  split; [|split; [|split]].
  - destruct (Hsearch demoShop "shpat_demo" (JStr "red dress") (JNum 5) (demoWorld true))
      as (_ & Hanswer).
    exact (proj1 (Hanswer _ eq_refl) eq_refl).
  - destruct (Hproduct demoShop "shpat_demo" (JStr "red-dress") (demoWorld true))
      as (_ & Hanswer).
    exact (proj2 (Hanswer _ eq_refl) _ eq_refl eq_refl eq_refl).
  - destruct (Hcart demoShop "shpat_demo" [JStr "v1"] (JArr [JNum 1])
                [mkLine (JStr "v1") (JNum 1)] "int_0" eq_refl) as (_ & Herrors).
    destruct (Herrors (demoWorld true) _ _ None [invalidVariant] eq_refl eq_refl eq_refl
                eq_refl eq_refl ltac:(discriminate)) as (Hthrown & _).
    rewrite Hthrown. reflexivity.
  - destruct (Hcart demoShop "shpat_demo" [JStr "v1"] (JArr [JNum 1])
                [mkLine (JStr "v1") (JNum 1)] "int_0" eq_refl) as (_ & Herrors).
    destruct (Herrors (demoWorld true) _ _ None [invalidVariant] eq_refl eq_refl eq_refl
                eq_refl eq_refl ltac:(discriminate)) as (_ & Hkept).
    exact (proj2 (Hkept invalidVariant ltac:(apply list_elem_of_singleton; reflexivity))
             eq_refl).
Defined.

Lemma line_items_witness :
  field "variant_ids" threeVariantArguments
    = JArr [JStr "gid://shopify/ProductVariant/1"; JStr "gid://shopify/ProductVariant/2";
            JStr "gid://shopify/ProductVariant/3"]
  ∧ field "quantities" threeVariantArguments = JArr [JNum 3; JNull]
  ∧ map (λ request, field "lines" (field "input" (field "variables" (payload request))))
        (sent (snd (handleToolCall cartShop demoId (JStr "create_checkout")
                      threeVariantArguments demoSession (Some (demoProfile true))
                      (demoWorld true))))
    = [JArr [JObj [("merchandiseId", JStr "gid://shopify/ProductVariant/1");
                   ("quantity", JNum 3)];
             JObj [("merchandiseId", JStr "gid://shopify/ProductVariant/2");
                   ("quantity", JNum 1)];
             JObj [("merchandiseId", JStr "gid://shopify/ProductVariant/3");
                   ("quantity", JNum 1)]]].
Proof.
  split; [reflexivity|]. split; [reflexivity|].
  destruct (line_items_align_with_variant_ids cartShop demoId threeVariantArguments
              [JStr "gid://shopify/ProductVariant/1"; JStr "gid://shopify/ProductVariant/2";
               JStr "gid://shopify/ProductVariant/3"] demoSession (demoProfile true)
              (demoWorld true) eq_refl eq_refl)
    as (request & lines & Hsent & _ & _ & Hlines & Hlength & Hitem).
  rewrite Hsent. cbn [sent demoWorld app map]. rewrite Hlines. do 2 f_equal.
  pose proof (Hitem 0%nat _ eq_refl) as H0.
  pose proof (Hitem 1%nat _ eq_refl) as H1.
  pose proof (Hitem 2%nat _ eq_refl) as H2.
  destruct lines as [|a [|b [|c [|d rest]]]]; try discriminate Hlength.
  cbn in H0, H1, H2. by injection H0 as ->; injection H1 as ->; injection H2 as ->.
Defined.

Lemma tools_list_witness :
  tenantEnabled demoShop (demoWorld true) = true
  ∧ field "id" (toolsListCall (JNum 1))
    = field "id" (rpcRequest "tools/list" (JNum 1) (JObj [("cursor", JStr "next")]))
  ∧ responseText (fst (action emptyCatalog demoId (Some demoShop)
                         (Some (toolsListCall (JNum 1))) (demoWorld true)))
    = responseText (fst (action cartShop (λ n, pretty n) (Some demoShop)
                           (Some (rpcRequest "tools/list" (JNum 1)
                                    (JObj [("cursor", JStr "next")])))
                           (demoWorld true)))
  ∧ map (field "name")
        (elementsOf (field "tools"
           (field "result"
              (resp_body (fst (action emptyCatalog demoId (Some demoShop)
                                 (Some (toolsListCall (JNum 1))) (demoWorld true)))))))
    = [JStr "search_products"; JStr "get_product";
       JStr "create_checkout"; JStr "get_store_info"]
  ∧ String.prefix
      (fromSingleQuotes "{'jsonrpc':'2.0','id':1,'result':{'tools':[{'name':'search_products','description':'Search for products in the store catalog.")
      (responseText (fst (action emptyCatalog demoId (Some demoShop)
                            (Some (toolsListCall (JNum 1))) (demoWorld true)))) = true.
Proof.
  split; [reflexivity|]. split; [reflexivity|].
  destruct (tools_list_is_byte_stable emptyCatalog cartShop demoId (λ n, pretty n)
              demoShop demoShop (toolsListCall (JNum 1))
              (rpcRequest "tools/list" (JNum 1) (JObj [("cursor", JStr "next")]))
              (demoWorld true) (demoWorld true)
              eq_refl eq_refl eq_refl eq_refl eq_refl eq_refl eq_refl)
    as (_ & Htext & _ & Hnames).
  split; [exact Htext|]. split; [exact Hnames|]. vm_compute. reflexivity.
Defined.

Lemma zero_limit_witness :
  truthy (field "limit" zeroLimitArguments) = false
  ∧ map (λ request, (url request, token request, field "variables" (payload request)))
        (sent (snd (handleToolCall emptyCatalog demoId (JStr "search_products")
                      zeroLimitArguments demoSession (Some (demoProfile true))
                      (demoWorld true))))
    = [("https://demo.myshopify.com/admin/api/2025-01/graphql.json", "shpat_demo",
        JObj [("query", JStr "red dress"); ("first", JNum 10)])].
Proof.
  split; [reflexivity|].
  destruct (falsy_limit_is_replaced_by_10 emptyCatalog demoId zeroLimitArguments demoSession
              (Some (demoProfile true)) (demoWorld true) eq_refl)
    as (request & Hsent & Hurl & Htoken & Hpayload & _).
  rewrite Hsent. cbn [sent demoWorld app map]. by rewrite Hurl, Htoken, Hpayload.
Defined.

Lemma discovery_witness :
  profiles bareWorld !! shop demoSession = None
  ∧ resp_status (loader None (λ s, s) (Return (Some demoSession)) bareWorld) = 200%nat
  ∧ loader None (λ s, s) (Return (Some demoSession)) (demoWorld false)
    = loader None (λ s, s) (Return (Some demoSession)) bareWorld.
Proof.
  split; [reflexivity|].
  destruct (discovery_without_profile_is_disabled None (λ s, s) demoSession bareWorld eq_refl)
    as (Hdoc & Hsame).
  split; [by rewrite Hdoc|].
  exact (Hsame (demoWorld false) (demoProfile false) eq_refl eq_refl).
Defined.

(** ** Where the claims as written fail *)

(** C4, against the envelope as written: the content block of the answer
    to the scenario's request is not the two-member block, it has the
    member [data] as well. *)
Lemma empty_search_block_carries_data :
  field "data"
    (js_index (field "content"
       (field "result"
          (resp_body (fst (action emptyCatalog demoId (Some demoShop) (Some redDress)
                             (demoWorld true)))))) 0) = JArr []
  ∧ resp_body (fst (action emptyCatalog demoId (Some demoShop) (Some redDress) (demoWorld true)))
  ≠ JObj [("jsonrpc", JStr "2.0"); ("id", JNum 1);
          ("result",
           JObj [("content",
                  JArr [JObj [("type", JStr "text");
                              ("text", JStr ("No products found for " +:+ dq +:+ "red dress"
                                             +:+ dq +:+ ". Try a different search term."))]])])].
Proof. split; [reflexivity|]. vm_compute. intros H. discriminate H. Qed.

(** C5, against "every request": under the key of a disabled tenant an
    unknown method is answered with -32603, not -32601. *)
Lemma unknown_method_of_disabled_tenant :
  knownMethod (field "method" unknownMethodCall) = false
  ∧ errorCode (fst (action emptyCatalog demoId (Some demoShop) (Some unknownMethodCall)
                      (demoWorld false))) = JNum (-32603)
  ∧ errorCode (fst (action emptyCatalog demoId (Some demoShop) (Some unknownMethodCall)
                      (demoWorld false))) ≠ JNum (-32601).
Proof. split; [reflexivity|]. split; [reflexivity|]. vm_compute. intros H. discriminate H. Qed.

(** C7, against "quantities[i] when supplied": the quantity 0 supplied at
    index 0 goes upstream as 1. *)
Lemma zero_quantity_is_sent_as_one :
  js_index (field "quantities" (field "arguments" (field "params" zeroQuantityCheckout))) 0
    = JNum 0
  ∧ map (λ request, field "lines" (inputOf request))
        (sent (snd (action cartShop demoId (Some demoShop) (Some zeroQuantityCheckout)
                      (demoWorld true))))
    = [JArr [JObj [("merchandiseId", JStr "gid://shopify/ProductVariant/1");
                   ("quantity", JNum 1)]]]
  ∧ map (λ request, field "quantity" (js_index (field "lines" (inputOf request)) 0))
        (sent (snd (action cartShop demoId (Some demoShop) (Some zeroQuantityCheckout)
                      (demoWorld true))))
    ≠ [js_index (field "quantities"
                   (field "arguments" (field "params" zeroQuantityCheckout))) 0].
Proof.
  split; [reflexivity|]. split; [reflexivity|].
  vm_compute. intros H. discriminate H.
Qed.

(** Two identical empty searches in a row: one row, count 2. *)
Example repeated_empty_search_counts_twice :
  let once := snd (action emptyCatalog demoId (Some demoShop) (Some redDress) (demoWorld true)) in
  let twice := snd (action emptyCatalog demoId (Some demoShop) (Some redDress) once) in
  missedCount demoShop "red dress" once = 1%Z
  ∧ missedCount demoShop "red dress" twice = 2%Z
  ∧ size (missed twice) = 1%nat.
Proof. vm_compute. by repeat split. Qed.

(** ** The further properties at work on concrete requests *)

Lemma demoId_inj (a b : nat) : demoId a = demoId b → a = b.
Proof.
  unfold demoId. intros H.
  change (String "i" (String "n" (String "t" (String "_" (pretty a))))
          = String "i" (String "n" (String "t" (String "_" (pretty b))))) in H.
  injection H as H. by apply (inj pretty).
Qed.

Lemma graphql_success_witness :
  fst (executeShopifyGraphQL emptyCatalog demoShop "shpat_demo" SEARCH_PRODUCTS_QUERY
         (JObj [("query", JStr "red dress"); ("first", JNum 5)]) (demoWorld true))
  = Return (mkBody JUndefined (DProducts [])).
Proof.
  apply (proj1 (executeShopifyGraphQL_succeeds_iff emptyCatalog demoShop "shpat_demo"
                  SEARCH_PRODUCTS_QUERY
                  (JObj [("query", JStr "red dress"); ("first", JNum 5)])
                  (mkBody JUndefined (DProducts [])) (demoWorld true))).
  exists (mkReply 200 "OK" (Some (mkBody JUndefined (DProducts [])))).
  split; [reflexivity|]. split; [cbn; lia|]. split; [cbn; lia|]. by split.
Defined.

Lemma missing_product_witness :
  field "handle" (JObj [("handle", JStr "blue-hat")]) = JStr "blue-hat"
  ∧ fst (handleToolCall missingProductShop demoId (JStr "get_product")
           (JObj [("handle", JStr "blue-hat")]) demoSession (Some (demoProfile true))
           (demoWorld true))
    = Return (JObj [("type", JStr "text");
                    ("text", JStr ("Product with handle " +:+ dq +:+ "blue-hat" +:+ dq
                                   +:+ " not found."))]).
Proof.
  split; [reflexivity|].
  by rewrite (missing_product_is_reported_not_thrown missingProductShop demoId
                (JObj [("handle", JStr "blue-hat")]) "blue-hat" demoSession
                (demoProfile true) (mkBody JUndefined (DProductByHandle None))
                (demoWorld true) eq_refl eq_refl eq_refl eq_refl).
Defined.

Lemma failed_checkout_witness :
  ∃ e row,
    fst (handleToolCall pickyShop demoId (JStr "create_checkout")
           (JObj [("variant_ids", JArr [JStr "v1"])]) demoSession (Some (demoProfile true))
           (demoWorld true)) = Throw e
    ∧ interactions
        (snd (handleToolCall pickyShop demoId (JStr "create_checkout")
                (JObj [("variant_ids", JArr [JStr "v1"])]) demoSession
                (Some (demoProfile true)) (demoWorld true)))
        !! demoId 0 = Some row
    ∧ userIntent row = "create_checkout"
    ∧ ai_checkoutId row = None.
Proof.
  pose (run := handleToolCall pickyShop demoId (JStr "create_checkout")
                 (JObj [("variant_ids", JArr [JStr "v1"])]) demoSession
                 (Some (demoProfile true)) (demoWorld true)).
  assert (fst run = Throw (match fst run with Throw e => e | Return _ => Error EmptyString end))
    as Hrun by (vm_compute; reflexivity).
  destruct (failed_checkout_leaves_its_interaction pickyShop demoId
              (JObj [("variant_ids", JArr [JStr "v1"])]) [JStr "v1"] demoSession
              (demoProfile true) (demoWorld true) _ eq_refl eq_refl Hrun)
    as (row & Hrow & _ & Hintent & Hid & _).
  by eexists _, row.
Defined.

Lemma checkout_without_variant_list_witness :
  ∃ e,
    js_elements "variantIds" JUndefined = Throw e
    ∧ handleToolCall cartShop demoId (JStr "create_checkout") (JObj []) demoSession
        (Some (demoProfile true)) (demoWorld true) = (Throw e, demoWorld true)
    ∧ is_Some (interactions
                 (snd (handleToolCall cartShop demoId (JStr "create_checkout")
                         (JObj [("quantities", JArr [JNum 2])]) demoSession
                         (Some (demoProfile true)) (demoWorld true)))
                 !! demoId 0).
Proof.
  pose (e := match js_elements "variantIds" JUndefined with
             | Throw e => e
             | Return _ => Error EmptyString
             end).
  assert (js_elements "variantIds" JUndefined = Throw e) as He by reflexivity.
  exists e. split; [exact He|]. split.
  - exact (proj1 (checkout_without_variant_list cartShop demoId (JObj []) demoSession
                     (demoProfile true) (demoWorld true) e He) eq_refl).
  - exact (proj1 (proj2 (proj2 (checkout_without_variant_list cartShop demoId
                                   (JObj [("quantities", JArr [JNum 2])]) demoSession
                                   (demoProfile true) (demoWorld true) e He)
                           eq_refl eq_refl))).
Defined.

Lemma unregistered_tool_witness :
  registered (field "name" (field "params" unknownToolCall)) = false
  ∧ fst (action emptyCatalog demoId (Some demoShop) (Some unknownToolCall) (demoWorld true))
    = mkResponse 200 [("Content-Type", "application/json; charset=utf-8")]
        (JObj [("jsonrpc", JStr "2.0"); ("id", JNull);
               ("error", JObj [("code", JNum (-32603));
                               ("message", JStr "Unknown tool: refund_order")])])
  ∧ snd (action emptyCatalog demoId (Some demoShop) (Some unknownToolCall) (demoWorld true))
    = demoWorld true.
Proof.
  split; [reflexivity|].
  destruct (unregistered_tool_changes_nothing emptyCatalog demoId demoShop unknownToolCall
              (demoWorld true) eq_refl eq_refl eq_refl eq_refl eq_refl)
    as (_ & _ & _ & _ & Hanswer & Hworld).
  split; [exact (Hanswer "refund_order" eq_refl)|exact Hworld].
Defined.

Lemma store_info_witness :
  fst (handleToolCall brokenShop demoId (JStr "get_store_info")
         (JObj [("topic", JStr "contact")]) demoSession (Some (demoProfile true))
         (demoWorld true))
  = Return (JObj [("type", JStr "text"); ("text", JStr "No store information available.")]).
Proof.
  rewrite (proj2 (store_info_stays_local brokenShop demoId (JObj [("topic", JStr "contact")])
                    demoSession (demoProfile true) (demoWorld true)) "contact" eq_refl);
    [reflexivity| |reflexivity].
  intros Hin. repeat (apply elem_of_cons in Hin as [Hin|Hin]; [discriminate Hin|]).
  by apply elem_of_nil in Hin.
Defined.

Lemma foreign_resource_witness :
  tenantEnabled demoShop (demoWorld true) = true
  ∧ errorCode (fst (action emptyCatalog demoId (Some demoShop)
                      (Some (readResource "shop://other.myshopify.com/context"))
                      (demoWorld true))) = JNum (-32602).
Proof.
  split; [reflexivity|].
  by rewrite (foreign_resource_is_not_found emptyCatalog demoId demoShop
                (readResource "shop://other.myshopify.com/context") (demoWorld true)
                eq_refl eq_refl eq_refl eq_refl ltac:(discriminate)).
Defined.


Lemma reading_methods_witness :
  readOnlyMethod (field "method" listResources) = true
  ∧ snd (action brokenShop demoId (Some demoShop) (Some listResources) (demoWorld true))
    = demoWorld true.
Proof.
  split; [reflexivity|].
  exact (reading_methods_write_nothing brokenShop demoId demoShop listResources
           (demoWorld true) eq_refl eq_refl eq_refl).
Defined.

Lemma unauthenticated_witness :
  action emptyCatalog demoId (Some otherShop) (Some redDress) (demoWorld true)
  = (mkResponse 200 [("Content-Type", "application/json; charset=utf-8")]
        (JObj [("jsonrpc", JStr "2.0"); ("id", JNull);
               ("error", JObj [("code", JNum (-32603));
                               ("message", JStr "Shop not found")])]), demoWorld true)
  ∧ action emptyCatalog demoId (Some demoShop) (Some redDress) bareWorld
    = (mkResponse 200 [("Content-Type", "application/json; charset=utf-8")]
        (JObj [("jsonrpc", JStr "2.0"); ("id", JNull);
               ("error", JObj [("code", JNum (-32603));
                               ("message", JStr "AI Agent is disabled for this store")])]), bareWorld).
Proof.
  split.
  - exact (proj1 (unauthenticated_requests_are_turned_away emptyCatalog demoId otherShop
                     redDress (demoWorld true) eq_refl) eq_refl).
  - exact (proj2 (unauthenticated_requests_are_turned_away emptyCatalog demoId demoShop
                     redDress bareWorld eq_refl)
             (ex_intro _ demoSession eq_refl) eq_refl).
Defined.

Lemma stored_interactions_witness :
  ∃ row,
    interactions (snd (action emptyCatalog demoId (Some demoShop) (Some redDress)
                         (demoWorld true))) !! demoId 0 = Some row
    ∧ interactions
        (snd (action cartShop demoId (Some demoShop) (Some zeroQuantityCheckout)
                (snd (action emptyCatalog demoId (Some demoShop) (Some redDress)
                        (demoWorld true))))) !! demoId 0 = Some row.
Proof.
  exists (mkInteraction "mp_1" "search_products" (Some "red dress") None None None None).
  assert (interactions (snd (action emptyCatalog demoId (Some demoShop) (Some redDress)
                               (demoWorld true))) !! demoId 0
          = Some (mkInteraction "mp_1" "search_products" (Some "red dress")
                                None None None None)) as Hrow
    by (vm_compute; reflexivity).
  split; [exact Hrow|].
  refine (proj1 (stored_interactions_are_never_changed cartShop demoId (Some demoShop)
                   (Some zeroQuantityCheckout) _ demoId_inj _) (demoId 0) _ Hrow).
  apply (stored_interactions_are_never_changed emptyCatalog demoId (Some demoShop)
           (Some redDress) (demoWorld true) demoId_inj).
  intros k _. apply lookup_empty.
Defined.

Lemma missed_counts_witness :
  ∃ row,
    missed (snd (action emptyCatalog demoId (Some demoShop) (Some redDress)
                   (snd (action emptyCatalog demoId (Some demoShop) (Some redDress)
                           (demoWorld true))))) !! (demoShop, "red dress") = Some row
    ∧ (1 ≤ count row)%Z.
Proof.
  refine (proj1 (missed_counts_never_go_down emptyCatalog demoId (Some demoShop)
                   (Some redDress)
                   (snd (action emptyCatalog demoId (Some demoShop) (Some redDress)
                           (demoWorld true))))
            (demoShop, "red dress") (mkMissed 1 0) _).
  vm_compute. reflexivity.
Defined.

Lemma served_prompt_witness :
  ∃ context,
    fst (getMerchantContext demoShop (demoWorld true)) = Return (Some context)
    ∧ field "text"
        (js_index (field "contents"
           (field "result"
              (resp_body (fst (action emptyCatalog demoId (Some demoShop)
                                 (Some (readResource "shop://demo.myshopify.com/context"))
                                 (demoWorld true)))))) 0)
      = JStr (buildSystemPrompt context).
Proof.
  destruct (served_prompt_is_the_context_prompt emptyCatalog demoId demoShop
              (readResource "shop://demo.myshopify.com/context") (demoProfile true)
              (demoWorld true) eq_refl eq_refl eq_refl eq_refl eq_refl eq_refl)
    as (context & Hcontext & Hbody).
  exists context. split; [by rewrite Hcontext|]. by rewrite Hbody.
Defined.

Lemma health_check_witness :
  field "agentEnabled" (resp_body (healthLoader None (λ s, s) (Some demoShop) (demoWorld false)))
    = JBool false
  ∧ fst (action emptyCatalog demoId (Some demoShop) (Some (toolsListCall (JNum 1)))
           (demoWorld false))
    = mkResponse 200 [("Content-Type", "application/json; charset=utf-8")]
        (JObj [("jsonrpc", JStr "2.0"); ("id", JNull);
               ("error", JObj [("code", JNum (-32603));
                               ("message", JStr "AI Agent is disabled for this store")])])
  ∧ field "agentEnabled" (resp_body (healthLoader None (λ s, s) (Some demoShop) (demoWorld true)))
    = JBool true
  ∧ field "tools"
      (field "result"
         (resp_body (fst (action emptyCatalog demoId (Some demoShop)
                            (Some (toolsListCall (JNum 1))) (demoWorld true))))) = TOOLS.
Proof.
  destruct (proj2 (health_check_agrees_with_dispatcher emptyCatalog demoId None (λ s, s)
                     demoShop (toolsListCall (JNum 1)) (demoWorld false) eq_refl)
              (ex_intro _ demoSession eq_refl))
    as (_ & Hflag & _ & Hoff).
  destruct (proj2 (health_check_agrees_with_dispatcher emptyCatalog demoId None (λ s, s)
                     demoShop (toolsListCall (JNum 1)) (demoWorld true) eq_refl)
              (ex_intro _ demoSession eq_refl))
    as (_ & Hflag' & Hon & _).
  split; [exact Hflag|]. split; [exact (Hoff eq_refl)|]. split; [exact Hflag'|].
  by rewrite (Hon eq_refl eq_refl).
Defined.

Lemma discovery_name_witness :
  lacks "." "demo" = true
  ∧ field "store" (resp_body (loader None (λ s, s) (Return (Some demoSession)) (demoWorld true)))
    = JObj [("name", JStr "demo"); ("domain", JStr "demo.myshopify.com")].
Proof.
  split; [reflexivity|].
  exact (proj2 (proj2 (discovery_names_the_store_by_its_label None (λ s, s) "demo" demoSession
                         (demoProfile true) (demoWorld true)
                         eq_refl eq_refl eq_refl eq_refl))).
Defined.

Lemma uninstall_witness :
  findSession demoShop (tables (handleAppUninstalled demoShop (mkLedger twoShops ∅))) = None
  ∧ findSession otherShop (tables (handleAppUninstalled demoShop (mkLedger twoShops ∅)))
    = Some (mkSession otherShop "shpat_other").
Proof.
  destruct (uninstall_removes_the_shop_and_nothing_else demoShop (mkLedger twoShops ∅))
    as (Hgone & _ & _ & Hothers).
  split; [exact Hgone|].
  by rewrite (proj1 (Hothers otherShop ltac:(discriminate))).
Defined.

Lemma uninstalled_shop_witness :
  fst (action emptyCatalog demoId (Some demoShop) (Some redDress)
         (tables (webhookAction "APP_UNINSTALLED" demoShop JNull (mkLedger twoShops ∅))))
    = mkResponse 200 [("Content-Type", "application/json; charset=utf-8")]
        (JObj [("jsonrpc", JStr "2.0"); ("id", JNull);
               ("error", JObj [("code", JNum (-32603));
                               ("message", JStr "Shop not found")])])
  ∧ tenantEnabled otherShop
      (tables (webhookAction "APP_UNINSTALLED" demoShop JNull (mkLedger twoShops ∅))) = true.
Proof.
  destruct (uninstalled_shop_is_turned_away emptyCatalog demoId None (λ s, s) demoShop redDress
              (mkLedger twoShops ∅) eq_refl) as (Hclosed & _ & Hothers).
  split; [by rewrite Hclosed|].
  by rewrite (Hothers otherShop ltac:(discriminate)).
Defined.

Lemma attributed_order_witness :
  interactions (tables openLedger) !! "int_0" = Some checkoutRow
  ∧ conversions (webhookAction "ORDERS_CREATE" demoShop demoOrder openLedger) !! "int_0"
    = Some (mkConversion true "1001" "10.00").
Proof.
  split; [reflexivity|].
  rewrite (order_of_a_gateway_cart_is_attributed demoShop "int_0"
             [mkLine (JStr "gid://shopify/ProductVariant/1") (JNum 1)] demoOrder checkoutRow
             openLedger eq_refl eq_refl eq_refl).
  reflexivity.
Defined.

Lemma checkout_then_order_witness :
  ∃ result w',
    handleToolCall cartShop demoId (JStr "create_checkout")
      (JObj [("variant_ids", JArr [JStr "gid://shopify/ProductVariant/1"])])
      demoSession (Some (demoProfile true)) (demoWorld true) = (Return result, w')
    ∧ conversions (webhookAction "ORDERS_CREATE" demoShop demoOrder (mkLedger w' ∅))
        !! demoId 0
      = Some (mkConversion true "1001" "10.00").
Proof.
  pose (run := handleToolCall cartShop demoId (JStr "create_checkout")
                 (JObj [("variant_ids", JArr [JStr "gid://shopify/ProductVariant/1"])])
                 demoSession (Some (demoProfile true)) (demoWorld true)).
  assert (run = (Return (match fst run with Return r => r | Throw _ => JNull end), snd run))
    as Hrun by (vm_compute; reflexivity).
  eexists _, _. split; [exact Hrun|].
  destruct (checkout_then_order_converts_its_interaction cartShop demoId _ _ _ _ _ _
              demoOrder demoShop ∅ Hrun eq_refl) as [Hconverted _].
  - intros request Hlast. vm_compute in Hlast. injection Hlast as <-. reflexivity.
  - exact Hconverted.
Defined.

Lemma webhooks_witness :
  tables (webhookAction "ORDERS_CREATE" demoShop demoOrder openLedger) = tables openLedger
  ∧ conversionsAttached (webhookAction "ORDERS_CREATE" demoShop demoOrder openLedger).
Proof.
  destruct (webhooks_keep_conversions_attached "ORDERS_CREATE" demoShop demoOrder openLedger)
    as (Htables & Hattached).
  split; [exact (Htables ltac:(discriminate))|].
  apply Hattached. intros id [row Hrow].
  change (conversions openLedger) with (∅ : gmap string Conversion) in Hrow.
  by rewrite lookup_empty in Hrow.
Defined.

Lemma toggle_witness :
  tenantEnabled demoShop
    (snd (dashboardAction plainDefaults (λ stamp, stamp) demoSession (toggleForm "off")
            (demoWorld true))) = false
  ∧ fst (action emptyCatalog demoId (Some demoShop) (Some redDress)
           (snd (dashboardAction plainDefaults (λ stamp, stamp) demoSession (toggleForm "off")
                   (demoWorld true))))
    = mkResponse 200 [("Content-Type", "application/json; charset=utf-8")]
        (JObj [("jsonrpc", JStr "2.0"); ("id", JNull);
               ("error", JObj [("code", JNum (-32603));
                               ("message", JStr "AI Agent is disabled for this store")])]).
Proof.
  destruct (toggle_decides_the_dispatcher emptyCatalog demoId plainDefaults (λ stamp, stamp)
              demoSession (toggleForm "off") redDress (demoWorld true)
              eq_refl (ex_intro _ demoSession eq_refl) eq_refl) as (Hflag & Hoff).
  split; [exact Hflag|]. exact (Hoff ltac:(discriminate)).
Defined.

Lemma toggle_keeps_witness :
  ∃ row,
    profiles (snd (dashboardAction plainDefaults (λ stamp, stamp) demoSession
                     (toggleForm "false") (demoWorld true))) !! demoShop = Some row
    ∧ brandVoice row = "friendly" ∧ profileId row = "mp_1".
Proof.
  destruct (proj1 (toggle_changes_only_the_flag plainDefaults (λ stamp, stamp) demoSession
                     (toggleForm "false") (demoWorld true)) eq_refl)
    as (_ & _ & _ & _ & Hkept).
  destruct (Hkept (demoProfile true) eq_refl) as (row & Hrow & Hid & Hvoice & _).
  exists row. split; [exact Hrow|]. by rewrite Hvoice, Hid.
Defined.

Lemma playground_witness :
  interactions (snd (playgroundAction emptyCatalog demoSession (Some "please find a red dress")
                       (demoWorld true))) = ∅
  ∧ missed (snd (playgroundAction emptyCatalog demoSession (Some "please find a red dress")
                   (demoWorld true))) = ∅
  ∧ map (λ request, (url request, field "variables" (payload request)))
        (sent (snd (playgroundAction emptyCatalog demoSession
                      (Some "please find a red dress") (demoWorld true))))
    = [("https://demo.myshopify.com/admin/api/2025-01/graphql.json",
        JObj [("query", JStr "a red dress"); ("first", JNum 5)])].
Proof.
  destruct (playground_only_searches emptyCatalog demoSession (Some "please find a red dress")
              (demoWorld true)) as (_ & _ & Hlog & _ & Hmissed & Hsent).
  - intros text [= <-]. reflexivity.
  - split; [exact Hlog|]. split; [exact Hmissed|].
    destruct Hsent as [Hnone|(query & _ & Hone)].
    + exfalso. vm_compute in Hnone. discriminate Hnone.
    + rewrite Hone. cbn [sent demoWorld app map url payload field assoc String.eqb Ascii.eqb Bool.eqb].
      do 3 f_equal.
      assert (sent (snd (playgroundAction emptyCatalog demoSession
                           (Some "please find a red dress") (demoWorld true)))
              = [mkRequest "https://demo.myshopify.com/admin/api/2025-01/graphql.json"
                   "shpat_demo"
                   (JObj [("query", JStr SEARCH_PRODUCTS_QUERY);
                          ("variables", JObj [("query", JStr "a red dress");
                                              ("first", JNum 5)])])]) as Hrun
        by (vm_compute; reflexivity).
      rewrite Hrun in Hone. by injection Hone as <-.
Defined.

Lemma playground_apology_witness :
  wantsSearch (toLowerCase "I NEED shoes") = true
  ∧ field "type" (resp_body (fst (playgroundAction brokenShop demoSession (Some "I NEED shoes")
                                    (demoWorld true)))) = JStr "error".
Proof.
  split; [reflexivity|].
  by rewrite (playground_apologises_for_failures brokenShop demoSession "I NEED shoes"
                (demoWorld true) eq_refl eq_refl eq_refl (λ _, ex_intro _ _ eq_refl)).
Defined.

Lemma landing_redirect_witness :
  resp_status (landingAction (λ s, s) (Some " HTTPS://My-Store.myshopify.com// ")) = 302%nat
  ∧ ∃ label,
      shopLabel label = true
      ∧ landingAction (λ s, s) (Some " HTTPS://My-Store.myshopify.com// ")
        = redirect ("/auth?shop=" +:+ (label +:+ ".myshopify.com")).
Proof.
  split; [reflexivity|].
  exact (landing_redirects_only_to_shop_domains (λ s, s) " HTTPS://My-Store.myshopify.com// "
           eq_refl eq_refl).
Defined.

Lemma landing_spelling_witness :
  shopLabel "your-store" = true
  ∧ landingAction (λ s, s) (Some "https://your-store.myshopify.com/")
    = landingAction (λ s, s) (Some "your-store").
Proof.
  split; [reflexivity|].
  exact (proj2 (proj2 (landing_accepts_every_spelling (λ s, s) "your-store" eq_refl))).
Defined.

Lemma found_products_witness :
  field "query" (field "arguments" (field "params" redDress)) = JStr "red dress"
  ∧ asciiOnly (n_description redDressNode) = true
  ∧ missed (snd (handleToolCall stockedShop demoId (JStr "search_products")
                   (field "arguments" (field "params" redDress)) demoSession
                   (Some (demoProfile true)) (demoWorld true))) = ∅
  ∧ ∃ data,
      fst (handleToolCall stockedShop demoId (JStr "search_products")
             (field "arguments" (field "params" redDress)) demoSession
             (Some (demoProfile true)) (demoWorld true))
      = Return (JObj [("type", JStr "text");
                      ("text", JStr ("1. **Red Dress**" +:+ nl
                                     +:+ "   - Price: USD 49.00" +:+ nl
                                     +:+ "   - 1 variant(s) available" +:+ nl
                                     +:+ "   - Handle: red-dress" +:+ nl
                                     +:+ "   - Description: A red dress...."));
                      ("data", JArr [data])])
      ∧ field "handle" data = JStr "red-dress"
      ∧ field "id" (js_index (field "variants" data) 0)
        = JStr "gid://shopify/ProductVariant/1".
Proof.
  split; [reflexivity|]. split; [reflexivity|].
  destruct (found_products_are_not_missed stockedShop demoId
              (field "arguments" (field "params" redDress)) "red dress" demoSession
              (demoProfile true) (mkBody JUndefined (DProducts [redDressNode]))
              redDressNode [] (demoWorld true) eq_refl eq_refl eq_refl) as (Hrun & Hmissed).
  - intros product ->%list_elem_of_singleton. reflexivity.
  - reflexivity.
  - split; [by rewrite Hmissed|].
    exists (productJ (shapeProduct redDressNode)). rewrite Hrun. by repeat split.
Defined.

Lemma discovery_agreement_witness :
  map (field "name")
      (elementsOf (field "tools"
         (resp_body (loader (Some "https://gateway.example") (λ s, s)
                       (Return (Some demoSession)) (demoWorld true)))))
  = [JStr "search_products"; JStr "get_product"; JStr "create_checkout";
     JStr "get_store_info"].
Proof.
  exact (proj1 (discovery_agrees_with_the_mcp_route (Some "https://gateway.example") (λ s, s)
                  demoSession (demoProfile true) (demoWorld true)
                  eq_refl eq_refl eq_refl eq_refl)).
Defined.
